(** * BioTupload: a shallow embedding of [src/BioTupload.py]

    The script provisions one device on a remote platform: it parses the
    command line, logs in, fetches reference data, creates a registration
    code and a device, and finally writes a traceability file.  Every
    function of the script updates one global integer, [EXECUTION_STATUS].

    The embedding keeps the script's shape: one Rocq definition per Python
    function, the module globals in a record, and a small state and
    exception monad for the control flow.  What lies outside the script
    (the [requests] library, [argparse], the file system, the clock) is an
    explicit environment. *)

From Stdlib Require Import ZArith List String Ascii Bool Lia DecimalString.
Import ListNotations.

Local Open Scope string_scope.
Local Open Scope Z_scope.
Set Warnings "-register-all".

(** ** Python strings

    A [str] is modelled as a [string] whose characters are the code points
    U+0000 to U+00FF (Latin-1).  That range holds the ASCII digits and the
    three superscript digits U+00B2, U+00B3 and U+00B9, which is all the
    serial-number check distinguishes. *)

Module PyStr.

Definition ord (c : ascii) : Z := Z.of_N (N_of_ascii c).

(** Characters with the Unicode property Decimal (class Nd): the ones
    [int()] accepts as digits. *)
Definition is_decimal (c : ascii) : bool :=
  (48 <=? ord c) && (ord c <=? 57).

(** Characters accepted by [str.isdigit]: Numeric_Type Decimal or Digit.
    Below U+0100 these are 0-9 and the superscripts two, three and one. *)
Definition is_digit (c : ascii) : bool :=
  is_decimal c || (ord c =? 178) || (ord c =? 179) || (ord c =? 185).

Fixpoint all_chars (p : ascii -> bool) (s : string) : bool :=
  match s with
  | EmptyString => true
  | String c r => p c && all_chars p r
  end.

(** [s.isdigit()]: at least one character, all of them digits. *)
Definition isdigit (s : string) : bool :=
  match s with
  | EmptyString => false
  | _ => all_chars is_digit s
  end.

(** [len(s)] *)
Definition len (s : string) : Z := Z.of_nat (String.length s).

Fixpoint digits_value (acc : Z) (s : string) : Z :=
  match s with
  | EmptyString => acc
  | String c r => digits_value (10 * acc + (ord c - 48)) r
  end.

(** [int(s)] on the strings that reach it in this script: non-empty and
    made of [isdigit] characters only (no sign, blank or underscore).  On
    those, [int] succeeds exactly when every character is a decimal digit
    and raises [ValueError] otherwise; [None] stands for the raise. *)
Definition int (s : string) : option Z :=
  match s with
  | EmptyString => None
  | _ => if all_chars is_decimal s then Some (digits_value 0 s) else None
  end.

(** [str(n)] for an integer. *)
Definition of_Z (n : Z) : string := NilZero.string_of_int (Z.to_int n).

(** The character of a decimal digit [0 <= n <= 9]. *)
Definition digit (n : Z) : ascii := ascii_of_nat (48 + Z.to_nat n).

(** The superscript two, U+00B2. *)
Definition superscript_two : ascii := ascii_of_nat 178.

End PyStr.

(** ** Python values *)

(** What [json.loads] returns and [json.dumps] accepts.  Numbers are
    integers: the identifiers and names this script moves around are
    strings. *)
Inductive json : Type :=
  | JNull
  | JBool (b : bool)
  | JInt (n : Z)
  | JStr (s : string)
  | JArr (items : list json)
  | JObj (members : list (string * json)).

(** A value of the parsed command line: a [str], or [None] for an omitted
    optional flag. *)
Inductive argval : Type :=
  | ANone
  | AStr (s : string).

Definition json_of_argval (v : argval) : json :=
  match v with
  | ANone => JNull
  | AStr s => JStr s
  end.

(** [str(v)], as [print] and f-strings apply it. *)
Definition str_of_argval (v : argval) : string :=
  match v with
  | ANone => "None"
  | AStr s => s
  end.

(** The dictionary [vars(namespace)]: flag name to value. *)
Definition pydict := list (string * argval).

Fixpoint dict_lookup (k : string) (d : pydict) : option argval :=
  match d with
  | [] => None
  | (k', v) :: r => if String.eqb k k' then Some v else dict_lookup k r
  end.

(** ** Exceptions *)

Inductive exn : Type :=
  | SystemExit (code : Z)
  | HTTPError
  | ConnectionError
  | RequestsJSONDecodeError
  | ValueError
  | KeyError
  | TypeError
  | IndexError
  | AttributeError
  | NameError
  | UnboundLocalError
  | OSError.

(** [except Exception] catches everything but [SystemExit], which derives
    from [BaseException] only. *)
Definition is_Exception (e : exn) : bool :=
  match e with
  | SystemExit _ => false
  | _ => true
  end.

(** [except requests.exceptions.RequestException]: the errors the
    [requests] library raises itself.  Since requests 2.27 the error of
    [response.json()] is one of them. *)
Definition is_RequestException (e : exn) : bool :=
  match e with
  | HTTPError | ConnectionError | RequestsJSONDecodeError => true
  | _ => false
  end.

Inductive result (A : Type) : Type :=
  | Ok (a : A)
  | Raise (e : exn).
Arguments Ok {A} a.
Arguments Raise {A} e.

(** ** The world outside the script *)

Inductive http_method : Type := GET | POST.

(** Request headers: the content type, and, once logged in, the value the
    bearer token is built from ("Bearer " followed by [str(token)]). *)
Record headers : Type := mkHeaders {
  content_type : string;
  bearer : option json
}.

(** A request as handed to [requests.get] or [requests.post].  The body is
    the value that is serialised ([json=...] or [data=json.dumps(...)]). *)
Record request : Type := mkRequest {
  rq_method : http_method;
  rq_url : string;
  rq_headers : headers;
  rq_body : option json
}.

(** A [requests.Response]: the status code of the answer, and its body
    when it decodes as JSON. *)
Record response : Type := mkResponse {
  status_code : Z;
  content : option json
}.

(** Whether [raise_for_status] raises for the response: it does for the
    client errors, 400 to 499, and the server errors, 500 to 599, and for
    no other code. *)
Definition error_status (r : response) : bool :=
  (400 <=? status_code r) && (status_code r <? 600).
Arguments error_status : simpl never.

(** What a call into [requests] yields: no response at all (connection
    refused, timeout, DNS failure), or a response. *)
Inductive http_reply : Type :=
  | NoReply
  | Reply (r : response).

(** Things the script does to the outside, in order. *)
Inductive event : Type :=
  | Sent (r : request)
  | Slept (seconds : Z).

(** What is written on standard output, one item per call of [print] or
    of [write]: the text of an exception, or a string. *)
Inductive line : Type :=
  | Message (e : exn)
  | Text (s : string).

(** The file system as the script sees it: which directories exist, which
    paths the operating system lets it open for writing, and the content
    of the files. *)
Record filesystem : Type := mkFs {
  directory_exists : string -> bool;
  write_permitted : string -> bool;
  file_content : string -> option string
}.

(** [os.path]: the part that depends on the platform. *)
Record os_path : Type := mkOsPath {
  path_join : string -> string -> string;
  path_dirname : string -> string
}.

(** The command line, as [argparse] sorts it out.  Either it stops the
    process itself: for a usage error it writes its message on standard
    error and exits with code 2; for [-h] (the parser of [parse_arguments]
    keeps the default [add_help]) it writes the help text, whose layout
    depends on the terminal, on standard output and exits with code 0.
    Or every required flag is there, each given once, with [-env] among
    its choices, and the flags' raw strings are these. *)
Inductive command_line : Type :=
  | ArgparseExit (code : Z)
  | ArgparseHelp (text : string)
  | Flags (env user password sn org rc description version : string)
          (output : option string).

Record date : Type := mkDate { year : Z; month : Z; day : Z }.

(** ** Module globals and the state of a run *)

Record endpoints : Type := mkEndpoints {
  api_login : string;
  api_post_registration_code : string;
  api_get_organizations : string;
  api_get_template_registration_code : string;
  api_get_template_onasport_device : string;
  api_post_onasport_device : string
}.

(** The globals of the module ([None] in an [option]: not assigned yet),
    the one local of [main] its handler reads, and the effects so far. *)
Record state : Type := mkState {
  EXECUTION_STATUS : Z;
  ORGANIZATIONS_DIC : list (json * json);
  data : option (option pydict);
  headers_login : option headers;
  payload : option json;
  apis : option endpoints;
  headers_apis : option headers;
  response_json_list_organizations : option json;
  template_id_registration_code : option json;
  onasport_device_template_id : option json;
  output_directory : option argval;
  events : list event;
  stdout : list line;
  disk : filesystem
}.

Definition initial_state (fs : filesystem) : state :=
  {| EXECUTION_STATUS := 0;
     ORGANIZATIONS_DIC := [];
     data := None;
     headers_login := None;
     payload := None;
     apis := None;
     headers_apis := None;
     response_json_list_organizations := None;
     template_id_registration_code := None;
     onasport_device_template_id := None;
     output_directory := None;
     events := [];
     stdout := [];
     disk := fs |}.

(** ** A state and exception monad *)

Definition M (A : Type) : Type := state -> result A * state.

Definition ret {A} (a : A) : M A := fun s => (Ok a, s).

Definition raise {A} (e : exn) : M A := fun s => (Raise e, s).

Definition bind {A B} (m : M A) (k : A -> M B) : M B :=
  fun s =>
    match m s with
    | (Ok a, s') => k a s'
    | (Raise e, s') => (Raise e, s')
    end.

(** [try: body  except <class>: handler] *)
Definition try_except {A} (body : M A) (catches : exn -> bool)
    (handler : exn -> M A) : M A :=
  fun s =>
    match body s with
    | (Ok a, s') => (Ok a, s')
    | (Raise e, s') => if catches e then handler e s' else (Raise e, s')
    end.

Definition lift {A} (r : result A) : M A :=
  match r with
  | Ok a => ret a
  | Raise e => raise e
  end.

Declare Scope py_scope.
Delimit Scope py_scope with py.
Notation "x <- m ;; k" := (bind m (fun x => k))
  (at level 61, m at next level, right associativity) : py_scope.
Notation "m ;;; k" := (bind m (fun _ => k))
  (at level 61, right associativity) : py_scope.
Local Open Scope py_scope.

Definition get_state : M state := fun s => (Ok s, s).

Definition modify (f : state -> state) : M unit := fun s => (Ok tt, f s).

(** Assignment to one global, the others kept. *)
Definition set_EXECUTION_STATUS (v : Z) (s : state) : state :=
  {| EXECUTION_STATUS := v; ORGANIZATIONS_DIC := ORGANIZATIONS_DIC s;
     data := data s; headers_login := headers_login s;
     payload := payload s; apis := apis s; headers_apis := headers_apis s;
     response_json_list_organizations := response_json_list_organizations s;
     template_id_registration_code := template_id_registration_code s;
     onasport_device_template_id := onasport_device_template_id s;
     output_directory := output_directory s; events := events s;
     stdout := stdout s; disk := disk s |}.

Definition set_ORGANIZATIONS_DIC (v : list (json * json)) (s : state) : state :=
  {| EXECUTION_STATUS := EXECUTION_STATUS s; ORGANIZATIONS_DIC := v;
     data := data s; headers_login := headers_login s;
     payload := payload s; apis := apis s; headers_apis := headers_apis s;
     response_json_list_organizations := response_json_list_organizations s;
     template_id_registration_code := template_id_registration_code s;
     onasport_device_template_id := onasport_device_template_id s;
     output_directory := output_directory s; events := events s;
     stdout := stdout s; disk := disk s |}.

Definition set_data (v : option (option pydict)) (s : state) : state :=
  {| EXECUTION_STATUS := EXECUTION_STATUS s;
     ORGANIZATIONS_DIC := ORGANIZATIONS_DIC s; data := v;
     headers_login := headers_login s; payload := payload s;
     apis := apis s; headers_apis := headers_apis s;
     response_json_list_organizations := response_json_list_organizations s;
     template_id_registration_code := template_id_registration_code s;
     onasport_device_template_id := onasport_device_template_id s;
     output_directory := output_directory s; events := events s;
     stdout := stdout s; disk := disk s |}.

Definition set_headers_login (v : option headers) (s : state) : state :=
  {| EXECUTION_STATUS := EXECUTION_STATUS s;
     ORGANIZATIONS_DIC := ORGANIZATIONS_DIC s; data := data s;
     headers_login := v; payload := payload s; apis := apis s;
     headers_apis := headers_apis s;
     response_json_list_organizations := response_json_list_organizations s;
     template_id_registration_code := template_id_registration_code s;
     onasport_device_template_id := onasport_device_template_id s;
     output_directory := output_directory s; events := events s;
     stdout := stdout s; disk := disk s |}.

Definition set_payload (v : option json) (s : state) : state :=
  {| EXECUTION_STATUS := EXECUTION_STATUS s;
     ORGANIZATIONS_DIC := ORGANIZATIONS_DIC s; data := data s;
     headers_login := headers_login s; payload := v; apis := apis s;
     headers_apis := headers_apis s;
     response_json_list_organizations := response_json_list_organizations s;
     template_id_registration_code := template_id_registration_code s;
     onasport_device_template_id := onasport_device_template_id s;
     output_directory := output_directory s; events := events s;
     stdout := stdout s; disk := disk s |}.

Definition set_apis (v : option endpoints) (s : state) : state :=
  {| EXECUTION_STATUS := EXECUTION_STATUS s;
     ORGANIZATIONS_DIC := ORGANIZATIONS_DIC s; data := data s;
     headers_login := headers_login s; payload := payload s; apis := v;
     headers_apis := headers_apis s;
     response_json_list_organizations := response_json_list_organizations s;
     template_id_registration_code := template_id_registration_code s;
     onasport_device_template_id := onasport_device_template_id s;
     output_directory := output_directory s; events := events s;
     stdout := stdout s; disk := disk s |}.

Definition set_headers_apis (v : option headers) (s : state) : state :=
  {| EXECUTION_STATUS := EXECUTION_STATUS s;
     ORGANIZATIONS_DIC := ORGANIZATIONS_DIC s; data := data s;
     headers_login := headers_login s; payload := payload s;
     apis := apis s; headers_apis := v;
     response_json_list_organizations := response_json_list_organizations s;
     template_id_registration_code := template_id_registration_code s;
     onasport_device_template_id := onasport_device_template_id s;
     output_directory := output_directory s; events := events s;
     stdout := stdout s; disk := disk s |}.

Definition set_response_json_list_organizations (v : option json) (s : state) : state :=
  {| EXECUTION_STATUS := EXECUTION_STATUS s;
     ORGANIZATIONS_DIC := ORGANIZATIONS_DIC s; data := data s;
     headers_login := headers_login s; payload := payload s;
     apis := apis s; headers_apis := headers_apis s;
     response_json_list_organizations := v;
     template_id_registration_code := template_id_registration_code s;
     onasport_device_template_id := onasport_device_template_id s;
     output_directory := output_directory s; events := events s;
     stdout := stdout s; disk := disk s |}.

Definition set_template_id_registration_code (v : option json) (s : state) : state :=
  {| EXECUTION_STATUS := EXECUTION_STATUS s;
     ORGANIZATIONS_DIC := ORGANIZATIONS_DIC s; data := data s;
     headers_login := headers_login s; payload := payload s;
     apis := apis s; headers_apis := headers_apis s;
     response_json_list_organizations := response_json_list_organizations s;
     template_id_registration_code := v;
     onasport_device_template_id := onasport_device_template_id s;
     output_directory := output_directory s; events := events s;
     stdout := stdout s; disk := disk s |}.

Definition set_onasport_device_template_id (v : option json) (s : state) : state :=
  {| EXECUTION_STATUS := EXECUTION_STATUS s;
     ORGANIZATIONS_DIC := ORGANIZATIONS_DIC s; data := data s;
     headers_login := headers_login s; payload := payload s;
     apis := apis s; headers_apis := headers_apis s;
     response_json_list_organizations := response_json_list_organizations s;
     template_id_registration_code := template_id_registration_code s;
     onasport_device_template_id := v;
     output_directory := output_directory s; events := events s;
     stdout := stdout s; disk := disk s |}.

Definition set_output_directory (v : option argval) (s : state) : state :=
  {| EXECUTION_STATUS := EXECUTION_STATUS s;
     ORGANIZATIONS_DIC := ORGANIZATIONS_DIC s; data := data s;
     headers_login := headers_login s; payload := payload s;
     apis := apis s; headers_apis := headers_apis s;
     response_json_list_organizations := response_json_list_organizations s;
     template_id_registration_code := template_id_registration_code s;
     onasport_device_template_id := onasport_device_template_id s;
     output_directory := v; events := events s; stdout := stdout s;
     disk := disk s |}.

Definition set_events (v : list event) (s : state) : state :=
  {| EXECUTION_STATUS := EXECUTION_STATUS s;
     ORGANIZATIONS_DIC := ORGANIZATIONS_DIC s; data := data s;
     headers_login := headers_login s; payload := payload s;
     apis := apis s; headers_apis := headers_apis s;
     response_json_list_organizations := response_json_list_organizations s;
     template_id_registration_code := template_id_registration_code s;
     onasport_device_template_id := onasport_device_template_id s;
     output_directory := output_directory s; events := v;
     stdout := stdout s; disk := disk s |}.

Definition set_stdout (v : list line) (s : state) : state :=
  {| EXECUTION_STATUS := EXECUTION_STATUS s;
     ORGANIZATIONS_DIC := ORGANIZATIONS_DIC s; data := data s;
     headers_login := headers_login s; payload := payload s;
     apis := apis s; headers_apis := headers_apis s;
     response_json_list_organizations := response_json_list_organizations s;
     template_id_registration_code := template_id_registration_code s;
     onasport_device_template_id := onasport_device_template_id s;
     output_directory := output_directory s; events := events s;
     stdout := v; disk := disk s |}.

Definition set_disk (v : filesystem) (s : state) : state :=
  {| EXECUTION_STATUS := EXECUTION_STATUS s;
     ORGANIZATIONS_DIC := ORGANIZATIONS_DIC s; data := data s;
     headers_login := headers_login s; payload := payload s;
     apis := apis s; headers_apis := headers_apis s;
     response_json_list_organizations := response_json_list_organizations s;
     template_id_registration_code := template_id_registration_code s;
     onasport_device_template_id := onasport_device_template_id s;
     output_directory := output_directory s; events := events s;
     stdout := stdout s; disk := v |}.

(** ** Dictionaries keyed by parsed JSON values ([ORGANIZATIONS_DIC]) *)

(** Lists and dicts are not hashable: using one as a key raises
    [TypeError]. *)
Definition hashable (k : json) : bool :=
  match k with
  | JArr _ | JObj _ => false
  | _ => true
  end.

(** Python's [==] on hashable JSON values ([True == 1], [False == 0]). *)
Definition key_eqb (a b : json) : bool :=
  match a, b with
  | JNull, JNull => true
  | JStr x, JStr y => String.eqb x y
  | JInt x, JInt y => x =? y
  | JBool x, JBool y => Bool.eqb x y
  | JInt x, JBool y => x =? (if y then 1 else 0)
  | JBool x, JInt y => (if x then 1 else 0) =? y
  | _, _ => false
  end.

Fixpoint dic_lookup (k : json) (d : list (json * json)) : option json :=
  match d with
  | [] => None
  | (k', v) :: r => if key_eqb k k' then Some v else dic_lookup k r
  end.

(** [d.get(k)]: the value, or [None] when [k] is not a key. *)
Definition dic_get (d : list (json * json)) (k : json) : json :=
  match dic_lookup k d with
  | Some v => v
  | None => JNull
  end.

(** [d[k] = v] for a hashable [k]: replace the value of an equal key, or
    add the pair. *)
Fixpoint dic_set (k v : json) (d : list (json * json)) : list (json * json) :=
  match d with
  | [] => [(k, v)]
  | (k', v') :: r =>
      if key_eqb k k' then (k', v) :: r else (k', v') :: dic_set k v r
  end.

(** ** Subscripts and iteration on parsed JSON *)

Fixpoint members_lookup (k : string) (m : list (string * json)) : option json :=
  match m with
  | [] => None
  | (k', v) :: r => if String.eqb k k' then Some v else members_lookup k r
  end.

(** [v[k]] for a string [k]: a missing key of a dict is a [KeyError];
    anything that is not a dict refuses a string subscript. *)
Definition getitem (v : json) (k : string) : result json :=
  match v with
  | JObj m =>
      match members_lookup k m with
      | Some x => Ok x
      | None => Raise KeyError
      end
  | _ => Raise TypeError
  end.

(** [v[0]] *)
Definition getitem0 (v : json) : result json :=
  match v with
  | JArr (x :: _) => Ok x
  | JArr [] => Raise IndexError
  | JStr (String c _) => Ok (JStr (String c EmptyString))
  | JStr EmptyString => Raise IndexError
  | JObj _ => Raise KeyError
  | _ => Raise TypeError
  end.

Fixpoint chars (s : string) : list json :=
  match s with
  | EmptyString => []
  | String c r => JStr (String c EmptyString) :: chars r
  end.

(** [for x in v]: the items of a list, the keys of a dict, the characters
    of a string; nothing else is iterable. *)
Definition iterate (v : json) : result (list json) :=
  match v with
  | JArr l => Ok l
  | JObj m => Ok (map (fun kv => JStr (fst kv)) m)
  | JStr s => Ok (chars s)
  | _ => Raise TypeError
  end.

(** ** JSON text, as [json.dump] writes it (with [ensure_ascii]) *)

Module JsonText.

Definition quote : ascii := ascii_of_nat 34.
Definition backslash : ascii := ascii_of_nat 92.
Definition newline : ascii := ascii_of_nat 10.

Definition hex_digit (n : Z) : ascii :=
  match String.get (Z.to_nat n) "0123456789abcdef" with
  | Some c => c
  | None => "0"%char
  end.

Definition escape_char (c : ascii) : string :=
  let n := PyStr.ord c in
  if n =? 34 then String backslash (String quote "")
  else if n =? 92 then String backslash (String backslash "")
  else if n =? 10 then String backslash "n"
  else if n =? 13 then String backslash "r"
  else if n =? 9 then String backslash "t"
  else if n =? 8 then String backslash "b"
  else if n =? 12 then String backslash "f"
  else if (32 <=? n) && (n <=? 126) then String c ""
  else String backslash
         ("u00" ++ String (hex_digit (n / 16)) (String (hex_digit (n mod 16)) "")).

Fixpoint escape (s : string) : string :=
  match s with
  | EmptyString => ""
  | String c r => escape_char c ++ escape r
  end.

Definition dumps_str (s : string) : string :=
  String quote (escape s ++ String quote "").

Definition dumps_argval (v : argval) : string :=
  match v with
  | ANone => "null"
  | AStr s => dumps_str s
  end.

(** [json.dump({"serialNumber": sn, "outputExecutionResult": status}, f,
    indent=4)]: one object, one member per line, no final newline. *)
Definition dump_content (sn : argval) (status : Z) : string :=
  "{" ++ String newline
    ("    " ++ dumps_str "serialNumber" ++ ": " ++ dumps_argval sn ++ ","
     ++ String newline
    ("    " ++ dumps_str "outputExecutionResult" ++ ": " ++ PyStr.of_Z status
     ++ String newline "}")).

Fixpoint dump_members (d : pydict) : string :=
  match d with
  | [] => ""
  | [(k, v)] => dumps_str k ++ ": " ++ dumps_argval v
  | (k, v) :: r => dumps_str k ++ ": " ++ dumps_argval v ++ ", " ++ dump_members r
  end.

(** [json.dump(data, file)] for the parsed command line, on one line. *)
Definition dump_data (d : option pydict) : string :=
  match d with
  | None => "null"
  | Some d => "{" ++ dump_members d ++ "}"
  end.

End JsonText.

(** ** [posixpath] *)

Module PosixPath.

Definition is_sep (c : ascii) : bool := PyStr.ord c =? 47.

Definition starts_with_sep (s : string) : bool :=
  match s with
  | String c _ => is_sep c
  | EmptyString => false
  end.

Fixpoint ends_with_sep (s : string) : bool :=
  match s with
  | EmptyString => false
  | String c EmptyString => is_sep c
  | String _ r => ends_with_sep r
  end.

(** [os.path.join(a, b)] *)
Definition join (a b : string) : string :=
  if starts_with_sep b then b
  else if (String.eqb a "") || ends_with_sep a then a ++ b
  else a ++ "/" ++ b.

Fixpoint has_sep (s : string) : bool :=
  match s with
  | EmptyString => false
  | String c r => is_sep c || has_sep r
  end.

(** [p[:p.rfind('/') + 1]] *)
Fixpoint head (s : string) : string :=
  match s with
  | EmptyString => ""
  | String c r => if has_sep s then String c (head r) else ""
  end.

(** [s.rstrip('/')] *)
Fixpoint rstrip_sep (s : string) : string :=
  match s with
  | EmptyString => ""
  | String c r =>
      let r' := rstrip_sep r in
      if is_sep c && String.eqb r' "" then "" else String c r'
  end.

(** [os.path.dirname(p)] *)
Definition dirname (p : string) : string :=
  let h := head p in
  if PyStr.all_chars is_sep h then h else rstrip_sep h.

Definition posix : os_path := {| path_join := join; path_dirname := dirname |}.

End PosixPath.

(** ** The script *)

(** [datetime.strftime("%y%m%d")] *)
Definition two_digits (n : Z) : string :=
  String (PyStr.digit (n / 10 mod 10)) (String (PyStr.digit (n mod 10)) "").

Definition strftime_ymd (d : date) : string :=
  two_digits (year d mod 100) ++ two_digits (month d) ++ two_digits (day d).

Definition SERIAL_NUMBER_LENGTH_ONASPORT : Z := 10.
Definition MIN_SERIAL_NUMBER_ONASPORT : Z := 1000000000.
Definition MAX_SERIAL_NUMBER_ONASPORT : Z := 9999999999.
Definition URL_DEV : string := "https://api.dev.onalabs.biot-med.com".
Definition URL_PROD : string := "https://api.onalabs.biot-med.com".

Definition set_status (n : Z) : M unit := modify (set_EXECUTION_STATUS n).

Definition emit (e : event) : M unit :=
  modify (fun s => set_events (events s ++ [e]) s).

Definition print (l : line) : M unit :=
  modify (fun s => set_stdout (stdout s ++ [l]) s).

(** Reading a global: [NameError] while it is not assigned. *)
Definition global {A} (name : state -> option A) : M A :=
  fun s =>
    match name s with
    | Some a => (Ok a, s)
    | None => (Raise NameError, s)
    end.

(** [d.get(k, default)]; [None] has no [get]. *)
Definition dict_get (d : option pydict) (k : string) (default : argval)
    : M argval :=
  match d with
  | None => raise AttributeError
  | Some d =>
      ret (match dict_lookup k d with
           | Some v => v
           | None => default
           end)
  end.

(** [open(path, mode)] succeeds when the directory of [path] exists (the
    empty directory name is the current directory) and the operating
    system allows the write. *)
Definition can_open (op : os_path) (fs : filesystem) (path : string) : bool :=
  (String.eqb (path_dirname op path) "" || directory_exists fs (path_dirname op path))
  && write_permitted fs path.

Definition put_file (path text : string) (fs : filesystem) : filesystem :=
  {| directory_exists := directory_exists fs;
     write_permitted := write_permitted fs;
     file_content := fun p => if String.eqb p path then Some text else file_content fs p |}.

Definition add_directory (d : string) (fs : filesystem) : filesystem :=
  {| directory_exists := fun p => String.eqb p d || directory_exists fs p;
     write_permitted := write_permitted fs;
     file_content := file_content fs |}.

(** [os.path.exists(p)]: a directory or a file. *)
Definition path_exists (fs : filesystem) (p : string) : bool :=
  directory_exists fs p ||
  match file_content fs p with
  | Some _ => true
  | None => false
  end.

(** [os.mkdir(d)] as [os.makedirs(..., exist_ok=True)] wraps it: an
    existing directory is accepted; otherwise the directory is made when
    nothing has its name, its parent exists (the empty parent is the
    current directory) and the operating system allows it. *)
Definition mkdir_exist_ok (op : os_path) (d : string) (fs : filesystem)
    : result unit * filesystem :=
  if directory_exists fs d then (Ok tt, fs)
  else if path_exists fs d then (Raise OSError, fs)
  else if (String.eqb (path_dirname op d) "" ||
           directory_exists fs (path_dirname op d)) && write_permitted fs d
  then (Ok tt, add_directory d fs)
  else (Raise OSError, fs).

(** The recursion of [os.makedirs(d, exist_ok=True)]: while the head of
    the name is not empty, is not the name itself (a root) and does not
    exist, the head is made first, with its own missing ancestors; then
    the directory itself is made.  What was made stays when a later step
    fails.  The head of a name is its [dirname], and names are compared
    as they are written.  Each step of a real [os.path] shortens the name;
    [fuel] bounds the number of steps for an arbitrary one, and with
    POSIX paths the bound is never what stops the recursion
    ([makedirs_from_posix_fuel]). *)
Fixpoint makedirs_from (op : os_path) (fuel : nat) (d : string)
    (fs : filesystem) : result unit * filesystem :=
  let head := path_dirname op d in
  let climbed :=
    match fuel with
    | S k =>
        if negb (String.eqb head "") && negb (String.eqb head d)
           && negb (path_exists fs head)
        then makedirs_from op k head fs
        else (Ok tt, fs)
    | O => (Ok tt, fs)
    end in
  match climbed with
  | (Ok _, fs') => mkdir_exist_ok op d fs'
  | (Raise e, fs') => (Raise e, fs')
  end.

Section Script.

(** The environment of one run: the platform's [os.path], the date at
    import time, the command line and the remote servers. *)
Variable ospath : os_path.
Variable today : date.
Variable sys_argv : command_line.
Variable server : request -> http_reply.

Definition DATE : string := strftime_ymd today.

(** [with open(path, 'w') as f: f.write(text)]: the file is replaced. *)
Definition write_file (path text : string) : M unit :=
  fun s =>
    if can_open ospath (disk s) path
    then (Ok tt, set_disk (put_file path text (disk s)) s)
    else (Raise OSError, s).

(** [with open(path, 'a') as f: f.write(text)]: the text is added at the
    end of what the file holds. *)
Definition append_file (path text : string) : M unit :=
  fun s =>
    if can_open ospath (disk s) path
    then
      let old := match file_content (disk s) path with
                 | Some t => t
                 | None => ""
                 end in
      (Ok tt, set_disk (put_file path (old ++ text) (disk s)) s)
    else (Raise OSError, s).

(** [os.makedirs(d, exist_ok=True)]: the empty name is refused; any
    other directory is made together with its missing ancestors. *)
Definition makedirs (d : string) : M unit :=
  fun s =>
    if String.eqb d "" then (Raise OSError, s)
    else
      match makedirs_from ospath (String.length d) d (disk s) with
      | (r, fs) => (r, set_disk fs s)
      end.

(** [os.path.join(a, b)]: both must be strings. *)
Definition os_path_join (a b : argval) : M string :=
  match a, b with
  | AStr a, AStr b => ret (path_join ospath a b)
  | _, _ => raise TypeError
  end.

Definition format_filename (data : option pydict) : M argval :=
  try_except
    (sn <- dict_get data "SerialNumber" (AStr "No_Serial_Number_Available") ;;
     ret (AStr (str_of_argval sn ++ "_" ++ DATE ++ ".json")))
    is_Exception
    (fun _ => set_status 1 ;;; ret ANone).

Definition log_to_json (data : option pydict) (filepath : string) : M unit :=
  try_except
    (makedirs (path_dirname ospath filepath) ;;;
     append_file filepath
       (JsonText.dump_data data ++ String JsonText.newline ""))
    is_Exception
    (fun _ => set_status 2).

Definition generate_json (data : option pydict) (filepath : string) : M unit :=
  try_except
    (sn <- dict_get data "SerialNumber" ANone ;;
     s <- get_state ;;
     write_file filepath (JsonText.dump_content sn (EXECUTION_STATUS s)))
    is_Exception
    (fun _ => set_status 4).

Definition manage_data_json (data : option pydict) (filepath : argval)
    : M argval :=
  try_except
    (filename <- format_filename data ;;
     filepath <- os_path_join filepath filename ;;
     generate_json data filepath ;;;
     ret (AStr filepath))
    is_Exception
    (fun _ => set_status 3 ;;; ret ANone).

(** [int(serial_number)], raising [ValueError] where [int] does. *)
Definition py_int (s : string) : M Z :=
  match PyStr.int s with
  | Some n => ret n
  | None => raise ValueError
  end.

(** The condition is an [or] chain: a later test runs only when the
    earlier ones are false. *)
Definition check_serial_number (serial_number : string) : M string :=
  invalid <-
    (if negb (PyStr.isdigit serial_number) then ret true
     else if negb (PyStr.len serial_number =? SERIAL_NUMBER_LENGTH_ONASPORT)
     then ret true
     else
       n <- py_int serial_number ;;
       if n <? MIN_SERIAL_NUMBER_ONASPORT then ret true
       else
         n' <- py_int serial_number ;;
         ret (n' >? MAX_SERIAL_NUMBER_ONASPORT)) ;;
  (if invalid : bool then set_status 5 else ret tt) ;;;
  ret serial_number.

(** [vars(args)] for an accepted command line. *)
Definition namespace (env user password sn org rc description version : string)
    (output : option string) : pydict :=
  [("Environment", AStr env);
   ("Username", AStr user);
   ("Password", AStr password);
   ("SerialNumber", AStr sn);
   ("Organization", AStr org);
   ("RegistrationCode", AStr rc);
   ("Description", AStr description);
   ("Version", AStr version);
   ("OutputDirectory", match output with
                       | Some o => AStr o
                       | None => ANone
                       end)].

(** [parser.parse_args()]: [argparse] applies [check_serial_number] to the
    [-sn] string and turns a [ValueError] or [TypeError] of a [type]
    function into its usage error, exit code 2.  (The temporary parser
    that [parse_arguments] builds first has [add_help=False], declares no
    argument and cannot fail.)  When [argparse] stops the process the
    globals are lost with it: what a conversion may have assigned to
    [EXECUTION_STATUS] before is not kept. *)
Definition parse_args : M pydict :=
  match sys_argv with
  | ArgparseExit code => raise (SystemExit code)
  | ArgparseHelp text => print (Text text) ;;; raise (SystemExit 0)
  | Flags env user password sn org rc description version output =>
      sn' <- try_except (check_serial_number sn)
               (fun e => match e with
                         | ValueError | TypeError => true
                         | _ => false
                         end)
               (fun _ => raise (SystemExit 2)) ;;
      ret (namespace env user password sn' org rc description version output)
  end.

Definition parse_arguments : M (option pydict) :=
  try_except
    (args <- parse_args ;; ret (Some args))
    is_Exception
    (fun _ => set_status 6 ;;; ret None).

(** [vars(None)] is a [TypeError]. *)
Definition parsed_object_to_dict (parsed_object : option pydict)
    : M (option pydict) :=
  try_except
    (match parsed_object with
     | Some d => ret (Some d)
     | None => raise TypeError
     end)
    is_Exception
    (fun _ => set_status 7 ;;; ret None).

(** [requests.get] and [requests.post]: the request goes out, and either
    a response comes back or the library raises. *)
Definition send (rq : request) : M response :=
  emit (Sent rq) ;;;
  match server rq with
  | NoReply => raise ConnectionError
  | Reply r => ret r
  end.

Definition raise_for_status (r : response) : M unit :=
  if error_status r then raise HTTPError else ret tt.

Definition get_api_call (url : string) (header : headers)
    : M (option response) :=
  try_except
    (response_get <- send (mkRequest GET url header None) ;;
     raise_for_status response_get ;;;
     ret (Some response_get))
    is_Exception
    (fun _ => set_status 8 ;;; ret None).

Definition post_api_call (url : string) (header : headers) (body : json)
    : M (option response) :=
  try_except
    (response_post <- send (mkRequest POST url header (Some body)) ;;
     raise_for_status response_post ;;;
     ret (Some response_post))
    is_Exception
    (fun _ => set_status 9 ;;; ret None).

(** [json.loads((r.content).decode("utf-8"))]: [None] has no [content],
    and a body that does not decode is a [ValueError]. *)
Definition loads_content (r : option response) : M json :=
  match r with
  | None => raise AttributeError
  | Some r =>
      match content r with
      | Some j => ret j
      | None => raise ValueError
      end
  end.

(** [response.json()] *)
Definition response_json (r : response) : M json :=
  match content r with
  | Some j => ret j
  | None => raise RequestsJSONDecodeError
  end.

(** The two dictionaries [add_device] serialises with [json.dumps]. *)
Definition registration_code_body (owner code template : json) : json :=
  JObj [("_ownerOrganization", JObj [("id", owner)]);
        ("_code", code);
        ("_templateId", template)].

Definition device_body (owner registration_code_id sn description version
    template : json) : json :=
  JObj [("_ownerOrganization", JObj [("id", owner)]);
        ("_registrationCode", JObj [("id", registration_code_id)]);
        ("_id", sn);
        ("_description", description);
        ("device_version", version);
        ("_templateId", template)].

(** [ORGANIZATIONS_DIC.get(data.get('Organization'))] *)
Definition owner_organization (data : option pydict) : M json :=
  organization <- dict_get data "Organization" ANone ;;
  s <- get_state ;;
  ret (dic_get (ORGANIZATIONS_DIC s) (json_of_argval organization)).

Definition add_device (data : option pydict) : M unit :=
  try_except
    (owner <- owner_organization data ;;
     code <- dict_get data "RegistrationCode" ANone ;;
     template <- global template_id_registration_code ;;
     let data_registration_code :=
       registration_code_body owner (json_of_argval code) template in
     a <- global apis ;;
     h <- global headers_apis ;;
     response_post_registration_code <-
       post_api_call (api_post_registration_code a) h data_registration_code ;;
     response_json_registration_code <-
       loads_content response_post_registration_code ;;
     registration_code_id <- lift (getitem response_json_registration_code "_id") ;;
     emit (Slept 1) ;;;
     owner' <- owner_organization data ;;
     sn <- dict_get data "SerialNumber" ANone ;;
     description <- dict_get data "Description" ANone ;;
     version <- dict_get data "Version" ANone ;;
     device_template <- global onasport_device_template_id ;;
     let data_device :=
       device_body owner' registration_code_id (json_of_argval sn)
         (json_of_argval description) (json_of_argval version)
         device_template in
     a' <- global apis ;;
     h' <- global headers_apis ;;
     response_post_device <-
       post_api_call (api_post_onasport_device a') h' data_device ;;
     ret tt)
    is_RequestException
    (fun _ => set_status 15).

(** The loop of [template_id]; the right-hand side of the assignment is
    evaluated first. *)
Fixpoint fill_organizations (organizations : list json) : M unit :=
  match organizations with
  | [] => ret tt
  | organization :: rest =>
      id <- lift (getitem organization "_id") ;;
      name <- lift (getitem organization "_name") ;;
      (if hashable name
       then modify (fun s =>
              set_ORGANIZATIONS_DIC (dic_set name id (ORGANIZATIONS_DIC s)) s)
       else raise TypeError) ;;;
      fill_organizations rest
  end.

Definition template_id : M unit :=
  try_except
    (a <- global apis ;;
     h <- global headers_apis ;;
     response_onasport_id_template <-
       get_api_call (api_get_template_onasport_device a) h ;;
     response_json_onasport_id_template <-
       loads_content response_onasport_id_template ;;
     template <- lift (getitem response_json_onasport_id_template "template") ;;
     id <- lift (getitem template "id") ;;
     modify (set_onasport_device_template_id (Some id)) ;;;
     listing <- global response_json_list_organizations ;;
     organizations <- lift (getitem listing "data") ;;
     items <- lift (iterate organizations) ;;
     fill_organizations items ;;;
     d <- global data ;;
     add_device d)
    is_RequestException
    (fun _ => set_status 14).

Definition registration_id : M unit :=
  try_except
    (a <- global apis ;;
     h <- global headers_apis ;;
     response_template_registration_code <-
       get_api_call (api_get_template_registration_code a) h ;;
     response_json_template_registration_code <-
       loads_content response_template_registration_code ;;
     templates <- lift (getitem response_json_template_registration_code "data") ;;
     first <- lift (getitem0 templates) ;;
     id <- lift (getitem first "id") ;;
     modify (set_template_id_registration_code (Some id)) ;;;
     template_id)
    is_RequestException
    (fun _ => set_status 13).

Definition get_organizations : M unit :=
  try_except
    (a <- global apis ;;
     h <- global headers_apis ;;
     response_list_organizations <- get_api_call (api_get_organizations a) h ;;
     listing <- loads_content response_list_organizations ;;
     modify (set_response_json_list_organizations (Some listing)) ;;;
     registration_id)
    is_RequestException
    (fun _ => set_status 12).

Definition signin : M unit :=
  try_except
    (a <- global apis ;;
     p <- global payload ;;
     h <- global headers_login ;;
     response <- send (mkRequest POST (api_login a) h (Some p)) ;;
     raise_for_status response ;;;
     response_json <- response_json response ;;
     access <- lift (getitem response_json "accessJwt") ;;
     token_authorization <- lift (getitem access "token") ;;
     modify (set_headers_apis
               (Some (mkHeaders "application/json" (Some token_authorization)))) ;;;
     get_organizations)
    is_RequestException
    (fun _ => set_status 11).

Definition make_endpoints (base_url : string) : endpoints :=
  {| api_login := base_url ++ "/ums/v2/users/login";
     api_post_registration_code := base_url ++ "/organization/v1/registration-codes";
     api_get_organizations :=
       base_url ++ "/organization/v1/organizations?searchRequest=%7B%22limit%22%3A30%2C%22filter%22%3A%7B%7D%2C%22freeTextSearch%22%3A%22%22%7D";
     api_get_template_registration_code :=
       base_url ++ "/settings/v1/templates/minimized?searchRequest=%7B%22filter%22%3A%7B%22entityTypeName%22%3A%7B%22in%22%3A%5B%22registration-code%22%5D%7D%7D%2C%22limit%22%3A1000%7D";
     api_get_template_onasport_device :=
       base_url ++ "/settings/v1/portal-builder/MANUFACTURER_PORTAL/views-full-info/TEMPLATE_EXPAND?entityTypeName=device&templateId=0acb3d5b-c70b-4101-b8f7-be17c452fbc5";
     api_post_onasport_device := base_url ++ "/device/v2/devices" |}.

(** The local [base_url] after the [if]/[elif] of [define_apis]: assigned
    for the two environments, unbound otherwise. *)
Definition base_url_for (environment : argval) : option string :=
  match environment with
  | AStr e =>
      if String.eqb e "development" then Some URL_DEV
      else if String.eqb e "production" then Some URL_PROD
      else None
  | ANone => None
  end.

Definition define_apis (username password environment : argval) : M unit :=
  try_except
    (let base_url := base_url_for environment in
     modify (set_headers_login (Some (mkHeaders "application/json" None))) ;;;
     modify (set_payload
               (Some (JObj [("username", json_of_argval username);
                            ("password", json_of_argval password)]))) ;;;
     base <- match base_url with
             | Some b => ret b
             | None => raise UnboundLocalError
             end ;;
     modify (set_apis (Some (make_endpoints base))) ;;;
     signin)
    is_Exception
    (fun e => print (Message e) ;;; set_status 10).

(** The local [output_directory] of [main]: unbound until assigned. *)
Definition local_output_directory : M argval :=
  fun s =>
    match output_directory s with
    | Some v => (Ok v, s)
    | None => (Raise UnboundLocalError, s)
    end.

Definition main : M argval :=
  try_except
    (parsed <- parse_arguments ;;
     d <- parsed_object_to_dict parsed ;;
     modify (set_data (Some d)) ;;;
     out <- dict_get d "OutputDirectory" ANone ;;
     modify (set_output_directory (Some out)) ;;;
     s <- get_state ;;
     (if EXECUTION_STATUS s =? 0
      then
        username <- dict_get d "Username" ANone ;;
        password <- dict_get d "Password" ANone ;;
        environment <- dict_get d "Environment" ANone ;;
        define_apis username password environment
      else ret tt) ;;;
     path_to_print <- manage_data_json d out ;;
     ret path_to_print)
    is_Exception
    (fun _ =>
       set_status 16 ;;;
       d <- global data ;;
       out <- local_output_directory ;;
       path_to_print <- manage_data_json d out ;;
       ret path_to_print).

(** What the operating system sees of a run. *)
Record outcome : Type := mkOutcome {
  exit_code : Z;
  final : state
}.

(** [if __name__ == "__main__": print(main())].  The interpreter ends with
    code 0, with the code of a [SystemExit], or with 1 after the traceback
    of any other exception. *)
Definition program (fs : filesystem) : outcome :=
  match main (initial_state fs) with
  | (Ok path, s) =>
      {| exit_code := 0;
         final := set_stdout (stdout s ++ [Text (str_of_argval path)]) s |}
  | (Raise (SystemExit code), s) => {| exit_code := code; final := s |}
  | (Raise _, s) => {| exit_code := 1; final := s |}
  end.

End Script.

(** * Vocabulary of the properties *)

(** ** Serial numbers *)

(** The serial numbers the specification calls well formed: ten decimal
    digits whose value lies between the two bounds. *)
Definition well_formed_serial (sn : string) : Prop :=
  String.length sn = 10%nat /\
  PyStr.all_chars PyStr.is_decimal sn = true /\
  MIN_SERIAL_NUMBER_ONASPORT <= PyStr.digits_value 0 sn <= MAX_SERIAL_NUMBER_ONASPORT.

(** ** What the upload leaves alone

    The functions from [define_apis] down neither touch the file system nor
    rebind [data] or the locals of [main], and none of them raises
    [SystemExit].  [quiet] states this for one computation. *)

Definition untouched (s s' : state) : Prop :=
  disk s' = disk s /\
  output_directory s' = output_directory s /\
  data s' = data s.

Definition no_exit {A} (r : result A) : Prop :=
  match r with
  | Ok _ => True
  | Raise e => is_Exception e = true
  end.

Definition quiet {A} (m : M A) : Prop :=
  forall s, untouched s (snd (m s)) /\ no_exit (fst (m s)).

(** ** The traceability writer *)

(** The name [format_filename] gives the file of a dictionary. *)
Definition filename_of (today : date) (d : pydict) : string :=
  str_of_argval
    (match dict_lookup "SerialNumber" d with
     | Some v => v
     | None => AStr "No_Serial_Number_Available"
     end) ++ "_" ++ DATE today ++ ".json".

(** The serial number [generate_json] records. *)
Definition serial_of (d : pydict) : argval :=
  match dict_lookup "SerialNumber" d with
  | Some v => v
  | None => ANone
  end.

(** The state in which [main] decides whether to upload: [data] and the
    local [output_directory] are assigned. *)
Definition before_upload (d : pydict) (out : argval) (s1 : state) : state :=
  set_output_directory (Some out) (set_data (Some (Some d)) s1).

(** ** Logging in *)

(** The request [signin] sends. *)
Definition login_request (username password : argval) (base : string)
    : request :=
  mkRequest POST (api_login (make_endpoints base))
    (mkHeaders "application/json" None)
    (Some (JObj [("username", json_of_argval username);
                 ("password", json_of_argval password)])).

(** The globals as [define_apis] leaves them when it calls [signin]. *)
Definition apis_defined (username password : argval) (base : string)
    (s : state) : state :=
  set_apis (Some (make_endpoints base))
    (set_payload (Some (JObj [("username", json_of_argval username);
                              ("password", json_of_argval password)]))
       (set_headers_login (Some (mkHeaders "application/json" None)) s)).

(** [response_json["accessJwt"]["token"]] *)
Definition token_of (response_json : json) : result json :=
  match getitem response_json "accessJwt" with
  | Ok access => getitem access "token"
  | Raise e => Raise e
  end.

(** ** Creating the registration code and the device *)

(** [d.get(k)] *)
Definition field (d : pydict) (k : string) : argval :=
  match dict_lookup k d with
  | Some v => v
  | None => ANone
  end.

(** The owner both payloads name: [ORGANIZATIONS_DIC.get(...)]. *)
Definition owner_of (d : pydict) (s : state) : json :=
  dic_get (ORGANIZATIONS_DIC s) (json_of_argval (field d "Organization")).

(** Step A: the request that creates the registration code. *)
Definition registration_code_request (a : endpoints) (h : headers)
    (template : json) (d : pydict) (s : state) : request :=
  mkRequest POST (api_post_registration_code a) h
    (Some (registration_code_body (owner_of d s)
             (json_of_argval (field d "RegistrationCode")) template)).

(** Step B: the request that creates the device. *)
Definition device_request (a : endpoints) (h : headers)
    (registration_code_id device_template : json) (d : pydict) (s : state)
    : request :=
  mkRequest POST (api_post_onasport_device a) h
    (Some (device_body (owner_of d s) registration_code_id
             (json_of_argval (field d "SerialNumber"))
             (json_of_argval (field d "Description"))
             (json_of_argval (field d "Version")) device_template)).

(** ** Running the script again *)

(** What may differ between two runs for the same device on the same
    day: the other flags, and what the platform answers. *)
Record invocation : Type := mkInvocation {
  inv_env : string;
  inv_user : string;
  inv_password : string;
  inv_org : string;
  inv_rc : string;
  inv_description : string;
  inv_version : string;
  inv_server : request -> http_reply
}.

(** One process: the script, run on the disk as it is found, for the
    serial number [sn] and the output directory [dir]. *)
Definition run (ospath : os_path) (today : date) (sn dir : string)
    (i : invocation) (fs : filesystem) : outcome :=
  program ospath today
    (Flags (inv_env i) (inv_user i) (inv_password i) sn (inv_org i)
       (inv_rc i) (inv_description i) (inv_version i) (Some dir))
    (inv_server i) fs.

(** The disk after the processes of the list, one after the other. *)
Fixpoint rerun (ospath : os_path) (today : date) (sn dir : string)
    (l : list invocation) (fs : filesystem) : filesystem :=
  match l with
  | [] => fs
  | i :: r => rerun ospath today sn dir r (disk (final (run ospath today sn dir i fs)))
  end.

(** The path of the traceability file of these runs. *)
Definition traceability_path (ospath : os_path) (today : date)
    (sn dir : string) : string :=
  path_join ospath dir (sn ++ "_" ++ DATE today ++ ".json").

(** ** Sample environments *)

Module Sample.

(** A disk where only the directory [out] exists, and no file. *)
Definition disk_with_out : filesystem :=
  {| directory_exists := fun p => String.eqb p "out";
     write_permitted := fun _ => true;
     file_content := fun _ => None |}.

Definition june_first : date := mkDate 2024 6 1.

(** Servers that answer every request the same way. *)
Definition unreachable (_ : request) : http_reply := NoReply.

Definition refusing (_ : request) : http_reply :=
  Reply (mkResponse 500 None).

Definition answering (body : json) (_ : request) : http_reply :=
  Reply (mkResponse 200 (Some body)).

Definition flags (sn : string) (output : option string) : command_line :=
  Flags "production" "user" "secret" sn "Acme" "RC-1" "ONAS0000" "2.0.0" output.

Definition args (sn : string) (output : option string) : pydict :=
  namespace "production" "user" "secret" sn "Acme" "RC-1" "ONAS0000" "2.0.0" output.

End Sample.

(** A state in which [add_device] can run: logged in, both templates
    known, and no organization in the directory. *)
Definition logged_in_without_organizations : state :=
  set_onasport_device_template_id (Some (JStr "tpl-device"))
    (set_template_id_registration_code (Some (JStr "tpl-code"))
       (set_headers_apis (Some (mkHeaders "application/json" (Some (JStr "jwt"))))
          (set_apis (Some (make_endpoints URL_PROD))
             (initial_state Sample.disk_with_out)))).

(** A platform that accepts the login, lists the given organizations,
    knows both templates, answers Step A as told and accepts Step B. *)
Definition platform (organizations : json) (step_a_reply : http_reply)
    (rq : request) : http_reply :=
  let e := make_endpoints URL_PROD in
  let ok body := Reply (mkResponse 200 (Some body)) in
  if String.eqb (rq_url rq) (api_login e)
  then ok (JObj [("accessJwt", JObj [("token", JStr "jwt")])])
  else if String.eqb (rq_url rq) (api_get_organizations e)
  then ok (JObj [("data", organizations)])
  else if String.eqb (rq_url rq) (api_get_template_registration_code e)
  then ok (JObj [("data", JArr [JObj [("id", JStr "tpl-code")]])])
  else if String.eqb (rq_url rq) (api_get_template_onasport_device e)
  then ok (JObj [("template", JObj [("id", JStr "tpl-device")])])
  else if String.eqb (rq_url rq) (api_post_registration_code e)
  then step_a_reply
  else ok (JObj []).

Definition acme : json :=
  JArr [JObj [("_name", JStr "Acme"); ("_id", JStr "org-1")]].

Definition code_created : http_reply :=
  Reply (mkResponse 200 (Some (JObj [("_id", JStr "code-1")]))).

(** The urls of the requests of a run, and the delays between them. *)
Definition outline (e : event) : string :=
  match e with
  | Sent rq => rq_url rq
  | Slept _ => "sleep"
  end.

(** ** More vocabulary *)

(** Whether a string starts with the character 0. *)
Definition leading_zero (s : string) : bool :=
  match s with
  | String c _ => PyStr.ord c =? 48
  | EmptyString => false
  end.

(** What a file holds, the empty text standing for a file that does not
    exist yet (as opening it in append mode creates it). *)
Definition current_text (fs : filesystem) (path : string) : string :=
  match file_content fs path with
  | Some t => t
  | None => ""
  end.

(** The line [log_to_json] adds for one dictionary. *)
Definition logged_line (d : option pydict) : string :=
  JsonText.dump_data d ++ String JsonText.newline "".

(** ** The status along the upload

    Below [signin] the status is 0 until a call fails: [get_api_call]
    records 8, [post_api_call] records 9, and what is raised afterwards is
    never an exception of [requests].  [chain Q m] states this for one
    computation started with status 0: when it returns the status
    satisfies [Q], and when it raises, the exception is an [Exception]
    that [except RequestException] lets through and the status is 0, 8
    or 9. *)
Definition chain {A} (Q : Z -> Prop) (m : M A) : Prop :=
  forall s,
    EXECUTION_STATUS s = 0 ->
    match m s with
    | (Ok _, s') => Q (EXECUTION_STATUS s')
    | (Raise e, s') =>
        is_RequestException e = false /\ is_Exception e = true /\
        (EXECUTION_STATUS s' = 0 \/ EXECUTION_STATUS s' = 8 \/
         EXECUTION_STATUS s' = 9)
    end.

(** The status of a step that went through. *)
Definition still_zero (n : Z) : Prop := n = 0.

(** The status at the end of the upload: 0, or 9 when the last request
    failed. *)
Definition zero_or_nine (n : Z) : Prop := n = 0 \/ n = 9.

(** The statuses a run can end with. *)
Definition final_status (n : Z) : Prop :=
  n = 0 \/ n = 3 \/ n = 4 \/ n = 5 \/ n = 9 \/ n = 10 \/ n = 11.

(** ** The order of the requests *)

(** The seven steps of a complete upload: the login, the three queries,
    the registration code, the delay and the device. *)
Definition steps (e : endpoints) : list string :=
  [api_login e; api_get_organizations e; api_get_template_registration_code e;
   api_get_template_onasport_device e; api_post_registration_code e;
   "sleep"; api_post_onasport_device e].

(** An event without what it carries: the method and the url of a
    request, the length of a delay. *)
Inductive step : Type :=
  | Request (method : http_method) (url : string)
  | Delay (seconds : Z).

Definition step_of (e : event) : step :=
  match e with
  | Sent rq => Request (rq_method rq) (rq_url rq)
  | Slept n => Delay n
  end.

(** The same seven steps, each request with its method: [signin] and
    [add_device] post, the three queries get, and the delay is of one
    second. *)
Definition workflow (e : endpoints) : list step :=
  [Request POST (api_login e);
   Request GET (api_get_organizations e);
   Request GET (api_get_template_registration_code e);
   Request GET (api_get_template_onasport_device e);
   Request POST (api_post_registration_code e);
   Delay 1;
   Request POST (api_post_onasport_device e)].

(** [paced e l m]: with the endpoints [e] in place, [m] keeps them and
    only adds events, whose steps are exactly [l] when it returns and a
    first part of [l] when it raises. *)
Definition paced {A} (e : endpoints) (l : list step) (m : M A) : Prop :=
  forall s,
    apis s = Some e ->
    apis (snd (m s)) = Some e /\
    exists added,
      events (snd (m s)) = (events s ++ added)%list /\
      match fst (m s) with
      | Ok _ => map step_of added = l
      | Raise _ => exists k, map step_of added = firstn k l
      end.

(** [partly e l m]: with the endpoints [e] in place, [m] keeps them and
    only adds events, whose steps are a first part of [l], however it
    ends. *)
Definition partly {A} (e : endpoints) (l : list step) (m : M A) : Prop :=
  forall s,
    apis s = Some e ->
    apis (snd (m s)) = Some e /\
    exists added k,
      events (snd (m s)) = (events s ++ added)%list /\
      map step_of added = firstn k l.

(** The base url a command line selects ([URL_PROD] standing in when it
    selects none). *)
Definition selected_base (argv : command_line) : string :=
  match argv with
  | Flags env _ _ _ _ _ _ _ _ =>
      match base_url_for (AStr env) with
      | Some base => base
      | None => URL_PROD
      end
  | ArgparseExit _ | ArgparseHelp _ => URL_PROD
  end.

(** ** The requests and answers of a complete upload *)

(** The headers of every request after the login. *)
Definition api_headers (token : json) : headers :=
  mkHeaders "application/json" (Some token).

(** One of the three queries. *)
Definition query (url : string) (token : json) : request :=
  mkRequest GET url (api_headers token) None.

(** The server answers the request with a status for which
    [raise_for_status] does not raise and with this JSON body. *)
Definition accepts (server : request -> http_reply) (rq : request)
    (body : json) : Prop :=
  exists r, server rq = Reply r /\ error_status r = false /\ content r = Some body.

(** The server refuses the request (a status from 400 to 599), or does
    not answer it. *)
Definition rejects (server : request -> http_reply) (rq : request) : Prop :=
  server rq = NoReply \/ exists r, server rq = Reply r /\ error_status r = true.

(** [response_json['data'][0]['id']] *)
Definition first_template (listing : json) : result json :=
  match getitem listing "data" with
  | Ok templates =>
      match getitem0 templates with
      | Ok first => getitem first "id"
      | Raise e => Raise e
      end
  | Raise e => Raise e
  end.

(** [response_json['template']['id']] *)
Definition device_template_of (view : json) : result json :=
  match getitem view "template" with
  | Ok template => getitem template "id"
  | Raise e => Raise e
  end.

(** The loop of [template_id] on the dictionary alone: how it ends, and
    the dictionary it leaves (the entries before a failing one stay). *)
Fixpoint filled (organizations : list json) (dic : list (json * json))
    : result unit * list (json * json) :=
  match organizations with
  | [] => (Ok tt, dic)
  | organization :: rest =>
      match getitem organization "_id" with
      | Raise e => (Raise e, dic)
      | Ok id =>
          match getitem organization "_name" with
          | Raise e => (Raise e, dic)
          | Ok name =>
              if hashable name then filled rest (dic_set name id dic)
              else (Raise TypeError, dic)
          end
      end
  end.

(** The items of the organization listing: [for ... in listing['data']]. *)
Definition listed_organizations (listing : json) : result (list json) :=
  match getitem listing "data" with
  | Ok organizations => iterate organizations
  | Raise e => Raise e
  end.

(** The identifier the listing gives a name: the one of the last
    organization with that name. *)
Fixpoint listed_id (name : string) (organizations : list json) : option json :=
  match organizations with
  | [] => None
  | organization :: rest =>
      match listed_id name rest with
      | Some id => Some id
      | None =>
          match getitem organization "_name", getitem organization "_id" with
          | Ok (JStr n), Ok id => if String.eqb n name then Some id else None
          | _, _ => None
          end
      end
  end.

(** An organization as the loop expects it: an object with a string
    [_name] and an [_id]. *)
Definition named_organization (organization : json) : Prop :=
  exists n id,
    getitem organization "_name" = Ok (JStr n) /\
    getitem organization "_id" = Ok id.

(** The state in which [signin] calls [get_organizations]: the login
    request is sent and the bearer token is in [headers_apis]. *)
Definition logged_in (username password : argval) (base : string)
    (token : json) (s : state) : state :=
  set_headers_apis (Some (api_headers token))
    (set_events (events s ++ [Sent (login_request username password base)])
       (apis_defined username password base s)).

(** Step A and Step B as a run sends them. *)
Definition code_request (base : string) (token owner code template : json)
    : request :=
  mkRequest POST (api_post_registration_code (make_endpoints base))
    (api_headers token) (Some (registration_code_body owner code template)).

Definition device_creation_request (base : string)
    (token owner registration_code_id sn description version template : json)
    : request :=
  mkRequest POST (api_post_onasport_device (make_endpoints base))
    (api_headers token)
    (Some (device_body owner registration_code_id sn description version
             template)).

(** ** What a computation keeps, and what its requests carry *)

(** [keeps p m]: [m] leaves the part [p] of the state as it was. *)
Definition keeps {X A} (p : state -> X) (m : M A) : Prop :=
  forall s, p (snd (m s)) = p s.

(** The event is not a request, or a request with these headers. *)
Definition carries (h : headers) (ev : event) : Prop :=
  match ev with
  | Sent rq => rq_headers rq = h
  | Slept _ => True
  end.

(** [sends_with h m]: with [h] in [headers_apis], [m] keeps it there and
    every request it sends has the headers [h]. *)
Definition sends_with {A} (h : headers) (m : M A) : Prop :=
  forall s,
    headers_apis s = Some h ->
    headers_apis (snd (m s)) = Some h /\
    exists added,
      events (snd (m s)) = (events s ++ added)%list /\
      Forall (carries h) added.

(** ** Where exceptions stop *)

(** [m] always returns, and leaves the status as it was or at one of
    [codes]. *)
Definition returns_with {A} (codes : list Z) (m : M A) : Prop :=
  forall s, exists a s',
    m s = (Ok a, s') /\
    (EXECUTION_STATUS s' = EXECUTION_STATUS s \/ In (EXECUTION_STATUS s') codes).

(** No exception of [requests] leaves [m], and no [SystemExit]: what
    leaves it is another [Exception]. *)
Definition lets_others_through {A} (m : M A) : Prop :=
  forall s e s',
    m s = (Raise e, s') ->
    is_RequestException e = false /\ is_Exception e = true.

(** On this command line the conversion of the serial number returns:
    [argparse] is given a value for [-sn], whatever its status. *)
Definition serial_converts (argv : command_line) : Prop :=
  match argv with
  | Flags _ _ _ sn _ _ _ _ _ =>
      forall s, fst (check_serial_number sn s) = Ok sn
  | _ => True
  end.

(** ** Reaching Step A *)

(** The state in which [template_id] calls [add_device] when the login and
    the three queries went through: the three queries are sent after the
    login, and their results are in the globals. *)
Definition ready_for_step_a (username password : argval) (base : string)
    (token listing code_template device_template : json)
    (dic : list (json * json)) (s : state) : state :=
  let e := make_endpoints base in
  let s1 := logged_in username password base token s in
  let s2 := set_response_json_list_organizations (Some listing)
              (set_events
                 (events s1 ++ [Sent (query (api_get_organizations e) token)])
                 s1) in
  let s3 := set_template_id_registration_code (Some code_template)
              (set_events
                 (events s2 ++
                  [Sent (query (api_get_template_registration_code e) token)])
                 s2) in
  set_ORGANIZATIONS_DIC dic
    (set_onasport_device_template_id (Some device_template)
       (set_events
          (events s3 ++
           [Sent (query (api_get_template_onasport_device e) token)])
          s3)).

(** Step A fails: the request is rejected or not answered, or it is
    accepted with a body from which no [_id] can be read. *)
Definition step_a_fails (server : request -> http_reply) (rq : request) : Prop :=
  rejects server rq \/
  exists r,
    server rq = Reply r /\ error_status r = false /\
    (content r = None \/
     exists j e, content r = Some j /\ getitem j "_id" = Raise e).

(** ** A login answered with an unusual status *)

(** A platform that answers the login with the status [code] and a body
    that holds a token, and every other request as [platform] does for the
    organization [acme]. *)
Definition unusual_login (code : Z) (rq : request) : http_reply :=
  if String.eqb (rq_url rq) (api_login (make_endpoints URL_PROD))
  then Reply (mkResponse code
                (Some (JObj [("accessJwt", JObj [("token", JStr "jwt")])])))
  else platform acme code_created rq.

(** A platform on which only the login succeeds. *)
Definition login_only (rq : request) : http_reply :=
  if String.eqb (rq_url rq) (api_login (make_endpoints URL_PROD))
  then Reply (mkResponse 200
                (Some (JObj [("accessJwt", JObj [("token", JStr "jwt")])])))
  else NoReply.

(** * Properties *)

(** ** Serial numbers *)


Lemma decimal_is_digit (s : string) :
  PyStr.all_chars PyStr.is_decimal s = true ->
  PyStr.all_chars PyStr.is_digit s = true.
Proof.
  induction s as [|c r IH]; cbn [PyStr.all_chars]; [reflexivity|].
  intros H. apply andb_true_iff in H as [Hc Hr].
  rewrite (IH Hr). unfold PyStr.is_digit. rewrite Hc. reflexivity.
Qed.

Lemma well_formed_isdigit (sn : string) :
  well_formed_serial sn -> PyStr.isdigit sn = true.
Proof.
  intros (Hl & Hd & _). destruct sn as [|c r]; [discriminate Hl|].
  unfold PyStr.isdigit. now apply decimal_is_digit.
Qed.

Lemma well_formed_int (sn : string) :
  well_formed_serial sn -> PyStr.int sn = Some (PyStr.digits_value 0 sn).
Proof.
  intros (Hl & Hd & _). destruct sn as [|c r]; [discriminate Hl|].
  unfold PyStr.int. now rewrite Hd.
Qed.

(** A well-formed serial number leaves the status as it was. *)
Lemma check_serial_number_well_formed (sn : string) (s : state) :
  well_formed_serial sn -> check_serial_number sn s = (Ok sn, s).
Proof.
  intros W. pose proof (well_formed_isdigit sn W) as Hd.
  pose proof (well_formed_int sn W) as Hi.
  destruct W as (Hl & _ & Hlo & Hhi).
  unfold check_serial_number, bind, py_int, PyStr.len.
  rewrite Hd, Hl, Hi. simpl negb. cbv iota. unfold ret.
  replace (PyStr.digits_value 0 sn <? MIN_SERIAL_NUMBER_ONASPORT) with false
    by (symmetry; apply Z.ltb_ge; exact Hlo).
  replace (PyStr.digits_value 0 sn >? MAX_SERIAL_NUMBER_ONASPORT) with false
    by (symmetry; rewrite Z.gtb_ltb; apply Z.ltb_ge; exact Hhi).
  reflexivity.
Qed.

(** The three ways [check_serial_number] can end. *)
Lemma check_serial_number_cases (sn : string) (s : state) :
  check_serial_number sn s = (Ok sn, s) \/
  check_serial_number sn s = (Ok sn, set_EXECUTION_STATUS 5 s) \/
  check_serial_number sn s = (Raise ValueError, s).
Proof.
  unfold check_serial_number, bind, py_int, set_status, modify, ret, raise.
  destruct (PyStr.isdigit sn); simpl; [|auto].
  destruct (PyStr.len sn =? SERIAL_NUMBER_LENGTH_ONASPORT); simpl; [|auto].
  destruct (PyStr.int sn) as [n|]; [|auto].
  destruct (n <? MIN_SERIAL_NUMBER_ONASPORT); [auto|].
  destruct (n >? MAX_SERIAL_NUMBER_ONASPORT); auto.
Qed.

(** A string that is not made of digits, or has another length, or whose
    value is out of range, sets the status to 5 and is returned. *)
Lemma check_serial_number_rejects (sn : string) (s : state) :
  PyStr.isdigit sn = false \/
  String.length sn <> 10%nat \/
  (exists n, PyStr.int sn = Some n /\
             (n < MIN_SERIAL_NUMBER_ONASPORT \/ MAX_SERIAL_NUMBER_ONASPORT < n)) ->
  check_serial_number sn s = (Ok sn, set_EXECUTION_STATUS 5 s).
Proof.
  intros H.
  unfold check_serial_number, bind, py_int, set_status, modify, ret, raise.
  destruct (PyStr.isdigit sn) eqn:Hd; simpl; [|reflexivity].
  destruct (PyStr.len sn =? SERIAL_NUMBER_LENGTH_ONASPORT) eqn:Hl; simpl;
    [|reflexivity].
  destruct H as [H | [H | (n & Hn & Hr)]]; [discriminate H | |].
  - exfalso. apply H. apply Z.eqb_eq in Hl. unfold PyStr.len in Hl.
    unfold SERIAL_NUMBER_LENGTH_ONASPORT in Hl. lia.
  - rewrite Hn. destruct (n <? MIN_SERIAL_NUMBER_ONASPORT) eqn:Hlo; [reflexivity|].
    destruct Hr as [Hr | Hr]; [apply Z.ltb_ge in Hlo; lia|].
    replace (n >? MAX_SERIAL_NUMBER_ONASPORT) with true; [reflexivity|].
    symmetry. rewrite Z.gtb_ltb. now apply Z.ltb_lt.
Qed.

(** [check_serial_number] raises exactly on the ten-character strings
    that [isdigit] accepts and that hold a digit which is not decimal. *)
Lemma check_serial_number_raises_iff (sn : string) (s : state) :
  check_serial_number sn s = (Raise ValueError, s) <->
  PyStr.isdigit sn = true /\ String.length sn = 10%nat /\
  PyStr.all_chars PyStr.is_decimal sn = false.
Proof.
  unfold check_serial_number, bind, py_int, set_status, modify, ret, raise,
    PyStr.len, SERIAL_NUMBER_LENGTH_ONASPORT.
  destruct (PyStr.isdigit sn) eqn:D; simpl.
  - destruct (Z.of_nat (String.length sn) =? 10) eqn:L; simpl.
    + apply Z.eqb_eq in L.
      assert (I : PyStr.int sn
                  = if PyStr.all_chars PyStr.is_decimal sn
                    then Some (PyStr.digits_value 0 sn) else None).
      { destruct sn; [discriminate D | reflexivity]. }
      rewrite I. destruct (PyStr.all_chars PyStr.is_decimal sn).
      * destruct (_ <? _); [|destruct (_ >? _)];
          (split; [discriminate | intros (_ & _ & F); discriminate F]).
      * split; [intros _; repeat split; lia | reflexivity].
    + apply Z.eqb_neq in L.
      split; [discriminate | intros (_ & F & _); lia].
  - split; [discriminate | intros (F & _); discriminate F].
Qed.

(** C2.  [check_serial_number] on the ten-character string made of the
    digits 123456789 and a superscript two (U+00B2): [isdigit] accepts it,
    the length is 10, and [int] raises [ValueError]; the status is not
    set and nothing is returned. *)
Theorem check_serial_number_superscript_raises :
  forall s : state,
    check_serial_number ("123456789" ++ String PyStr.superscript_two "") s
    = (Raise ValueError, s).
Proof. intros s. reflexivity. Qed.

(** ** What the upload leaves alone *)


Lemma untouched_refl (s : state) : untouched s s.
Proof. repeat split. Qed.

Lemma untouched_trans (s1 s2 s3 : state) :
  untouched s1 s2 -> untouched s2 s3 -> untouched s1 s3.
Proof.
  intros (a & b & c) (a' & b' & c'). repeat split; congruence.
Qed.

Section Quiet.

Context {A B : Type}.

Lemma quiet_ret (a : A) : quiet (ret a).
Proof. intros s. split; [apply untouched_refl | exact I]. Qed.

Lemma quiet_raise (e : exn) : is_Exception e = true -> quiet (@raise A e).
Proof. intros H s. split; [apply untouched_refl | exact H]. Qed.

Lemma quiet_bind (m : M A) (k : A -> M B) :
  quiet m -> (forall a, quiet (k a)) -> quiet (bind m k).
Proof.
  intros Hm Hk s. unfold bind. specialize (Hm s).
  destruct (m s) as [[a|e] s1]; simpl in Hm.
  - destruct Hm as [U _]. destruct (Hk a s1) as [U' N].
    split; [eapply untouched_trans; eassumption | exact N].
  - exact Hm.
Qed.

Lemma quiet_try_except (body : M A) (catches : exn -> bool)
    (handler : exn -> M A) :
  quiet body -> (forall e, quiet (handler e)) ->
  quiet (try_except body catches handler).
Proof.
  intros Hb Hh s. unfold try_except. specialize (Hb s).
  destruct (body s) as [[a|e] s1]; simpl in Hb; [exact Hb|].
  destruct (catches e); [|exact Hb].
  destruct Hb as [U _]. destruct (Hh e s1) as [U' N].
  split; [eapply untouched_trans; eassumption | exact N].
Qed.

Lemma quiet_lift (r : result A) : no_exit r -> quiet (lift r).
Proof.
  intros H. destruct r; simpl; [apply quiet_ret | now apply quiet_raise].
Qed.

Lemma quiet_global (name : state -> option A) : quiet (global name).
Proof.
  intros s. unfold global. destruct (name s); simpl;
    (split; [apply untouched_refl | easy]).
Qed.

End Quiet.

Lemma quiet_modify (f : state -> state) :
  (forall s, untouched s (f s)) -> quiet (modify f).
Proof. intros H s. split; [apply H | exact I]. Qed.

Lemma quiet_get_state : quiet get_state.
Proof. intros s. split; [apply untouched_refl | exact I]. Qed.

Lemma quiet_set_status (n : Z) : quiet (set_status n).
Proof. apply quiet_modify. intros s. repeat split. Qed.

Lemma quiet_emit (e : event) : quiet (emit e).
Proof. apply quiet_modify. intros s. repeat split. Qed.

Lemma quiet_print (l : line) : quiet (print l).
Proof. apply quiet_modify. intros s. repeat split. Qed.

Lemma quiet_dict_get (d : option pydict) (k : string) (v : argval) :
  quiet (dict_get d k v).
Proof.
  destruct d; simpl; [apply quiet_ret | now apply quiet_raise].
Qed.

Lemma getitem_no_exit (v : json) (k : string) : no_exit (getitem v k).
Proof.
  destruct v; simpl; try reflexivity.
  destruct (members_lookup k members); simpl; easy.
Qed.

Lemma getitem0_no_exit (v : json) : no_exit (getitem0 v).
Proof.
  destruct v as [| | |s|l|m]; simpl; try reflexivity.
  - destruct s; simpl; easy.
  - destruct l; simpl; easy.
Qed.

Lemma iterate_no_exit (v : json) : no_exit (iterate v).
Proof. destruct v; simpl; easy. Qed.

Create HintDb quiet.
#[local] Hint Resolve quiet_get_state quiet_set_status quiet_emit quiet_print
  quiet_dict_get getitem_no_exit getitem0_no_exit iterate_no_exit : quiet.

(** One step through a computation built from the pieces above. *)
Ltac quiet_step :=
  lazymatch goal with
  | |- quiet (bind _ _) => apply quiet_bind; [|intros ?]
  | |- quiet (try_except _ _ _) => apply quiet_try_except; [|intros ?]
  | |- quiet (ret _) => apply quiet_ret
  | |- quiet (raise _) => apply quiet_raise; reflexivity
  | |- quiet (global _) => apply quiet_global
  | |- quiet (lift _) => apply quiet_lift; solve [auto with quiet]
  | |- quiet (modify _) => apply quiet_modify; intros ?; repeat split
  | |- quiet _ => solve [auto with quiet]
  end.

Ltac quiet_steps := repeat quiet_step.

Section QuietScript.

Variable server : request -> http_reply.

Lemma quiet_send (rq : request) : quiet (send server rq).
Proof.
  unfold send. quiet_steps. destruct (server rq); quiet_steps.
Qed.

Lemma quiet_raise_for_status (r : response) : quiet (raise_for_status r).
Proof. unfold raise_for_status. destruct (error_status r); quiet_steps. Qed.

Lemma quiet_loads_content (r : option response) : quiet (loads_content r).
Proof.
  unfold loads_content. destruct r as [r|]; [destruct (content r)|]; quiet_steps.
Qed.

Lemma quiet_response_json (r : response) : quiet (response_json r).
Proof. unfold response_json. destruct (content r); quiet_steps. Qed.

Lemma quiet_get_api_call (url : string) (h : headers) :
  quiet (get_api_call server url h).
Proof.
  unfold get_api_call.
  quiet_steps; auto using quiet_send, quiet_raise_for_status.
Qed.

Lemma quiet_post_api_call (url : string) (h : headers) (body : json) :
  quiet (post_api_call server url h body).
Proof.
  unfold post_api_call.
  quiet_steps; auto using quiet_send, quiet_raise_for_status.
Qed.

Lemma quiet_owner_organization (d : option pydict) :
  quiet (owner_organization d).
Proof. unfold owner_organization. quiet_steps. Qed.

Lemma quiet_add_device (d : option pydict) : quiet (add_device server d).
Proof.
  unfold add_device.
  quiet_steps;
    auto using quiet_post_api_call, quiet_loads_content,
      quiet_owner_organization.
Qed.

Lemma quiet_fill_organizations (l : list json) : quiet (fill_organizations l).
Proof.
  induction l as [|o r IH]; cbn [fill_organizations]; quiet_steps.
  match goal with |- context [hashable ?n] => destruct (hashable n) end;
    quiet_steps.
Qed.

Lemma quiet_template_id : quiet (template_id server).
Proof.
  unfold template_id.
  quiet_steps;
    auto using quiet_get_api_call, quiet_loads_content,
      quiet_fill_organizations, quiet_add_device.
Qed.

Lemma quiet_registration_id : quiet (registration_id server).
Proof.
  unfold registration_id.
  quiet_steps;
    auto using quiet_get_api_call, quiet_loads_content, quiet_template_id.
Qed.

Lemma quiet_get_organizations : quiet (get_organizations server).
Proof.
  unfold get_organizations.
  quiet_steps;
    auto using quiet_get_api_call, quiet_loads_content, quiet_registration_id.
Qed.

Lemma quiet_signin : quiet (signin server).
Proof.
  unfold signin.
  quiet_steps;
    auto using quiet_send, quiet_raise_for_status, quiet_response_json,
      quiet_get_organizations.
Qed.

Lemma quiet_define_apis (username password environment : argval) :
  quiet (define_apis server username password environment).
Proof.
  unfold define_apis.
  quiet_steps; auto using quiet_signin.
  destruct (base_url_for environment); quiet_steps.
Qed.

(** [define_apis] always returns: whatever is raised below it, short of
    [SystemExit], ends in its handler. *)
Lemma define_apis_returns (username password environment : argval)
    (s : state) :
  exists s',
    define_apis server username password environment s = (Ok tt, s') /\
    untouched s s'.
Proof.
  unfold define_apis, try_except.
  match goal with
  | |- context [match ?b s with _ => _ end] =>
      assert (Q : quiet b); [|specialize (Q s); destruct (b s) as [[[]|e] s1]]
  end.
  - quiet_steps; auto using quiet_signin.
    destruct (base_url_for environment); quiet_steps.
  - exists s1. split; [reflexivity | apply Q].
  - destruct Q as [U N]. simpl in N. rewrite N.
    eexists. split; [reflexivity|].
    eapply untouched_trans; [exact U|]. repeat split.
Qed.

End QuietScript.

(** ** The traceability writer *)

Section Writer.

Variable ospath : os_path.
Variable today : date.


Lemma format_filename_dict (d : pydict) (s : state) :
  format_filename today (Some d) s = (Ok (AStr (filename_of today d)), s).
Proof. reflexivity. Qed.

Lemma generate_json_dict (d : pydict) (path : string) (s : state) :
  generate_json ospath (Some d) path s =
  if can_open ospath (disk s) path
  then (Ok tt,
        set_disk (put_file path
                    (JsonText.dump_content (serial_of d) (EXECUTION_STATUS s))
                    (disk s)) s)
  else (Ok tt, set_EXECUTION_STATUS 4 s).
Proof.
  unfold generate_json, try_except, bind, dict_get, get_state, write_file, ret.
  fold (serial_of d).
  destruct (can_open ospath (disk s) path); reflexivity.
Qed.

Lemma manage_data_json_dict (d : pydict) (filepath : argval) (s : state) :
  manage_data_json ospath today (Some d) filepath s =
  match filepath with
  | ANone => (Ok ANone, set_EXECUTION_STATUS 3 s)
  | AStr dir =>
      let path := path_join ospath dir (filename_of today d) in
      if can_open ospath (disk s) path
      then (Ok (AStr path),
            set_disk (put_file path
                        (JsonText.dump_content (serial_of d) (EXECUTION_STATUS s))
                        (disk s)) s)
      else (Ok (AStr path), set_EXECUTION_STATUS 4 s)
  end.
Proof.
  unfold manage_data_json, try_except at 1, bind at 1.
  rewrite format_filename_dict.
  destruct filepath as [|dir].
  - reflexivity.
  - unfold os_path_join, bind, ret. rewrite generate_json_dict.
    cbv zeta. destruct (can_open ospath (disk s) _); reflexivity.
Qed.

End Writer.

(** ** A run whose command line is accepted *)

Section Run.

Variable ospath : os_path.
Variable today : date.
Variable server : request -> http_reply.
Variable fs : filesystem.
Variables env user password sn org rc description version : string.
Variable output : option string.

Local Abbreviation argv :=
  (Flags env user password sn org rc description version output).
Local Abbreviation d :=
  (namespace env user password sn org rc description version output).
Local Abbreviation out :=
  (match output with
   | Some o => AStr o
   | None => ANone
   end).


Lemma parse_arguments_accepted (s s1 : state) :
  check_serial_number sn s = (Ok sn, s1) ->
  parse_arguments argv s = (Ok (Some d), s1).
Proof.
  intros H. unfold parse_arguments, parse_args, try_except, bind.
  rewrite H. reflexivity.
Qed.

(** [main] for an accepted command line: parse, upload when the status is
    still 0, then write the traceability file. *)
Lemma main_accepted (s1 : state) :
  check_serial_number sn (initial_state fs) = (Ok sn, s1) ->
  exists s3,
    (if EXECUTION_STATUS s1 =? 0
     then define_apis server (AStr user) (AStr password) (AStr env)
            (before_upload d out s1) = (Ok tt, s3)
     else s3 = before_upload d out s1) /\
    untouched (before_upload d out s1) s3 /\
    main ospath today argv server (initial_state fs)
    = manage_data_json ospath today (Some d) out s3.
Proof.
  intros H.
  unfold main, try_except at 1, bind at 1.
  rewrite (parse_arguments_accepted _ _ H).
  unfold bind at 1. unfold parsed_object_to_dict at 1, try_except at 1, ret at 1.
  unfold bind at 1, modify at 1.
  unfold bind at 1, dict_get at 1, ret at 1.
  change (match dict_lookup "OutputDirectory" d with
          | Some v => v
          | None => ANone
          end) with out.
  unfold bind at 1, modify at 1.
  unfold bind at 1, get_state at 1.
  fold (before_upload d out s1).
  change (EXECUTION_STATUS (before_upload d out s1)) with (EXECUTION_STATUS s1).
  destruct (EXECUTION_STATUS s1 =? 0).
  - destruct (define_apis_returns server (AStr user) (AStr password) (AStr env)
                (before_upload d out s1)) as (s3 & E & U).
    exists s3. split; [exact E|]. split; [exact U|].
    unfold bind at 1. unfold bind at 1, dict_get at 1, ret at 1.
    unfold bind at 1, dict_get at 1, ret at 1.
    unfold bind at 1, dict_get at 1, ret at 1.
    change (match dict_lookup "Username" d with Some v => v | None => ANone end)
      with (AStr user).
    change (match dict_lookup "Password" d with Some v => v | None => ANone end)
      with (AStr password).
    change (match dict_lookup "Environment" d with Some v => v | None => ANone end)
      with (AStr env).
    rewrite E. unfold bind, ret.
    rewrite manage_data_json_dict.
    destruct out; [reflexivity|].
    cbv zeta. destruct (can_open _ _ _); reflexivity.
  - exists (before_upload d out s1). split; [reflexivity|].
    split; [apply untouched_refl|].
    unfold bind, ret. rewrite manage_data_json_dict.
    destruct out; [reflexivity|].
    cbv zeta. destruct (can_open _ _ _); reflexivity.
Qed.

End Run.

(** ** Logging in *)

Section Login.

Variable server : request -> http_reply.


Variables username password : argval.
Variable base : string.
Variable s : state.

Local Abbreviation rq := (login_request username password base).
Local Abbreviation s0 := (apis_defined username password base s).
Local Abbreviation sent := (set_events (events s ++ [Sent rq]) s0).

(** No response, an error status or a body that is not JSON: the handler
    of [signin] records 11. *)
Lemma signin_refused :
  server rq = NoReply \/
  (exists r, server rq = Reply r /\
             (error_status r = true \/ content r = None)) ->
  signin server s0 = (Ok tt, set_EXECUTION_STATUS 11 sent).
Proof.
  intros H.
  unfold signin, send, emit, try_except, bind, global, modify.
  cbn [apis payload headers_login apis_defined set_apis set_payload
       set_headers_login].
  fold rq.
  destruct H as [H | (r & H & [E | C])]; rewrite H; cbv beta iota.
  - reflexivity.
  - unfold ret, raise_for_status. rewrite E. reflexivity.
  - unfold ret, raise_for_status, response_json.
    destruct (error_status r); [reflexivity|]. rewrite C. reflexivity.
Qed.

(** A JSON body from which the token cannot be taken: the exception is
    not one of [requests], and leaves [signin]. *)
Lemma signin_no_token (r : response) (j : json) (e : exn) :
  server rq = Reply r -> error_status r = false -> content r = Some j ->
  token_of j = Raise e ->
  signin server s0 = (Raise e, sent).
Proof.
  intros H E C T.
  assert (N : is_RequestException e = false).
  { unfold token_of in T.
    destruct (getitem j "accessJwt") as [a|e'] eqn:G.
    - destruct a; simpl in T; try (injection T as <-; reflexivity).
      destruct (members_lookup "token" members); [discriminate|].
      injection T as <-; reflexivity.
    - injection T as <-. destruct j; simpl in G;
        try (injection G as <-; reflexivity).
      destruct (members_lookup "accessJwt" members); [discriminate|].
      injection G as <-; reflexivity. }
  unfold signin, send, emit, try_except, bind, global, modify.
  cbn [apis payload headers_login apis_defined set_apis set_payload
       set_headers_login].
  fold rq. rewrite H. cbv beta iota.
  unfold raise_for_status, response_json, ret, raise.
  rewrite E, C. unfold token_of in T.
  destruct (getitem j "accessJwt") as [a|e'].
  - cbn [lift]. unfold ret. rewrite T. cbn [lift]. unfold raise.
    rewrite N. reflexivity.
  - injection T as ->. cbn [lift]. unfold raise. rewrite N. reflexivity.
Qed.

Variable environment : argval.
Hypothesis known_environment : base_url_for environment = Some base.

Lemma define_apis_enters_signin :
  define_apis server username password environment s =
  try_except (signin server) is_Exception
    (fun e => print (Message e) ;;; set_status 10)%py s0.
Proof.
  unfold define_apis, try_except, bind, modify, ret.
  rewrite known_environment. reflexivity.
Qed.

Lemma define_apis_login_refused :
  server rq = NoReply \/
  (exists r, server rq = Reply r /\
             (error_status r = true \/ content r = None)) ->
  define_apis server username password environment s
  = (Ok tt, set_EXECUTION_STATUS 11 sent).
Proof.
  intros H. rewrite define_apis_enters_signin.
  unfold try_except. rewrite (signin_refused H). reflexivity.
Qed.

Lemma define_apis_no_token (r : response) (j : json) (e : exn) :
  server rq = Reply r -> error_status r = false -> content r = Some j ->
  token_of j = Raise e ->
  define_apis server username password environment s
  = (Ok tt,
     set_EXECUTION_STATUS 10 (set_stdout (stdout s ++ [Message e]) sent)).
Proof.
  intros H E C T. rewrite define_apis_enters_signin.
  unfold try_except. rewrite (signin_no_token r j e H E C T).
  assert (X : is_Exception e = true).
  { unfold token_of in T.
    destruct (getitem j "accessJwt") as [a|e'] eqn:G.
    - pose proof (getitem_no_exit a "token") as Q. rewrite T in Q. exact Q.
    - injection T as <-.
      pose proof (getitem_no_exit j "accessJwt") as Q. rewrite G in Q. exact Q. }
  rewrite X. reflexivity.
Qed.

End Login.

(** ** File names *)

Lemma ord_digit (n : Z) : 0 <= n <= 9 -> PyStr.ord (PyStr.digit n) = 48 + n.
Proof.
  intros H. rewrite <- (Z2Nat.id n) by lia.
  assert (K : (Z.to_nat n < 10)%nat) by lia.
  remember (Z.to_nat n) as k eqn:Ek. clear Ek H.
  do 10 (destruct k as [|k]; [reflexivity|]). lia.
Qed.

(** [two_digits] writes a number below 100 on two decimal digits. *)
Lemma two_digits_value (acc n : Z) :
  0 <= n < 100 ->
  PyStr.all_chars PyStr.is_decimal (two_digits n) = true /\
  forall r, PyStr.digits_value acc (two_digits n ++ r)
            = PyStr.digits_value (100 * acc + n) r.
Proof.
  intros H. unfold two_digits.
  assert (H1 : 0 <= n / 10 mod 10 <= 9) by (pose proof (Z.mod_pos_bound (n / 10) 10); lia).
  assert (H2 : 0 <= n mod 10 <= 9) by (pose proof (Z.mod_pos_bound n 10); lia).
  pose proof (ord_digit _ H1) as O1. pose proof (ord_digit _ H2) as O2.
  split.
  - cbn [PyStr.all_chars]. unfold PyStr.is_decimal. rewrite O1, O2.
    repeat (apply andb_true_iff; split); try reflexivity; apply Z.leb_le; lia.
  - intros r. cbn [append PyStr.digits_value]. rewrite O1, O2. f_equal.
    assert (n / 10 mod 10 = n / 10) by (apply Z.mod_small; split; [apply Z.div_pos; lia | apply Z.div_lt_upper_bound; lia]).
    pose proof (Z.div_mod n 10). lia.
Qed.


(** C9.  For serial number 1234567890 and the date 2024-06-01 the file
    name is 1234567890_240601.json; in general it is the serial number, an
    underscore, the date and the extension .json, where the date is six
    decimal digits reading year modulo 100, month and day. *)
Theorem format_filename_serial_date :
  (forall d s,
     dict_lookup "SerialNumber" d = Some (AStr "1234567890") ->
     format_filename (mkDate 2024 6 1) (Some d) s
     = (Ok (AStr "1234567890_240601.json"), s)) /\
  (forall today d sn s,
     dict_lookup "SerialNumber" d = Some (AStr sn) ->
     format_filename today (Some d) s
     = (Ok (AStr (sn ++ "_" ++ DATE today ++ ".json")), s)) /\
  (forall today,
     0 <= year today -> 1 <= month today <= 12 -> 1 <= day today <= 31 ->
     String.length (DATE today) = 6%nat /\
     PyStr.int (DATE today)
     = Some (year today mod 100 * 10000 + month today * 100 + day today)).
Proof.
  split; [|split].
  - intros d s H. rewrite format_filename_dict. unfold filename_of.
    rewrite H. reflexivity.
  - intros today d sn s H. rewrite format_filename_dict. unfold filename_of.
    rewrite H. reflexivity.
  - intros today Hy Hm Hd. split; [reflexivity|].
    unfold DATE, strftime_ymd.
    assert (Y : 0 <= year today mod 100 < 100) by (apply Z.mod_pos_bound; lia).
    assert (Mo : 0 <= month today < 100) by lia.
    assert (Da : 0 <= day today < 100) by lia.
    destruct (two_digits_value 0 _ Y) as [Dy Vy].
    destruct (two_digits_value (100 * 0 + year today mod 100) _ Mo) as [Dm Vm].
    destruct (two_digits_value
                (100 * (100 * 0 + year today mod 100) + month today) _ Da)
      as [Dd Vd].
    unfold PyStr.int.
    assert (A : PyStr.all_chars PyStr.is_decimal
                  (two_digits (year today mod 100) ++
                   two_digits (month today) ++ two_digits (day today)) = true).
    { unfold two_digits in *. cbn [append PyStr.all_chars] in *.
      apply andb_true_iff in Dy as [a1 Dy]. apply andb_true_iff in Dy as [a2 _].
      apply andb_true_iff in Dm as [a3 Dm]. apply andb_true_iff in Dm as [a4 _].
      apply andb_true_iff in Dd as [a5 Dd]. apply andb_true_iff in Dd as [a6 _].
      rewrite a1, a2, a3, a4, a5, a6. reflexivity. }
    rewrite A.
    replace (two_digits (day today)) with (two_digits (day today) ++ "")
      by (unfold two_digits; reflexivity).
    rewrite Vy, Vm, Vd. cbn [PyStr.digits_value].
    unfold two_digits at 1. cbn [append]. f_equal. lia.
Qed.

Lemma format_filename_serial_date_witness :
  format_filename Sample.june_first
    (Some (Sample.args "1234567890" None)) (initial_state Sample.disk_with_out)
  = (Ok (AStr "1234567890_240601.json"), initial_state Sample.disk_with_out).
Proof. apply (proj1 format_filename_serial_date). reflexivity. Defined.

(** ** Runs *)

(** When [check_serial_number] returns, it returns its argument, on the
    same disk, with no event and nothing printed. *)
Lemma check_serial_number_returns (sn : string) (s : state) :
  (forall s', fst (check_serial_number sn s') = Ok sn) ->
  exists s1,
    check_serial_number sn s = (Ok sn, s1) /\
    disk s1 = disk s /\ events s1 = events s /\ stdout s1 = stdout s /\
    (EXECUTION_STATUS s1 = EXECUTION_STATUS s \/ EXECUTION_STATUS s1 = 5).
Proof.
  intros H. specialize (H s).
  destruct (check_serial_number_cases sn s) as [E | [E | E]].
  - exists s. rewrite E. auto 6.
  - eexists. split; [exact E|]. cbn. auto 6.
  - rewrite E in H. discriminate H.
Qed.

(** C10.  A run whose command line is accepted and has no [-output] flag:
    [OutputDirectory] is [None], joining it with the file name raises
    inside [manage_data_json], which records status 3; the final status is
    3, the disk is as it was, the last line printed is None (and the
    interpreter exits with code 0). *)
Theorem no_output_flag (ospath : os_path) (today : date)
    (server : request -> http_reply) (fs : filesystem)
    (env user password sn org rc description version : string) :
  (forall s, fst (check_serial_number sn s) = Ok sn) ->
  let d := namespace env user password sn org rc description version None in
  let o := program ospath today
             (Flags env user password sn org rc description version None)
             server fs in
  dict_lookup "OutputDirectory" d = Some ANone /\
  (forall s, os_path_join ospath ANone (AStr (filename_of today d)) s
             = (Raise TypeError, s)) /\
  (forall s, manage_data_json ospath today (Some d) ANone s
             = (Ok ANone, set_EXECUTION_STATUS 3 s)) /\
  EXECUTION_STATUS (final o) = 3 /\
  disk (final o) = fs /\
  (exists printed : list line, stdout (final o) = (printed ++ [Text "None"])%list) /\
  exit_code o = 0.
Proof.
  intros H d o.
  split; [reflexivity|]. split; [reflexivity|]. split; [reflexivity|].
  destruct (check_serial_number_returns sn (initial_state fs) H)
    as (s1 & E & D & _).
  destruct (main_accepted ospath today server fs env user password sn org rc
              description version None s1 E) as (s3 & _ & U & Hm).
  rewrite manage_data_json_dict in Hm.
  subst o. unfold program. rewrite Hm. cbn.
  destruct U as (Ud & _). cbn in Ud, D.
  split; [reflexivity|]. split; [congruence|].
  split; [eexists; reflexivity | reflexivity].
Qed.

Lemma no_output_flag_witness :
  let o := program PosixPath.posix Sample.june_first
             (Sample.flags "1234567890" None)
             (Sample.answering (JObj [])) Sample.disk_with_out in
  EXECUTION_STATUS (final o) = 3 /\ disk (final o) = Sample.disk_with_out.
Proof.
  assert (H : forall s, fst (check_serial_number "1234567890" s) = Ok "1234567890")
    by reflexivity.
  pose proof (no_output_flag PosixPath.posix Sample.june_first
                (Sample.answering (JObj [])) Sample.disk_with_out
                "production" "user" "secret" "1234567890" "Acme" "RC-1"
                "ONAS0000" "2.0.0" H) as W.
  cbv zeta in W. split; apply W.
Defined.

(** [raise_for_status] raises exactly for the codes 400 to 599. *)
Lemma error_status_codes (r : response) :
  error_status r = true <-> 400 <= status_code r <= 599.
Proof.
  unfold error_status. rewrite andb_true_iff, Z.leb_le, Z.ltb_lt. lia.
Qed.




(** Whether [check_serial_number] raises depends on the string alone. *)
Lemma check_serial_number_raises_everywhere (sn : string) (s : state) :
  check_serial_number sn s = (Raise ValueError, s) ->
  forall s', check_serial_number sn s' = (Raise ValueError, s').
Proof.
  unfold check_serial_number, bind, py_int, set_status, modify, ret, raise.
  destruct (PyStr.isdigit sn); simpl; [|discriminate].
  destruct (PyStr.len sn =? SERIAL_NUMBER_LENGTH_ONASPORT); simpl;
    [|discriminate].
  destruct (PyStr.int sn) as [n|]; [|reflexivity].
  destruct (n <? MIN_SERIAL_NUMBER_ONASPORT); [discriminate|].
  destruct (n >? MAX_SERIAL_NUMBER_ONASPORT); discriminate.
Qed.

Lemma manage_data_json_returns (ospath : os_path) (today : date)
    (d : pydict) (filepath : argval) (s : state) :
  exists path s', manage_data_json ospath today (Some d) filepath s = (Ok path, s').
Proof.
  rewrite manage_data_json_dict. destruct filepath as [|dir].
  - eauto.
  - cbv zeta. destruct (can_open ospath (disk s) _); eauto.
Qed.

(** ** Creating the registration code and the device *)

Section AddDevice.

Variable server : request -> http_reply.


Variables (a : endpoints) (h : headers) (template : json) (d : pydict).
Variable s : state.
Hypothesis apis_set : apis s = Some a.
Hypothesis headers_set : headers_apis s = Some h.
Hypothesis template_set : template_id_registration_code s = Some template.

Local Abbreviation step_a := (registration_code_request a h template d s).

(** The first thing [add_device] does is to send Step A. *)
Lemma add_device_sends_step_a :
  add_device server (Some d) s =
  try_except
    (response_post_registration_code <-
       post_api_call server (api_post_registration_code a) h
         (registration_code_body (owner_of d s)
            (json_of_argval (field d "RegistrationCode")) template) ;;
     response_json_registration_code <-
       loads_content response_post_registration_code ;;
     registration_code_id <- lift (getitem response_json_registration_code "_id") ;;
     emit (Slept 1) ;;;
     owner' <- owner_organization (Some d) ;;
     sn <- dict_get (Some d) "SerialNumber" ANone ;;
     description <- dict_get (Some d) "Description" ANone ;;
     version <- dict_get (Some d) "Version" ANone ;;
     device_template <- global onasport_device_template_id ;;
     a' <- global apis ;;
     h' <- global headers_apis ;;
     response_post_device <-
       post_api_call server (api_post_onasport_device a') h'
         (device_body owner' registration_code_id (json_of_argval sn)
            (json_of_argval description) (json_of_argval version)
            device_template) ;;
     ret tt)%py
    is_RequestException (fun _ => set_status 15) s.
Proof.
  unfold add_device, try_except.
  unfold bind at 1. unfold owner_organization at 1, bind at 1, dict_get at 1,
    ret at 1, bind at 1, get_state at 1, ret at 1.
  unfold bind at 1, dict_get at 1, ret at 1.
  unfold bind at 1, global at 1. rewrite template_set.
  unfold bind at 1, global at 1. rewrite apis_set.
  unfold bind at 1, global at 1. rewrite headers_set.
  reflexivity.
Qed.

(** Step A is refused, or gets no response: [post_api_call] records 9
    and returns [None], whose [content] is an [AttributeError]; that is
    not an error of [requests], so it leaves [add_device].  Step B is not
    sent, and there is no delay. *)
Lemma add_device_step_a_fails :
  server step_a = NoReply \/
  (exists r, server step_a = Reply r /\ error_status r = true) ->
  add_device server (Some d) s
  = (Raise AttributeError,
     set_EXECUTION_STATUS 9 (set_events (events s ++ [Sent step_a]) s)).
Proof.
  intros H. rewrite add_device_sends_step_a.
  unfold try_except at 1, bind at 1, post_api_call at 1, try_except at 1,
    bind at 1, send at 1, bind at 1, emit at 1, modify at 1.
  fold (owner_of d s). fold step_a.
  destruct H as [H | (r & H & E)]; rewrite H; cbv beta iota.
  - reflexivity.
  - unfold ret at 1, bind at 1, raise_for_status at 1. rewrite E. reflexivity.
Qed.

(** Step A is accepted but its body yields no identifier: the exception
    of [json.loads] or of the subscript leaves [add_device] after Step A
    alone was sent. *)
Lemma add_device_step_a_without_id (r : response) :
  server step_a = Reply r -> error_status r = false ->
  content r = None \/
  (exists j e, content r = Some j /\ getitem j "_id" = Raise e) ->
  exists e,
    add_device server (Some d) s
    = (Raise e, set_events (events s ++ [Sent step_a]) s).
Proof.
  intros H E C. rewrite add_device_sends_step_a.
  unfold try_except at 1, bind at 1, post_api_call at 1, try_except at 1,
    bind at 1, send at 1, bind at 1, emit at 1, modify at 1.
  fold (owner_of d s). fold step_a. rewrite H. cbv beta iota.
  unfold ret at 1, bind at 1, raise_for_status at 1. rewrite E.
  unfold ret at 1, ret at 1.
  unfold bind at 1, loads_content at 1.
  destruct C as [C | (j & e & C & G)]; rewrite C.
  - exists ValueError. reflexivity.
  - exists e. unfold ret at 1, bind at 1. rewrite G. cbn [lift]. unfold raise.
    assert (N : is_RequestException e = false).
    { destruct j; simpl in G; try (injection G as <-; reflexivity).
      destruct (members_lookup "_id" members); [discriminate|].
      injection G as <-; reflexivity. }
    rewrite N. reflexivity.
Qed.

Variable device_template : json.
Hypothesis device_template_set :
  onasport_device_template_id s = Some device_template.

(** Step A succeeds: the delay follows it, and then Step B, which names
    the identifier Step A returned.  The status is the one before, or 9
    when Step B fails. *)
Lemma add_device_step_a_succeeds (r : response) (j registration_code_id : json) :
  server step_a = Reply r -> error_status r = false ->
  content r = Some j -> getitem j "_id" = Ok registration_code_id ->
  exists s',
    add_device server (Some d) s = (Ok tt, s') /\
    events s' =
      (events s ++
       [Sent step_a; Slept 1;
        Sent (device_request a h registration_code_id device_template d s)])%list /\
    (EXECUTION_STATUS s' = EXECUTION_STATUS s \/ EXECUTION_STATUS s' = 9).
Proof.
  intros H E C G. rewrite add_device_sends_step_a.
  unfold try_except at 1, bind at 1, post_api_call at 1, try_except at 1,
    bind at 1, send at 1, bind at 1, emit at 1, modify at 1.
  fold (owner_of d s). fold step_a. rewrite H. cbv beta iota.
  unfold ret at 1, bind at 1, raise_for_status at 1. rewrite E.
  unfold ret at 1, ret at 1.
  unfold bind at 1, loads_content at 1. rewrite C.
  unfold ret at 1, bind at 1. rewrite G. cbn [lift]. unfold ret at 1.
  unfold bind at 1, emit at 1, modify at 1.
  unfold bind at 1, owner_organization at 1, bind at 1, dict_get at 1,
    ret at 1, bind at 1, get_state at 1, ret at 1.
  unfold bind at 1, dict_get at 1, ret at 1.
  unfold bind at 1, dict_get at 1, ret at 1.
  unfold bind at 1, dict_get at 1, ret at 1.
  unfold bind at 1, global at 1.
  cbn [onasport_device_template_id set_events apis headers_apis
       ORGANIZATIONS_DIC events].
  rewrite device_template_set.
  unfold bind at 1, global at 1.
  cbn [onasport_device_template_id set_events apis headers_apis
       ORGANIZATIONS_DIC events].
  rewrite apis_set.
  unfold bind at 1, global at 1.
  cbn [onasport_device_template_id set_events apis headers_apis
       ORGANIZATIONS_DIC events].
  rewrite headers_set.
  unfold bind at 1, post_api_call at 1, try_except at 1,
    bind at 1, send at 1, bind at 1, emit at 1, modify at 1.
  cbn [onasport_device_template_id set_events apis headers_apis
       ORGANIZATIONS_DIC events].
  fold (field d "SerialNumber") (field d "Description") (field d "Version")
       (field d "Organization").
  fold (owner_of d s).
  fold (device_request a h registration_code_id device_template d s).
  rewrite <- !app_assoc. cbn [app].
  destruct (server (device_request a h registration_code_id device_template d s))
    as [|r'].
  - eexists. split; [reflexivity|]. split; [reflexivity | right; reflexivity].
  - unfold ret at 1, bind at 1, raise_for_status at 1.
    destruct (error_status r').
    + eexists. split; [reflexivity|]. split; [reflexivity | right; reflexivity].
    + eexists. split; [reflexivity|]. split; [reflexivity | left; reflexivity].
Qed.

End AddDevice.




(** ** Whole runs against a sample platform *)


(** A run in which everything succeeds: six requests, the delay before
    the last, status 0 in the file. *)
Remark successful_run :
  let o := program PosixPath.posix Sample.june_first
             (Sample.flags "1234567890" (Some "out"))
             (platform acme code_created) Sample.disk_with_out in
  let e := make_endpoints URL_PROD in
  map outline (events (final o)) =
    [api_login e; api_get_organizations e;
     api_get_template_registration_code e;
     api_get_template_onasport_device e;
     api_post_registration_code e; "sleep"; api_post_onasport_device e] /\
  EXECUTION_STATUS (final o) = 0 /\
  file_content (disk (final o)) "out/1234567890_240601.json"
  = Some (JsonText.dump_content (AStr "1234567890") 0) /\
  stdout (final o) = [Text "out/1234567890_240601.json"] /\
  exit_code o = 0.
Proof. cbv zeta. repeat split; vm_compute; reflexivity. Qed.

(** A run in which the platform refuses Step A: [post_api_call] records
    9, the [AttributeError] that follows travels up to [define_apis],
    which prints it and records 10; Step B is not sent; the code 15 of
    [add_device] is not recorded. *)
Remark step_a_refused_run :
  let o := program PosixPath.posix Sample.june_first
             (Sample.flags "1234567890" (Some "out"))
             (platform acme (Reply (mkResponse 500 None)))
             Sample.disk_with_out in
  let e := make_endpoints URL_PROD in
  map outline (events (final o)) =
    [api_login e; api_get_organizations e;
     api_get_template_registration_code e;
     api_get_template_onasport_device e;
     api_post_registration_code e] /\
  EXECUTION_STATUS (final o) = 10 /\
  stdout (final o) = [Message AttributeError; Text "out/1234567890_240601.json"].
Proof. cbv zeta. repeat split; vm_compute; reflexivity. Qed.

(** A run for an organization the platform does not list: both creation
    requests carry a null owner identifier. *)
Remark unlisted_organization_run :
  let o := program PosixPath.posix Sample.june_first
             (Sample.flags "1234567890" (Some "out"))
             (platform (JArr []) code_created) Sample.disk_with_out in
  map (fun e => match e with
                | Sent (mkRequest POST _ _ (Some (JObj (("_ownerOrganization", owner) :: _)))) =>
                    Some owner
                | _ => None
                end) (events (final o))
  = [None; None; None; None; Some (JObj [("id", JNull)]); None;
     Some (JObj [("id", JNull)])].
Proof. vm_compute. reflexivity. Qed.

(** ** Directories *)

(** [generate_json] never creates a directory. *)
Lemma generate_json_keeps_directories (ospath : os_path) (d : option pydict)
    (path : string) (s : state) :
  directory_exists (disk (snd (generate_json ospath d path s)))
  = directory_exists (disk s).
Proof.
  unfold generate_json, try_except, bind, dict_get, get_state, write_file,
    set_status, modify, raise, ret.
  destruct d as [d|]; [|reflexivity].
  destruct (can_open ospath (disk s) path); reflexivity.
Qed.

(** When the directory of the path is missing, [generate_json] writes
    nothing and records 4. *)
Lemma generate_json_missing_directory (ospath : os_path) (d : pydict)
    (path : string) (s : state) :
  path_dirname ospath path <> "" ->
  directory_exists (disk s) (path_dirname ospath path) = false ->
  generate_json ospath (Some d) path s = (Ok tt, set_EXECUTION_STATUS 4 s).
Proof.
  intros N D. rewrite generate_json_dict. unfold can_open. rewrite D.
  destruct (String.eqb_spec (path_dirname ospath path) ""); [contradiction|].
  reflexivity.
Qed.

(** What [os.makedirs] does to the disk: it only adds directories, the
    one it is asked for among them when it succeeds, and it fails with an
    [OSError] only. *)
Section MakeDirs.

Variable op : os_path.

Lemma mkdir_exist_ok_spec (d : string) (fs fs' : filesystem) (r : result unit) :
  mkdir_exist_ok op d fs = (r, fs') ->
  write_permitted fs' = write_permitted fs /\
  file_content fs' = file_content fs /\
  (forall p, directory_exists fs p = true -> directory_exists fs' p = true) /\
  (r = Ok tt -> directory_exists fs' d = true) /\
  (forall e, r = Raise e -> e = OSError).
Proof.
  unfold mkdir_exist_ok. destruct (directory_exists fs d) eqn:D.
  - intros [= <- <-]. repeat split; auto. discriminate.
  - destruct (path_exists fs d).
    + intros [= <- <-]. repeat split; auto; [discriminate | now intros e [= <-]].
    + destruct (_ && _).
      * intros [= <- <-]. repeat split; auto.
        -- intros p H. cbn. rewrite H. apply orb_true_r.
        -- intros _. cbn. now rewrite String.eqb_refl.
        -- discriminate.
      * intros [= <- <-]. repeat split; auto; [discriminate | now intros e [= <-]].
Qed.

Lemma makedirs_from_spec (fuel : nat) :
  forall (d : string) (fs fs' : filesystem) (r : result unit),
    makedirs_from op fuel d fs = (r, fs') ->
    write_permitted fs' = write_permitted fs /\
    file_content fs' = file_content fs /\
    (forall p, directory_exists fs p = true -> directory_exists fs' p = true) /\
    (r = Ok tt -> directory_exists fs' d = true) /\
    (forall e, r = Raise e -> e = OSError).
Proof.
  induction fuel as [|k IH]; intros d fs fs' r; cbn [makedirs_from].
  - apply mkdir_exist_ok_spec.
  - destruct (negb _ && negb _ && negb _); [|apply mkdir_exist_ok_spec].
    destruct (makedirs_from op k (path_dirname op d) fs) as [[u|e] fs1] eqn:C;
      destruct (IH _ _ _ _ C) as (W1 & F1 & D1 & _ & R1).
    + intros H. destruct (mkdir_exist_ok_spec _ _ _ _ H) as (W2 & F2 & D2 & O2 & R2).
      split; [congruence|]. split; [congruence|]. split; [auto|]. auto.
    + intros [= <- <-]. split; [exact W1|]. split; [exact F1|].
      split; [exact D1|]. split; [discriminate|].
      intros e' [= <-]. now apply R1.
Qed.

Lemma path_exists_kept (fs fs' : filesystem) :
  file_content fs' = file_content fs ->
  (forall p, directory_exists fs p = true -> directory_exists fs' p = true) ->
  forall p, path_exists fs p = true -> path_exists fs' p = true.
Proof.
  intros F D p. unfold path_exists. rewrite F.
  destruct (directory_exists fs p) eqn:E; [now rewrite (D p E)|].
  cbn. intros ->. apply orb_true_r.
Qed.

(** After a successful call the head of the name exists, unless the
    recursion had no reason to look at it. *)
Lemma makedirs_from_head (k : nat) (d : string) (fs fs' : filesystem) :
  makedirs_from op (S k) d fs = (Ok tt, fs') ->
  path_dirname op d = "" \/ path_dirname op d = d \/
  path_exists fs' (path_dirname op d) = true.
Proof.
  cbn [makedirs_from].
  destruct (String.eqb_spec (path_dirname op d) "") as [E|N]; [auto|].
  destruct (String.eqb_spec (path_dirname op d) d) as [E|N']; [auto|].
  destruct (path_exists fs (path_dirname op d)) eqn:X; cbn [negb andb].
  - intros H. destruct (mkdir_exist_ok_spec _ _ _ _ H) as (_ & F & D & _).
    right; right. now apply (path_exists_kept fs fs' F D).
  - destruct (makedirs_from op k (path_dirname op d) fs) as [[[]|e] fs1] eqn:C;
      [|discriminate].
    intros H. destruct (makedirs_from_spec _ _ _ _ _ C) as (_ & _ & _ & O1 & _).
    destruct (mkdir_exist_ok_spec _ _ _ _ H) as (_ & _ & D & _).
    right; right. unfold path_exists. rewrite (D _ (O1 eq_refl)). reflexivity.
Qed.

(** A second call, on a disk that has kept what the first one left, finds
    the directory and changes nothing. *)
Lemma makedirs_from_again (fuel : nat) (d : string) (fs fs' fs2 : filesystem) :
  makedirs_from op fuel d fs = (Ok tt, fs') ->
  (forall p, directory_exists fs' p = true -> directory_exists fs2 p = true) ->
  (forall p, path_exists fs' p = true -> path_exists fs2 p = true) ->
  makedirs_from op fuel d fs2 = (Ok tt, fs2).
Proof.
  intros H D X.
  destruct (makedirs_from_spec _ _ _ _ _ H) as (_ & _ & _ & O & _).
  assert (M : mkdir_exist_ok op d fs2 = (Ok tt, fs2)).
  { unfold mkdir_exist_ok. now rewrite (D _ (O eq_refl)). }
  destruct fuel as [|k]; [exact M|].
  cbn [makedirs_from].
  destruct (makedirs_from_head _ _ _ _ H) as [E | [E | E]].
  - rewrite E. cbn. exact M.
  - rewrite E, String.eqb_refl, andb_false_r. exact M.
  - rewrite (X _ E), andb_false_r. exact M.
Qed.

End MakeDirs.

Lemma string_append_assoc (a b c : string) : (a ++ b) ++ c = a ++ b ++ c.
Proof. induction a as [|x a IH]; cbn; [reflexivity | now rewrite IH]. Qed.

(** With POSIX paths the head of a name is a first part of it, so each
    step of the recursion shortens the name and the bound on the number
    of steps is never what stops it. *)
Lemma posix_head_first_part (p : string) :
  exists r, p = PosixPath.head p ++ r.
Proof.
  induction p as [|c p (r & IH)]; [exists ""; reflexivity|].
  cbn [PosixPath.head]. destruct (PosixPath.has_sep (String c p)).
  - exists r. cbn [append]. now rewrite <- IH.
  - eexists. reflexivity.
Qed.

Lemma posix_rstrip_first_part (p : string) :
  exists r, p = PosixPath.rstrip_sep p ++ r.
Proof.
  induction p as [|c p (r & IH)]; [exists ""; reflexivity|].
  cbn [PosixPath.rstrip_sep]. destruct (_ && _).
  - eexists. reflexivity.
  - exists r. cbn [append]. now rewrite <- IH.
Qed.

Lemma posix_dirname_first_part (p : string) :
  exists r, p = PosixPath.dirname p ++ r.
Proof.
  unfold PosixPath.dirname. destruct (posix_head_first_part p) as (r & H).
  destruct (PyStr.all_chars PosixPath.is_sep (PosixPath.head p)).
  - exists r. exact H.
  - destruct (posix_rstrip_first_part (PosixPath.head p)) as (r' & H').
    exists (r' ++ r). rewrite <- string_append_assoc, <- H'. exact H.
Qed.

Lemma string_length_append (a b : string) :
  String.length (a ++ b) = (String.length a + String.length b)%nat.
Proof. induction a as [|c a IH]; cbn; [reflexivity | now rewrite IH]. Qed.

Lemma posix_dirname_shorter (p : string) :
  PosixPath.dirname p <> p ->
  (String.length (PosixPath.dirname p) < String.length p)%nat.
Proof.
  intros N. destruct (posix_dirname_first_part p) as (r & H).
  destruct r as [|c r].
  - exfalso. apply N. rewrite H at 2.
    clear. induction (PosixPath.dirname p) as [|c a IH]; cbn;
      [reflexivity | now rewrite <- IH].
  - rewrite H at 2. rewrite string_length_append. cbn. lia.
Qed.

Lemma makedirs_from_posix_fuel (n : nat) :
  forall (m : nat) (d : string) (fs : filesystem),
    (String.length d <= n)%nat -> (String.length d <= m)%nat ->
    makedirs_from PosixPath.posix n d fs = makedirs_from PosixPath.posix m d fs.
Proof.
  induction n as [|n IH]; intros m d fs Hn Hm.
  - destruct d; [|cbn in Hn; lia]. destruct m; reflexivity.
  - destruct m as [|m].
    + destruct d; [|cbn in Hm; lia]. reflexivity.
    + cbn [makedirs_from path_dirname PosixPath.posix].
      destruct (String.eqb_spec (PosixPath.dirname d) d) as [E|N].
      * now rewrite andb_false_r.
      * pose proof (posix_dirname_shorter d N) as L.
        destruct (negb _ && negb false && negb _); [|reflexivity].
        rewrite (IH m (PosixPath.dirname d) fs); [reflexivity | lia | lia].
Qed.

(** One successful call of [log_to_json]: the directory exists afterwards,
    the line is at the end of the file, and [os.makedirs] would succeed
    again. *)
Lemma log_to_json_adds_line (ospath : os_path) (d : option pydict)
    (path : string) (s : state) :
  fst (makedirs ospath (path_dirname ospath path) s) = Ok tt ->
  write_permitted (disk s) path = true ->
  exists fs',
    log_to_json ospath d path s = (Ok tt, set_disk fs' s) /\
    directory_exists fs' (path_dirname ospath path) = true /\
    write_permitted fs' = write_permitted (disk s) /\
    file_content fs' path = Some (current_text (disk s) path ++ logged_line d) /\
    (forall p, p <> path -> file_content fs' p = file_content (disk s) p) /\
    fst (makedirs ospath (path_dirname ospath path) (set_disk fs' s)) = Ok tt.
Proof.
  intros M P. unfold log_to_json, try_except, bind.
  unfold makedirs in M |- *.
  destruct (String.eqb (path_dirname ospath path) "") eqn:N; [discriminate M|].
  destruct (makedirs_from ospath _ (path_dirname ospath path) (disk s))
    as [[[]|e] fs1] eqn:C; [clear M | discriminate M].
  destruct (makedirs_from_spec _ _ _ _ _ _ C) as (W1 & F1 & D1 & O1 & _).
  unfold append_file, can_open. cbn [disk set_disk].
  rewrite (O1 eq_refl), W1, P, orb_true_r. cbn [andb].
  fold (current_text fs1 path). fold (logged_line d).
  eexists. split; [reflexivity|].
  cbn [directory_exists write_permitted file_content put_file disk set_disk].
  split; [exact (O1 eq_refl)|]. split; [exact W1|].
  split; [rewrite String.eqb_refl; unfold current_text; now rewrite F1|].
  split.
  - intros p Hp. destruct (String.eqb_spec p path); [contradiction|].
    now rewrite F1.
  - rewrite (makedirs_from_again ospath _ _ _ _ _ C); [reflexivity | auto |].
    intros p. unfold path_exists.
    cbn [directory_exists file_content put_file].
    destruct (directory_exists fs1 p); [reflexivity|]. cbn [orb].
    destruct (String.eqb p path); [reflexivity | auto].
Qed.

(** [log_to_json], which [main] never calls, does create the directory
    of its path, with the missing directories above it, before it opens
    the file. *)
Lemma log_to_json_creates_directory (ospath : os_path) (d : option pydict)
    (path : string) (s : state) :
  fst (makedirs ospath (path_dirname ospath path) s) = Ok tt ->
  write_permitted (disk s) path = true ->
  let s' := snd (log_to_json ospath d path s) in
  directory_exists (disk s') (path_dirname ospath path) = true /\
  EXECUTION_STATUS s' = EXECUTION_STATUS s /\
  exists old, file_content (disk s') path
              = Some (old ++ JsonText.dump_data d ++ String JsonText.newline "").
Proof.
  intros M P.
  destruct (log_to_json_adds_line ospath d path s M P)
    as (fs' & E & D & _ & C & _).
  rewrite E. cbn. split; [exact D|]. split; [reflexivity|].
  eexists. exact C.
Qed.

(** C5.  The run with [-output out/missing] on a disk where [out] exists
    and [out/missing] does not, against a platform on which everything
    succeeds: the directory is still missing at the end, no traceability
    file exists, the final status is 4, and the path of the file that was
    not written is printed. *)
Theorem missing_output_directory_not_created :
  let fs := Sample.disk_with_out in
  let o := program PosixPath.posix Sample.june_first
             (Sample.flags "1234567890" (Some "out/missing"))
             (platform acme code_created) fs in
  let path := "out/missing/1234567890_240601.json" in
  PosixPath.dirname path = "out/missing" /\
  directory_exists fs "out/missing" = false /\
  directory_exists (disk (final o)) "out/missing" = false /\
  file_content (disk (final o)) path = None /\
  EXECUTION_STATUS (final o) = 4 /\
  stdout (final o) = [Text path].
Proof. cbv zeta. repeat split; vm_compute; reflexivity. Qed.

(** ** Running the script again *)


Section Rerun.

Variable ospath : os_path.
Variable today : date.
Variable sn : string.
Variable dir : string.

Local Abbreviation path := (traceability_path ospath today sn dir).


Hypothesis accepted : forall s, fst (check_serial_number sn s) = Ok sn.

(** A run whose traceability file can be opened replaces that file by one
    record, and changes nothing else on the disk. *)
Lemma run_disk (i : invocation) (fs : filesystem) :
  can_open ospath fs path = true ->
  exists status,
    disk (final (run ospath today sn dir i fs))
    = put_file path
        (JsonText.dump_content (AStr sn) status) fs.
Proof.
  intros C.
  destruct (check_serial_number_returns sn (initial_state fs) accepted)
    as (s1 & E & D & _).
  destruct (main_accepted ospath today (inv_server i) fs (inv_env i)
              (inv_user i) (inv_password i) sn (inv_org i) (inv_rc i)
              (inv_description i) (inv_version i) (Some dir) s1 E)
    as (s3 & _ & U & Hm).
  rewrite manage_data_json_dict in Hm. cbv zeta in Hm.
  destruct U as (Ud & _). cbn in Ud, D.
  change (path_join ospath dir (filename_of today _))
    with path in Hm.
  assert (F : disk s3 = fs) by congruence.
  rewrite F, C in Hm.
  exists (EXECUTION_STATUS s3). unfold run, program. rewrite Hm. reflexivity.
Qed.

Lemma can_open_put_file (fs : filesystem) (p t q : string) :
  can_open ospath (put_file p t fs) q = can_open ospath fs q.
Proof. reflexivity. Qed.

Lemma rerun_overwrites (l : list invocation) :
  forall fs,
    l <> [] ->
    can_open ospath fs path = true ->
    exists status,
      file_content (rerun ospath today sn dir l fs) path
      = Some (JsonText.dump_content (AStr sn) status).
Proof.
  induction l as [|i r IH]; intros fs N C; [contradiction|].
  cbn [rerun]. destruct (run_disk i fs C) as (status & D). rewrite D.
  destruct r as [|i' r'].
  - exists status. cbn. rewrite String.eqb_refl. reflexivity.
  - apply IH; [discriminate|]. rewrite can_open_put_file. exact C.
Qed.

End Rerun.



(** Two runs in a row, the first refused at the login and the second
    successful: the file holds the record of the second run alone. *)
Remark second_run_replaces_first :
  let i := mkInvocation "production" "user" "secret" "Acme" "RC-1" "ONAS0000"
             "2.0.0" Sample.refusing in
  let j := mkInvocation "production" "user" "secret" "Acme" "RC-1" "ONAS0000"
             "2.0.0" (platform acme code_created) in
  file_content
    (rerun PosixPath.posix Sample.june_first "1234567890" "out" [i]
       Sample.disk_with_out) "out/1234567890_240601.json"
  = Some (JsonText.dump_content (AStr "1234567890") 11) /\
  file_content
    (rerun PosixPath.posix Sample.june_first "1234567890" "out" [i; j]
       Sample.disk_with_out) "out/1234567890_240601.json"
  = Some (JsonText.dump_content (AStr "1234567890") 0).
Proof. cbv zeta. split; vm_compute; reflexivity. Qed.

(** * Further properties *)

(** ** The value of a string of decimal digits *)

Lemma digits_value_bounds (s : string) :
  PyStr.all_chars PyStr.is_decimal s = true ->
  forall acc,
    PyStr.digits_value acc s
    = acc * 10 ^ Z.of_nat (String.length s) + PyStr.digits_value 0 s /\
    0 <= PyStr.digits_value 0 s < 10 ^ Z.of_nat (String.length s).
Proof.
  induction s as [|c r IH]; cbn [PyStr.all_chars PyStr.digits_value String.length].
  - intros _ acc. cbn. lia.
  - intros H acc. apply andb_true_iff in H as [Hc Hr].
    unfold PyStr.is_decimal in Hc. apply andb_true_iff in Hc as [Lo Hi].
    apply Z.leb_le in Lo, Hi.
    destruct (IH Hr (10 * acc + (PyStr.ord c - 48))) as [E _].
    destruct (IH Hr (10 * 0 + (PyStr.ord c - 48))) as [E0 B].
    rewrite Nat2Z.inj_succ, Z.pow_succ_r by lia.
    rewrite E, E0. split; nia.
Qed.

(** A string of ten decimal digits is worth at most the upper bound, and at
    least the lower bound exactly when it does not start with 0. *)
Lemma ten_digits_range (sn : string) :
  String.length sn = 10%nat ->
  PyStr.all_chars PyStr.is_decimal sn = true ->
  PyStr.digits_value 0 sn <= MAX_SERIAL_NUMBER_ONASPORT /\
  (PyStr.digits_value 0 sn <? MIN_SERIAL_NUMBER_ONASPORT) = leading_zero sn.
Proof.
  intros L D. destruct sn as [|c r]; [discriminate L|].
  injection L as L. cbn [PyStr.all_chars] in D.
  apply andb_true_iff in D as [Hc Hr].
  unfold PyStr.is_decimal in Hc. apply andb_true_iff in Hc as [Lo Hi].
  apply Z.leb_le in Lo, Hi.
  cbn [PyStr.digits_value leading_zero].
  destruct (digits_value_bounds r Hr (10 * 0 + (PyStr.ord c - 48))) as [E B].
  rewrite L in E, B. rewrite E.
  unfold MAX_SERIAL_NUMBER_ONASPORT, MIN_SERIAL_NUMBER_ONASPORT.
  change (10 ^ Z.of_nat 9) with 1000000000 in *.
  split; [lia|].
  destruct (Z.eqb_spec (PyStr.ord c) 48) as [Z0 | NZ].
  - apply Z.ltb_lt. lia.
  - apply Z.ltb_ge. lia.
Qed.

(** X1.  What [check_serial_number] does with any string, decided on the
    string alone: a string that [isdigit] refuses or whose length is not 10
    is returned with status 5; a ten-character string of digits that are
    not all decimal makes [int] raise [ValueError]; ten decimal digits are
    returned with status 5 when they start with 0 and with the status left
    alone otherwise.  The comparison with the upper bound never decides. *)
Theorem check_serial_number_decided (sn : string) (s : state) :
  check_serial_number sn s =
  if negb (PyStr.isdigit sn && (PyStr.len sn =? 10))
  then (Ok sn, set_EXECUTION_STATUS 5 s)
  else if negb (PyStr.all_chars PyStr.is_decimal sn)
  then (Raise ValueError, s)
  else if leading_zero sn
  then (Ok sn, set_EXECUTION_STATUS 5 s)
  else (Ok sn, s).
Proof.
  unfold check_serial_number, bind, py_int, set_status, modify, ret, raise,
    SERIAL_NUMBER_LENGTH_ONASPORT.
  destruct (PyStr.isdigit sn) eqn:D; cbn [negb andb]; [|reflexivity].
  destruct (PyStr.len sn =? 10) eqn:L; cbn [negb]; [|reflexivity].
  assert (I : PyStr.int sn
              = if PyStr.all_chars PyStr.is_decimal sn
                then Some (PyStr.digits_value 0 sn) else None).
  { destruct sn; [discriminate D | reflexivity]. }
  rewrite I. destruct (PyStr.all_chars PyStr.is_decimal sn) eqn:A;
    cbn [negb]; [|reflexivity].
  apply Z.eqb_eq in L. unfold PyStr.len in L.
  destruct (ten_digits_range sn) as [Hi Lo]; [lia | exact A |].
  rewrite Lo. destruct (leading_zero sn); [reflexivity|].
  replace (PyStr.digits_value 0 sn >? MAX_SERIAL_NUMBER_ONASPORT) with false;
    [reflexivity|].
  symmetry. rewrite Z.gtb_ltb. apply Z.ltb_ge. exact Hi.
Qed.

(** ** The traceability writer, whatever it is given *)

(** X2.  [manage_data_json] never raises, sends nothing and creates no
    directory.  Given a dictionary and a directory it returns the joined
    path whether or not the file could be written: when the file can be
    opened it is replaced by the record of the serial number and of the
    status at that moment, and nothing else changes; when it cannot, the
    disk is as before and the status is 4.  Given [None] for the data or
    for the directory it returns [None] with status 3 and an unchanged
    disk. *)
Theorem manage_data_json_outcomes (ospath : os_path) (today : date)
    (data : option pydict) (filepath : argval) (s : state) :
  exists v s',
    manage_data_json ospath today data filepath s = (Ok v, s') /\
    directory_exists (disk s') = directory_exists (disk s) /\
    events s' = events s /\
    match data, filepath with
    | Some d, AStr dir =>
        let path := path_join ospath dir (filename_of today d) in
        v = AStr path /\
        if can_open ospath (disk s) path
        then EXECUTION_STATUS s' = EXECUTION_STATUS s /\
             disk s' = put_file path
                         (JsonText.dump_content (serial_of d) (EXECUTION_STATUS s))
                         (disk s)
        else EXECUTION_STATUS s' = 4 /\ disk s' = disk s
    | _, _ => v = ANone /\ EXECUTION_STATUS s' = 3 /\ disk s' = disk s
    end.
Proof.
  destruct data as [d|].
  - rewrite manage_data_json_dict. destruct filepath as [|dir].
    + do 2 eexists. split; [reflexivity|]. cbn. auto.
    + cbv zeta. destruct (can_open ospath (disk s) _) eqn:C.
      * do 2 eexists. split; [reflexivity|]. cbn. auto.
      * do 2 eexists. split; [reflexivity|]. cbn. auto.
  - destruct filepath; do 2 eexists; (split; [reflexivity|]); cbn; auto.
Qed.

Section Reports.

Variable ospath : os_path.
Variable today : date.
Variable server : request -> http_reply.
Variable fs : filesystem.
Variables env user password sn org rc description version dir : string.

Local Abbreviation argv :=
  (Flags env user password sn org rc description version (Some dir)).
Local Abbreviation path := (traceability_path ospath today sn dir).

(** The end of a run with an output directory: the state after the
    upload, and what [manage_data_json] makes of it. *)
Lemma main_with_output (s1 : state) :
  check_serial_number sn (initial_state fs) = (Ok sn, s1) ->
  exists s3,
    (if EXECUTION_STATUS s1 =? 0
     then define_apis server (AStr user) (AStr password) (AStr env)
            (before_upload
               (namespace env user password sn org rc description version
                  (Some dir)) (AStr dir) s1) = (Ok tt, s3)
     else s3 = before_upload
                 (namespace env user password sn org rc description version
                    (Some dir)) (AStr dir) s1) /\
    disk s3 = disk s1 /\
    main ospath today argv server (initial_state fs) =
    if can_open ospath (disk s1) path
    then (Ok (AStr path),
          set_disk (put_file path
                      (JsonText.dump_content (AStr sn) (EXECUTION_STATUS s3))
                      (disk s1)) s3)
    else (Ok (AStr path), set_EXECUTION_STATUS 4 s3).
Proof.
  intros E.
  destruct (main_accepted ospath today server fs env user password sn org rc
              description version (Some dir) s1 E) as (s3 & D & U & Hm).
  exists s3. split; [exact D|]. destruct U as (Ud & _). cbn in Ud.
  split; [exact Ud|]. rewrite Hm, manage_data_json_dict. cbv zeta.
  change (path_join ospath dir (filename_of today _)) with path.
  change (serial_of _) with (AStr sn). rewrite Ud. reflexivity.
Qed.

End Reports.

(** X3.  A run with an accepted command line and an output directory
    always ends with exit code 0 and prints the path of the traceability
    file last, written or not.  When the file can be opened it holds the
    record of the serial number with the final status of the run; when it
    cannot, the final status is 4 and the disk is as it was. *)
Theorem run_reports_path (ospath : os_path) (today : date)
    (server : request -> http_reply) (fs : filesystem)
    (env user password sn org rc description version dir : string) :
  (forall s, fst (check_serial_number sn s) = Ok sn) ->
  let path := traceability_path ospath today sn dir in
  let o := program ospath today
             (Flags env user password sn org rc description version (Some dir))
             server fs in
  exit_code o = 0 /\
  (exists printed : list line, stdout (final o) = (printed ++ [Text path])%list) /\
  if can_open ospath fs path
  then file_content (disk (final o)) path
       = Some (JsonText.dump_content (AStr sn) (EXECUTION_STATUS (final o)))
  else EXECUTION_STATUS (final o) = 4 /\ disk (final o) = fs.
Proof.
  intros A path o.
  destruct (check_serial_number_returns sn (initial_state fs) A)
    as (s1 & E & D & _).
  destruct (main_with_output ospath today server fs env user password sn org
              rc description version dir s1 E) as (s3 & _ & Ds & Hm).
  cbn in D. rewrite D in Hm. subst o. unfold program. rewrite Hm.
  fold path. destruct (can_open ospath fs path).
  - cbn. split; [reflexivity|]. split; [eexists; reflexivity|].
    rewrite String.eqb_refl. reflexivity.
  - cbn. split; [reflexivity|]. split; [eexists; reflexivity|].
    split; [reflexivity | congruence].
Qed.

Lemma run_reports_path_witness :
  let o := program PosixPath.posix Sample.june_first
             (Sample.flags "0000000000" (Some "nowhere"))
             (platform acme code_created) Sample.disk_with_out in
  exit_code o = 0 /\
  (exists printed : list line,
     stdout (final o) = (printed ++ [Text "nowhere/0000000000_240601.json"])%list) /\
  EXECUTION_STATUS (final o) = 4 /\ disk (final o) = Sample.disk_with_out.
Proof.
  assert (A : forall s, fst (check_serial_number "0000000000" s) = Ok "0000000000")
    by reflexivity.
  exact (run_reports_path PosixPath.posix Sample.june_first
           (platform acme code_created) Sample.disk_with_out
           "production" "user" "secret" "0000000000" "Acme" "RC-1" "ONAS0000"
           "2.0.0" "nowhere" A).
Defined.

(** X4.  A serial number that [check_serial_number] rejects does not stop
    the run: no request is sent, nothing sleeps, and the traceability
    file, where it can be opened, records the serial number as given with
    status 5. *)
Theorem rejected_serial_run (ospath : os_path) (today : date)
    (server : request -> http_reply) (fs : filesystem)
    (env user password sn org rc description version : string)
    (output : option string) :
  check_serial_number sn (initial_state fs)
  = (Ok sn, set_EXECUTION_STATUS 5 (initial_state fs)) ->
  let o := program ospath today
             (Flags env user password sn org rc description version output)
             server fs in
  events (final o) = [] /\
  exit_code o = 0 /\
  forall dir,
    output = Some dir ->
    can_open ospath fs (traceability_path ospath today sn dir) = true ->
    EXECUTION_STATUS (final o) = 5 /\
    file_content (disk (final o)) (traceability_path ospath today sn dir)
    = Some (JsonText.dump_content (AStr sn) 5).
Proof.
  intros E o. subst o. destruct output as [dir|].
  - destruct (main_with_output ospath today server fs env user password sn org
                rc description version dir _ E) as (s3 & D & _ & Hm).
    cbn [EXECUTION_STATUS set_EXECUTION_STATUS Z.eqb] in D. subst s3.
    unfold program. rewrite Hm. cbn [disk set_EXECUTION_STATUS initial_state].
    destruct (can_open ospath fs _) eqn:C.
    + split; [reflexivity|]. split; [reflexivity|].
      intros dir' [= <-] _. cbn. rewrite String.eqb_refl. auto.
    + split; [reflexivity|]. split; [reflexivity|].
      intros dir' [= <-] C'. congruence.
  - destruct (main_accepted ospath today server fs env user password sn org rc
                description version None _ E) as (s3 & D & _ & Hm).
    cbn [EXECUTION_STATUS set_EXECUTION_STATUS Z.eqb] in D. subst s3.
    unfold program. rewrite Hm, manage_data_json_dict.
    split; [reflexivity|]. split; [reflexivity|]. intros dir' [=].
Qed.

Lemma rejected_serial_run_witness :
  let o := program PosixPath.posix Sample.june_first
             (Sample.flags "12345" (Some "out"))
             (platform acme code_created) Sample.disk_with_out in
  events (final o) = [] /\
  EXECUTION_STATUS (final o) = 5 /\
  file_content (disk (final o)) "out/12345_240601.json"
  = Some (JsonText.dump_content (AStr "12345") 5).
Proof.
  pose proof (rejected_serial_run PosixPath.posix Sample.june_first
                (platform acme code_created) Sample.disk_with_out
                "production" "user" "secret" "12345" "Acme" "RC-1" "ONAS0000"
                "2.0.0" (Some "out") eq_refl) as W.
  cbv zeta in W. destruct W as (Ev & _ & F).
  destruct (F "out" eq_refl eq_refl) as (St & Fc).
  split; [exact Ev|]. split; [exact St | exact Fc].
Defined.

(** ** The append-mode helper *)

(** X5.  Two calls of [log_to_json] on the same path, where [os.makedirs]
    succeeds on the directory of the path and the operating system allows
    the file to be written: the file keeps what it held, followed by the
    line of the first call and then the line of the second (the file is
    opened in append mode); the directory of the path exists afterwards,
    the status is untouched and no other file changes. *)
Theorem log_to_json_twice (ospath : os_path) (d1 d2 : option pydict)
    (path : string) (s : state) :
  fst (makedirs ospath (path_dirname ospath path) s) = Ok tt ->
  write_permitted (disk s) path = true ->
  let s2 := snd (log_to_json ospath d2 path
                   (snd (log_to_json ospath d1 path s))) in
  file_content (disk s2) path
  = Some (current_text (disk s) path ++ logged_line d1 ++ logged_line d2) /\
  directory_exists (disk s2) (path_dirname ospath path) = true /\
  EXECUTION_STATUS s2 = EXECUTION_STATUS s /\
  forall p, p <> path -> file_content (disk s2) p = file_content (disk s) p.
Proof.
  intros M P s2. subst s2.
  destruct (log_to_json_adds_line ospath d1 path s M P)
    as (fs1 & E1 & D1 & W1 & C1 & F1 & M1).
  rewrite E1. cbn [snd].
  destruct (log_to_json_adds_line ospath d2 path (set_disk fs1 s) M1)
    as (fs2 & E2 & D2 & W2 & C2 & F2 & _).
  { cbn [disk set_disk]. rewrite W1. exact P. }
  rewrite E2. cbn [snd disk set_disk EXECUTION_STATUS] in *.
  split.
  - rewrite C2. unfold current_text at 1. rewrite C1.
    now rewrite string_append_assoc.
  - split; [exact D2|]. split; [reflexivity|].
    intros p Hp. rewrite (F2 p Hp). apply (F1 p Hp).
Qed.

Lemma log_to_json_twice_witness :
  let s := initial_state Sample.disk_with_out in
  let s2 := snd (log_to_json PosixPath.posix None "logs/2024/run.json"
                   (snd (log_to_json PosixPath.posix
                           (Some (Sample.args "1234567890" None))
                           "logs/2024/run.json" s))) in
  file_content (disk s2) "logs/2024/run.json"
  = Some (logged_line (Some (Sample.args "1234567890" None)) ++ logged_line None) /\
  directory_exists (disk s2) "logs/2024" = true.
Proof.
  intros s s2.
  destruct (log_to_json_twice PosixPath.posix
              (Some (Sample.args "1234567890" None)) None "logs/2024/run.json" s)
    as (C & D & _).
  - reflexivity.
  - reflexivity.
  - split; [exact C | exact D].
Defined.

(** X6.  [log_to_json] on a path without directory part: [os.makedirs]
    refuses the empty name, the handler records status 2, and nothing is
    written, whatever the disk allows. *)
Theorem log_to_json_bare_filename (ospath : os_path) (d : option pydict)
    (path : string) (s : state) :
  path_dirname ospath path = "" ->
  log_to_json ospath d path s = (Ok tt, set_EXECUTION_STATUS 2 s).
Proof.
  intros E. unfold log_to_json, try_except, bind, makedirs. rewrite E.
  reflexivity.
Qed.

Lemma log_to_json_bare_filename_witness :
  log_to_json PosixPath.posix None "run.json" (initial_state Sample.disk_with_out)
  = (Ok tt, set_EXECUTION_STATUS 2 (initial_state Sample.disk_with_out)).
Proof. apply log_to_json_bare_filename. reflexivity. Defined.

(** ** The status a run can end with *)

Lemma not_request_is_exception_getitem (v : json) (k : string) (e : exn) :
  getitem v k = Raise e -> is_RequestException e = false /\ is_Exception e = true.
Proof.
  destruct v; simpl; try (intros [= <-]; split; reflexivity).
  destruct (members_lookup k members); [discriminate|].
  intros [= <-]; split; reflexivity.
Qed.

Lemma not_request_is_exception_getitem0 (v : json) (e : exn) :
  getitem0 v = Raise e -> is_RequestException e = false /\ is_Exception e = true.
Proof.
  destruct v as [| | |s|l|m]; simpl; try (intros [= <-]; split; reflexivity).
  - destruct s; [|discriminate]. intros [= <-]; split; reflexivity.
  - destruct l; [|discriminate]. intros [= <-]; split; reflexivity.
Qed.

Lemma not_request_is_exception_iterate (v : json) (e : exn) :
  iterate v = Raise e -> is_RequestException e = false /\ is_Exception e = true.
Proof. destruct v; simpl; try discriminate; intros [= <-]; split; reflexivity. Qed.

Section Chain.

Context {A B : Type}.

Lemma chain_ret (Q : Z -> Prop) (a : A) : Q 0 -> chain Q (ret a).
Proof. intros H s E. cbn. now rewrite E. Qed.

Lemma chain_raise (Q : Z -> Prop) (e : exn) :
  is_RequestException e = false -> is_Exception e = true ->
  chain Q (@raise A e).
Proof. intros R X s E. cbn. auto. Qed.

Lemma chain_bind (Q : Z -> Prop) (m : M A) (k : A -> M B) :
  chain still_zero m -> (forall a, chain Q (k a)) -> chain Q (bind m k).
Proof.
  intros Hm Hk s E. unfold bind. specialize (Hm s E).
  destruct (m s) as [[a|e] s1]; [|exact Hm]. apply (Hk a s1 Hm).
Qed.

Lemma chain_weaken (m : M A) : chain still_zero m -> chain zero_or_nine m.
Proof.
  intros H s E. specialize (H s E). destruct (m s) as [[a|e] s1];
    [left; exact H | exact H].
Qed.

(** The handler of [except RequestException] around such a computation
    never runs. *)
Lemma chain_try_except (Q : Z -> Prop) (body : M A) (handler : exn -> M A) :
  chain Q body -> chain Q (try_except body is_RequestException handler).
Proof.
  intros H s E. unfold try_except. specialize (H s E).
  destruct (body s) as [[a|e] s1]; [exact H|].
  destruct H as (R & X & St). rewrite R. auto.
Qed.

Lemma chain_lift (Q : Z -> Prop) (r : result A) :
  Q 0 ->
  (forall e, r = Raise e -> is_RequestException e = false /\ is_Exception e = true) ->
  chain Q (lift r).
Proof.
  intros H0 H. destruct r as [a|e]; cbn.
  - now apply chain_ret.
  - destruct (H e eq_refl). now apply chain_raise.
Qed.

Lemma chain_global (Q : Z -> Prop) (name : state -> option A) :
  Q 0 -> chain Q (global name).
Proof.
  intros H0 s E. unfold global. destruct (name s); cbn; [now rewrite E | auto].
Qed.

End Chain.

Lemma chain_modify (Q : Z -> Prop) (f : state -> state) :
  Q 0 -> (forall s, EXECUTION_STATUS (f s) = EXECUTION_STATUS s) ->
  chain Q (modify f).
Proof. intros H0 H s E. cbn. now rewrite H, E. Qed.

Lemma chain_get_state (Q : Z -> Prop) : Q 0 -> chain Q get_state.
Proof. intros H0 s E. cbn. now rewrite E. Qed.

Lemma chain_emit (Q : Z -> Prop) (e : event) : Q 0 -> chain Q (emit e).
Proof. intros H0. apply chain_modify; [exact H0 | reflexivity]. Qed.

Lemma chain_dict_get (Q : Z -> Prop) (d : option pydict) (k : string)
    (v : argval) :
  Q 0 -> chain Q (dict_get d k v).
Proof.
  intros H0. destruct d; cbn; [now apply chain_ret | now apply chain_raise].
Qed.

Section ChainScript.

Variable server : request -> http_reply.

(** A call of [get_api_call] followed by the decoding of its result: the
    rest runs only when the call succeeded, with status 0. *)
Lemma chain_get_then_loads {B} (Q : Z -> Prop) (url : string) (h : headers)
    (k : json -> M B) :
  (forall j, chain Q (k j)) ->
  chain Q (bind (get_api_call server url h)
             (fun r => bind (loads_content r) k)).
Proof.
  intros Hk s E.
  unfold bind at 1, get_api_call, try_except, bind at 1, send, bind at 1,
    emit, modify.
  destruct (server _) as [|r]; cbn.
  - auto 6.
  - unfold raise_for_status. destruct (error_status r); cbn; [auto 6|].
    unfold bind, loads_content. destruct (content r) as [j|]; cbn.
    + apply (Hk j). exact E.
    + rewrite E. auto.
Qed.

Lemma chain_post_then_loads {B} (Q : Z -> Prop) (url : string) (h : headers)
    (body : json) (k : json -> M B) :
  (forall j, chain Q (k j)) ->
  chain Q (bind (post_api_call server url h body)
             (fun r => bind (loads_content r) k)).
Proof.
  intros Hk s E.
  unfold bind at 1, post_api_call, try_except, bind at 1, send, bind at 1,
    emit, modify.
  destruct (server _) as [|r]; cbn.
  - auto 6.
  - unfold raise_for_status. destruct (error_status r); cbn; [auto 6|].
    unfold bind, loads_content. destruct (content r) as [j|]; cbn.
    + apply (Hk j). exact E.
    + rewrite E. auto.
Qed.

(** The last request: its result is not read, and a failure leaves 9. *)
Lemma chain_post_last (url : string) (h : headers) (body : json) :
  chain zero_or_nine (bind (post_api_call server url h body) (fun _ => ret tt)).
Proof.
  intros s E.
  unfold bind, post_api_call, try_except, send, emit, modify.
  destruct (server _) as [|r]; cbn.
  - right; reflexivity.
  - unfold raise_for_status. destruct (error_status r); cbn;
      [right; reflexivity | left; exact E].
Qed.

End ChainScript.

Ltac chain_side :=
  first [ reflexivity | left; reflexivity
        | apply not_request_is_exception_getitem
        | apply not_request_is_exception_getitem0
        | apply not_request_is_exception_iterate ].

(** One step through a computation of the upload. *)
Ltac chain_step :=
  lazymatch goal with
  | |- chain _ (bind (get_api_call _ _ _) _) =>
      apply chain_get_then_loads; intros ?
  | |- chain _ (bind (post_api_call _ _ _ _) (fun _ => ret tt)) =>
      apply chain_post_last
  | |- chain _ (bind (post_api_call _ _ _ _) _) =>
      apply chain_post_then_loads; intros ?
  | |- chain _ (bind _ _) => apply chain_bind; [|intros ?]
  | |- chain _ (try_except _ is_RequestException _) => apply chain_try_except
  | |- chain _ (ret _) => apply chain_ret; chain_side
  | |- chain _ (raise _) => apply chain_raise; reflexivity
  | |- chain _ (global _) => apply chain_global; chain_side
  | |- chain _ (lift _) => apply chain_lift; chain_side
  | |- chain _ (modify _) => apply chain_modify; [chain_side | reflexivity]
  | |- chain _ (emit _) => apply chain_emit; chain_side
  | |- chain _ get_state => apply chain_get_state; chain_side
  | |- chain _ (dict_get _ _ _) => apply chain_dict_get; chain_side
  end.

Section ChainFunctions.

Variable server : request -> http_reply.

Lemma chain_owner_organization (d : option pydict) :
  chain still_zero (owner_organization d).
Proof. unfold owner_organization. repeat chain_step. Qed.

Lemma chain_add_device (d : option pydict) :
  chain zero_or_nine (add_device server d).
Proof.
  unfold add_device.
  repeat first [apply chain_owner_organization | chain_step].
Qed.

Lemma chain_fill_organizations (l : list json) :
  chain still_zero (fill_organizations l).
Proof.
  induction l as [|o r IH]; cbn [fill_organizations].
  - repeat chain_step.
  - repeat first [exact IH | chain_step].
    match goal with |- context [hashable ?n] => destruct (hashable n) end;
      repeat chain_step.
Qed.

Lemma chain_template_id : chain zero_or_nine (template_id server).
Proof.
  unfold template_id.
  repeat first [apply chain_fill_organizations | apply chain_add_device
               | chain_step].
Qed.

Lemma chain_registration_id : chain zero_or_nine (registration_id server).
Proof.
  unfold registration_id. repeat first [apply chain_template_id | chain_step].
Qed.

Lemma chain_get_organizations : chain zero_or_nine (get_organizations server).
Proof.
  unfold get_organizations.
  repeat first [apply chain_registration_id | chain_step].
Qed.

End ChainFunctions.

Section StatusOfARun.

Variable server : request -> http_reply.

(** [signin], started with status 0: it returns with 0, 9 or 11, or lets
    through an [Exception] with status 0, 8 or 9. *)
Lemma signin_status (s : state) :
  EXECUTION_STATUS s = 0 ->
  match signin server s with
  | (Ok _, s') =>
      EXECUTION_STATUS s' = 0 \/ EXECUTION_STATUS s' = 9 \/
      EXECUTION_STATUS s' = 11
  | (Raise e, s') =>
      is_Exception e = true /\
      (EXECUTION_STATUS s' = 0 \/ EXECUTION_STATUS s' = 8 \/
       EXECUTION_STATUS s' = 9)
  end.
Proof.
  intros E. unfold signin, try_except.
  unfold bind at 1, global at 1. destruct (apis s) as [a|]; [|cbn; auto].
  unfold bind at 1, global at 1. destruct (payload s) as [p|]; [|cbn; auto].
  unfold bind at 1, global at 1. destruct (headers_login s) as [h|]; [|cbn; auto].
  unfold bind at 1, send at 1, bind at 1, emit at 1, modify at 1.
  destruct (server _) as [|r]; [cbn; auto|]. cbv beta iota.
  unfold ret at 1, bind at 1, raise_for_status at 1.
  destruct (error_status r); [cbn; auto|].
  unfold ret at 1, bind at 1, response_json at 1.
  destruct (content r) as [j|]; [|cbn; auto].
  unfold ret at 1, bind at 1.
  destruct (getitem j "accessJwt") as [access|e] eqn:G1.
  2:{ destruct (not_request_is_exception_getitem _ _ _ G1) as [R X].
      cbn. rewrite R. cbn. rewrite E. auto. }
  cbn [lift]. unfold ret at 1, bind at 1.
  destruct (getitem access "token") as [token|e] eqn:G2.
  2:{ destruct (not_request_is_exception_getitem _ _ _ G2) as [R X].
      cbn. rewrite R. cbn. rewrite E. auto. }
  cbn [lift]. unfold ret at 1, bind at 1, modify at 1.
  match goal with
  | |- context [get_organizations server ?s1] =>
      pose proof (chain_get_organizations server s1 E) as C;
      destruct (get_organizations server s1) as [[u|e] s2]
  end.
  - destruct C as [C | C]; auto.
  - destruct C as (R & X & C). rewrite R. auto.
Qed.

(** [define_apis], started with status 0, returns with 0, 9, 10 or 11. *)
Lemma define_apis_status (username password environment : argval)
    (s : state) :
  EXECUTION_STATUS s = 0 ->
  forall s',
    define_apis server username password environment s = (Ok tt, s') ->
    EXECUTION_STATUS s' = 0 \/ EXECUTION_STATUS s' = 9 \/
    EXECUTION_STATUS s' = 10 \/ EXECUTION_STATUS s' = 11.
Proof.
  intros E s'. destruct (base_url_for environment) as [base|] eqn:B.
  - rewrite (define_apis_enters_signin server username password base s
               environment B).
    unfold try_except.
    pose proof (signin_status (apis_defined username password base s) E) as C.
    destruct (signin server (apis_defined username password base s))
      as [[u|e] s2].
    + destruct u. intros [= <-]. intuition.
    + destruct C as [X _]. rewrite X. cbn. intros [= <-]. cbn. auto.
  - unfold define_apis, try_except, bind, modify. rewrite B. cbn.
    intros [= <-]. cbn. auto.
Qed.

End StatusOfARun.

(** Whatever the command line, the platform and the disk, a run ends with
    one of the seven statuses of [final_status]. *)
Lemma program_final_status (ospath : os_path) (today : date)
    (argv : command_line) (server : request -> http_reply)
    (fs : filesystem) :
  final_status
    (EXECUTION_STATUS (final (program ospath today argv server fs))).
Proof.
  unfold program, final_status.
  destruct argv as [c | text | env user password sn org rc description version output].
  - cbn. auto.
  - cbn. auto.
  - assert (W : forall s3 : state,
              EXECUTION_STATUS s3 = 0 \/ EXECUTION_STATUS s3 = 5 \/
              EXECUTION_STATUS s3 = 9 \/ EXECUTION_STATUS s3 = 10 \/
              EXECUTION_STATUS s3 = 11 ->
              final_status
                (EXECUTION_STATUS
                   (final
                      match manage_data_json ospath today
                              (Some (namespace env user password sn org rc
                                       description version output))
                              (match output with
                               | Some o => AStr o
                               | None => ANone
                               end) s3 with
                      | (Ok path, s) =>
                          {| exit_code := 0;
                             final := set_stdout
                                        (stdout s ++ [Text (str_of_argval path)]) s |}
                      | (Raise (SystemExit code), s) =>
                          {| exit_code := code; final := s |}
                      | (Raise _, s) => {| exit_code := 1; final := s |}
                      end))).
    { intros s3 H. rewrite manage_data_json_dict. unfold final_status.
      destruct output as [dir|]; [|cbn; auto].
      cbv zeta. destruct (can_open ospath (disk s3) _); cbn; intuition. }
    destruct (check_serial_number_cases sn (initial_state fs)) as [E | [E | E]].
    + destruct (main_accepted ospath today server fs env user password sn org
                  rc description version output _ E) as (s3 & D & _ & Hm).
      rewrite Hm. apply W.
      cbn [initial_state EXECUTION_STATUS Z.eqb] in D.
      apply define_apis_status in D; [intuition | reflexivity].
    + destruct (main_accepted ospath today server fs env user password sn org
                  rc description version output _ E) as (s3 & D & _ & Hm).
      rewrite Hm. apply W.
      cbn [EXECUTION_STATUS set_EXECUTION_STATUS Z.eqb] in D. subst s3.
      cbn. auto.
    + assert (M : main ospath today
                    (Flags env user password sn org rc description version
                       output) server (initial_state fs)
                  = (Raise (SystemExit 2), initial_state fs)).
      { unfold main, parse_arguments, parse_args, try_except, bind.
        rewrite E. reflexivity. }
      rewrite M. cbn. auto.
Qed.

(** X7.  The statuses a run can end with are exactly 0, 3, 4, 5, 9, 10
    and 11: every run ends with one of them, whatever the command line,
    the platform and the disk, and each of them is the final status of
    some run.  The other codes the script assigns are never what a run
    ends with: 8 is always followed by 10, and the handlers that assign
    12, 13, 14, 15 and 16 never run. *)
Theorem final_statuses_exactly (n : Z) :
  (exists ospath today argv server fs,
     EXECUTION_STATUS (final (program ospath today argv server fs)) = n) <->
  final_status n.
Proof.
  split.
  - intros (ospath & today & argv & server & fs & <-).
    apply program_final_status.
  - intros H. exists PosixPath.posix, Sample.june_first.
    destruct H as [-> | [-> | [-> | [-> | [-> | [-> | ->]]]]]].
    + exists (Sample.flags "1234567890" (Some "out")),
        (platform acme code_created), Sample.disk_with_out.
      vm_compute. reflexivity.
    + exists (Sample.flags "1234567890" None),
        (platform acme code_created), Sample.disk_with_out.
      vm_compute. reflexivity.
    + exists (Sample.flags "1234567890" (Some "nowhere")),
        (platform acme code_created), Sample.disk_with_out.
      vm_compute. reflexivity.
    + exists (Sample.flags "12345" (Some "out")),
        (platform acme code_created), Sample.disk_with_out.
      vm_compute. reflexivity.
    + exists (Sample.flags "1234567890" (Some "out")),
        (fun rq =>
           if String.eqb (rq_url rq)
                (api_post_onasport_device (make_endpoints URL_PROD))
           then NoReply else platform acme code_created rq),
        Sample.disk_with_out.
      vm_compute. reflexivity.
    + exists (Sample.flags "1234567890" (Some "out")),
        (platform acme NoReply), Sample.disk_with_out.
      vm_compute. reflexivity.
    + exists (Sample.flags "1234567890" (Some "out")),
        Sample.refusing, Sample.disk_with_out.
      vm_compute. reflexivity.
Qed.

Lemma final_statuses_exactly_witness :
  exists ospath today argv server fs,
    EXECUTION_STATUS (final (program ospath today argv server fs)) = 9.
Proof.
  apply (proj2 (final_statuses_exactly 9)).
  unfold final_status. do 4 right. left. reflexivity.
Defined.

(** ** The order of the requests *)

Lemma firstn_of_first_part {X} (n : nat) (l1 l2 : list X) :
  firstn n l1 = firstn (Nat.min n (List.length l1)) (l1 ++ l2).
Proof.
  rewrite <- (firstn_firstn (l1 ++ l2)), firstn_app, firstn_all, Nat.sub_diag,
    firstn_O, app_nil_r.
  reflexivity.
Qed.

Section Paced.

Context {A B : Type}.
Variable e : endpoints.

Lemma paced_ret (a : A) : paced e [] (ret a).
Proof.
  intros s H. cbn. split; [exact H|]. exists []. now rewrite app_nil_r.
Qed.

Lemma paced_raise (x : exn) : paced e [] (@raise A x).
Proof.
  intros s H. cbn. split; [exact H|]. exists []. rewrite app_nil_r.
  split; [reflexivity|]. exists 0%nat. reflexivity.
Qed.

Lemma paced_lift (r : result A) : paced e [] (lift r).
Proof. destruct r; [apply paced_ret | apply paced_raise]. Qed.

Lemma paced_global (name : state -> option A) : paced e [] (global name).
Proof.
  intros s H. unfold global. destruct (name s); cbn; (split; [exact H|]);
    exists []; rewrite app_nil_r; (split; [reflexivity|]).
  - reflexivity.
  - exists 0%nat. reflexivity.
Qed.

Lemma partly_of_paced (l l' : list step) (m : M A) :
  paced e l m -> partly e (l ++ l') m.
Proof.
  intros H s Hs. destruct (H s Hs) as [Ha (added & Ev & Ho)].
  split; [exact Ha|]. exists added.
  destruct (fst (m s)).
  - exists (List.length l). split; [exact Ev|]. rewrite Ho.
    now rewrite firstn_app, firstn_all, Nat.sub_diag, firstn_O, app_nil_r.
  - destruct Ho as [k Ho]. exists (Nat.min k (List.length l)).
    split; [exact Ev|]. rewrite Ho. apply firstn_of_first_part.
Qed.

Lemma paced_bind (l1 l2 : list step) (m : M A) (k : A -> M B) :
  paced e l1 m -> (forall a, paced e l2 (k a)) ->
  paced e (l1 ++ l2) (bind m k).
Proof.
  intros Hm Hk s Hs. unfold bind. specialize (Hm s Hs).
  destruct (m s) as [[a|x] s1]; cbn [fst snd] in *.
  - destruct Hm as [Ha (r1 & Ev & Ho)].
    destruct (Hk a s1 Ha) as [Ha' (r2 & Ev' & Ho')].
    split; [exact Ha'|]. exists (r1 ++ r2)%list.
    split; [rewrite Ev', Ev; now rewrite app_assoc|].
    rewrite map_app, Ho. destruct (fst (k a s1)).
    + now rewrite Ho'.
    + destruct Ho' as [n Ho']. exists (List.length l1 + n)%nat.
      now rewrite Ho', firstn_app_2.
  - destruct Hm as [Ha (r1 & Ev & n & Ho)]. split; [exact Ha|].
    exists r1. split; [exact Ev|]. exists (Nat.min n (List.length l1)).
    rewrite Ho. apply firstn_of_first_part.
Qed.

Lemma partly_bind (l1 l2 : list step) (m : M A) (k : A -> M B) :
  paced e l1 m -> (forall a, partly e l2 (k a)) ->
  partly e (l1 ++ l2) (bind m k).
Proof.
  intros Hm Hk s Hs. unfold bind. specialize (Hm s Hs).
  destruct (m s) as [[a|x] s1]; cbn [fst snd] in *.
  - destruct Hm as [Ha (r1 & Ev & Ho)].
    destruct (Hk a s1 Ha) as [Ha' (r2 & n & Ev' & Ho')].
    split; [exact Ha'|]. exists (r1 ++ r2)%list, (List.length l1 + n)%nat.
    split; [rewrite Ev', Ev; now rewrite app_assoc|].
    now rewrite map_app, Ho, Ho', firstn_app_2.
  - destruct Hm as [Ha (r1 & Ev & n & Ho)]. split; [exact Ha|].
    exists r1, (Nat.min n (List.length l1)). split; [exact Ev|].
    rewrite Ho. apply firstn_of_first_part.
Qed.

(** Reading the endpoints gives [e]. *)
Lemma partly_bind_apis (l : list step) (k : endpoints -> M B) :
  partly e l (k e) -> partly e l (bind (global apis) k).
Proof.
  intros H s Hs. unfold bind, global. rewrite Hs. apply (H s Hs).
Qed.

(** A handler that does nothing to the outside. *)
Lemma partly_try_except (l : list step) (body : M A) (catches : exn -> bool)
    (handler : exn -> M A) :
  partly e l body -> (forall x, paced e [] (handler x)) ->
  partly e l (try_except body catches handler).
Proof.
  intros Hb Hh s Hs. unfold try_except. specialize (Hb s Hs).
  destruct (body s) as [[a|x] s1]; cbn [fst snd] in *; [exact Hb|].
  destruct (catches x); [|exact Hb].
  destruct Hb as [Ha (r1 & n & Ev & Ho)].
  destruct (Hh x s1 Ha) as [Ha' (r2 & Ev' & Ho')].
  split; [exact Ha'|].
  assert (N : r2 = []).
  { destruct (fst (handler x s1)).
    - now destruct r2.
    - destruct Ho' as [n' Ho']. rewrite firstn_nil in Ho'. now destruct r2. }
  subst r2. exists r1, n. rewrite Ev', app_nil_r. auto.
Qed.

End Paced.

Lemma paced_modify (e : endpoints) (f : state -> state) :
  (forall s, apis (f s) = apis s) -> (forall s, events (f s) = events s) ->
  paced e [] (modify f).
Proof.
  intros Ha He s H. cbn. rewrite Ha. split; [exact H|].
  exists []. now rewrite He, app_nil_r.
Qed.

Lemma paced_get_state (e : endpoints) : paced e [] get_state.
Proof.
  intros s H. cbn. split; [exact H|]. exists []. now rewrite app_nil_r.
Qed.

Lemma paced_set_status (e : endpoints) (n : Z) : paced e [] (set_status n).
Proof. apply paced_modify; reflexivity. Qed.

Lemma paced_print (e : endpoints) (l : line) : paced e [] (print l).
Proof. apply paced_modify; reflexivity. Qed.

Lemma paced_dict_get (e : endpoints) (d : option pydict) (k : string)
    (v : argval) :
  paced e [] (dict_get d k v).
Proof. destruct d; [apply paced_ret | apply paced_raise]. Qed.

Lemma paced_sleep (e : endpoints) (n : Z) : paced e [Delay n] (emit (Slept n)).
Proof.
  intros s H. cbn. split; [exact H|]. exists [Slept n]. split; reflexivity.
Qed.

Section PacedScript.

Variable server : request -> http_reply.
Variable e : endpoints.

Lemma paced_send (rq : request) :
  paced e [Request (rq_method rq) (rq_url rq)] (send server rq).
Proof.
  intros s H. unfold send, bind, emit, modify.
  destruct (server rq); cbn; (split; [exact H|]); exists [Sent rq];
    (split; [reflexivity|]).
  - exists 1%nat. reflexivity.
  - reflexivity.
Qed.

Lemma paced_get_api_call (url : string) (h : headers) :
  paced e [Request GET url] (get_api_call server url h).
Proof.
  intros s H. unfold get_api_call, try_except, bind, send, emit, modify.
  destruct (server _) as [|r]; cbn.
  - split; [exact H|]. eexists. split; reflexivity.
  - unfold raise_for_status. destruct (error_status r); cbn;
      (split; [exact H|]); eexists; split; reflexivity.
Qed.

Lemma paced_post_api_call (url : string) (h : headers) (body : json) :
  paced e [Request POST url] (post_api_call server url h body).
Proof.
  intros s H. unfold post_api_call, try_except, bind, send, emit, modify.
  destruct (server _) as [|r]; cbn.
  - split; [exact H|]. eexists. split; reflexivity.
  - unfold raise_for_status. destruct (error_status r); cbn;
      (split; [exact H|]); eexists; split; reflexivity.
Qed.

Lemma paced_raise_for_status (r : response) : paced e [] (raise_for_status r).
Proof.
  unfold raise_for_status. destruct (error_status r);
    [apply paced_raise | apply paced_ret].
Qed.

Lemma paced_loads_content (r : option response) : paced e [] (loads_content r).
Proof.
  unfold loads_content. destruct r as [r|]; [destruct (content r)|];
    first [apply paced_ret | apply paced_raise].
Qed.

Lemma paced_response_json (r : response) : paced e [] (response_json r).
Proof.
  unfold response_json. destruct (content r);
    [apply paced_ret | apply paced_raise].
Qed.

Lemma paced_owner_organization (d : option pydict) :
  paced e [] (owner_organization d).
Proof.
  unfold owner_organization.
  apply (paced_bind e [] []); [apply paced_dict_get | intros ?].
  apply (paced_bind e [] []); [apply paced_get_state | intros ?].
  apply paced_ret.
Qed.

Lemma paced_fill_organizations (l : list json) :
  paced e [] (fill_organizations l).
Proof.
  induction l as [|o r IH]; cbn [fill_organizations]; [apply paced_ret|].
  apply (paced_bind e [] []); [apply paced_lift | intros id].
  apply (paced_bind e [] []); [apply paced_lift | intros name].
  apply (paced_bind e [] []); [|intros _; exact IH].
  destruct (hashable name); [apply paced_modify; reflexivity | apply paced_raise].
Qed.

End PacedScript.

(** A step that does nothing to the outside. *)
Ltac paced_atom :=
  first
    [ apply paced_ret | apply paced_raise | apply paced_lift
    | apply paced_global | apply paced_get_state | apply paced_dict_get
    | apply paced_set_status | apply paced_print
    | apply paced_raise_for_status | apply paced_loads_content
    | apply paced_response_json | apply paced_owner_organization
    | apply paced_fill_organizations
    | apply paced_modify; reflexivity ].

(** One step through a function of the upload. *)
Ltac partly_step e :=
  lazymatch goal with
  | |- partly _ _ (bind (global apis) _) => apply partly_bind_apis
  | |- partly _ _ (bind (get_api_call _ _ _) _) =>
      apply (partly_bind e [_]); [apply paced_get_api_call | intros ?]
  | |- partly _ _ (bind (post_api_call _ _ _ _) _) =>
      apply (partly_bind e [_]); [apply paced_post_api_call | intros ?]
  | |- partly _ _ (bind (send _ _) _) =>
      apply (partly_bind e [_]); [apply paced_send | intros ?]
  | |- partly _ _ (bind (emit (Slept _)) _) =>
      apply (partly_bind e [_]); [apply paced_sleep | intros ?]
  | |- partly _ _ (bind _ _) =>
      apply (partly_bind e []); [paced_atom | intros ?]
  | |- partly _ _ (try_except _ _ _) =>
      apply partly_try_except; [|intros ?; paced_atom]
  | |- partly _ ?l (ret _) => apply (partly_of_paced e [] l); paced_atom
  end.

Section PartlyFunctions.

Variable server : request -> http_reply.
Variable e : endpoints.

Lemma partly_add_device (d : option pydict) :
  partly e
    [Request POST (api_post_registration_code e); Delay 1;
     Request POST (api_post_onasport_device e)]
    (add_device server d).
Proof. unfold add_device. repeat partly_step e. Qed.

Lemma partly_template_id :
  partly e
    [Request GET (api_get_template_onasport_device e);
     Request POST (api_post_registration_code e); Delay 1;
     Request POST (api_post_onasport_device e)]
    (template_id server).
Proof.
  unfold template_id. repeat partly_step e. apply partly_add_device.
Qed.

Lemma partly_registration_id :
  partly e
    [Request GET (api_get_template_registration_code e);
     Request GET (api_get_template_onasport_device e);
     Request POST (api_post_registration_code e); Delay 1;
     Request POST (api_post_onasport_device e)]
    (registration_id server).
Proof.
  unfold registration_id. repeat partly_step e. apply partly_template_id.
Qed.

Lemma partly_get_organizations :
  partly e
    [Request GET (api_get_organizations e);
     Request GET (api_get_template_registration_code e);
     Request GET (api_get_template_onasport_device e);
     Request POST (api_post_registration_code e); Delay 1;
     Request POST (api_post_onasport_device e)]
    (get_organizations server).
Proof.
  unfold get_organizations. repeat partly_step e. apply partly_registration_id.
Qed.

Lemma partly_signin : partly e (workflow e) (signin server).
Proof.
  unfold signin, workflow. repeat partly_step e. apply partly_get_organizations.
Qed.

End PartlyFunctions.

Section StepsOfARun.

Variable server : request -> http_reply.

(** [signin] with the globals of [define_apis] in place: the login
    request goes out first, and what follows is a first part of the other
    six steps. *)
Lemma signin_login_first (username password : argval) (base : string)
    (s : state) :
  exists rest k,
    events (snd (signin server (apis_defined username password base s)))
    = (events s ++ Sent (login_request username password base) :: rest)%list /\
    map step_of rest = firstn k (tl (workflow (make_endpoints base))).
Proof.
  unfold signin, try_except.
  unfold bind at 1, global at 1. cbn [apis apis_defined set_apis].
  unfold bind at 1, global at 1.
  cbn [payload apis_defined set_apis set_payload].
  unfold bind at 1, global at 1.
  cbn [headers_login apis_defined set_apis set_payload set_headers_login].
  fold (login_request username password base).
  fold (apis_defined username password base s).
  unfold bind at 1, send at 1, bind at 1, emit at 1, modify at 1.
  change (events (apis_defined username password base s)) with (events s).
  destruct (server (login_request username password base)) as [|r];
    [exists [], 0%nat; split; reflexivity|].
  cbv beta iota. unfold ret at 1, bind at 1, raise_for_status at 1.
  destruct (error_status r); [exists [], 0%nat; split; reflexivity|].
  unfold ret at 1, bind at 1, response_json at 1.
  destruct (content r) as [j|]; [|exists [], 0%nat; split; reflexivity].
  unfold ret at 1, bind at 1.
  destruct (getitem j "accessJwt") as [access|x];
    [|cbn; destruct (is_RequestException x); exists [], 0%nat; split; reflexivity].
  cbn [lift]. unfold ret at 1, bind at 1.
  destruct (getitem access "token") as [token|x];
    [|cbn; destruct (is_RequestException x); exists [], 0%nat; split; reflexivity].
  cbn [lift]. unfold ret at 1, bind at 1, modify at 1.
  match goal with
  | |- context [get_organizations server ?s1] =>
      destruct (partly_get_organizations server (make_endpoints base) s1 eq_refl)
        as [_ (rest & k & Ev & Ho)];
      destruct (get_organizations server s1) as [[u|x] s2]
  end.
  - exists rest, k. cbn [fst snd] in *. rewrite Ev. cbn [events set_headers_apis set_events].
    rewrite <- app_assoc. split; [reflexivity | exact Ho].
  - exists rest, k. cbn [fst snd] in Ev.
    assert (E2 : events s2
                 = (events s ++ Sent (login_request username password base) :: rest)%list).
    { rewrite Ev. cbn [events set_headers_apis set_events].
      now rewrite <- app_assoc. }
    destruct (is_RequestException x); cbn; (split; [exact E2 | exact Ho]).
Qed.

Lemma define_apis_login_first (username password environment : argval)
    (base : string) (s : state) :
  base_url_for environment = Some base ->
  exists rest k,
    events (snd (define_apis server username password environment s))
    = (events s ++ Sent (login_request username password base) :: rest)%list /\
    map step_of rest = firstn k (tl (workflow (make_endpoints base))).
Proof.
  intros Hb.
  rewrite (define_apis_enters_signin server username password base s
             environment Hb).
  destruct (signin_login_first username password base s) as (rest & k & Ev & Ho).
  exists rest, k. split; [|exact Ho]. unfold try_except.
  destruct (signin server (apis_defined username password base s))
    as [[u|x] s2]; cbn [snd] in *; [exact Ev|].
  destruct (is_Exception x); cbn; exact Ev.
Qed.

Lemma define_apis_unknown_environment (username password environment : argval)
    (s : state) :
  base_url_for environment = None ->
  define_apis server username password environment s
  = (Ok tt,
     set_EXECUTION_STATUS 10
       (set_stdout (stdout s ++ [Message UnboundLocalError])
          (set_payload (Some (JObj [("username", json_of_argval username);
                                    ("password", json_of_argval password)]))
             (set_headers_login (Some (mkHeaders "application/json" None)) s)))).
Proof.
  intros Hb. unfold define_apis, try_except, bind, modify. rewrite Hb.
  reflexivity.
Qed.

End StepsOfARun.

(** X8.  What [define_apis] sends first.  For one of the two environments
    it always starts with the login request: a POST to the login url of
    the environment, with the user name and the password as its JSON body
    and no bearer token; the events that follow are a first part of the
    six other steps, in their order.  For any other environment the local
    [base_url] is unbound: nothing is sent, the error is printed and the
    status is 10. *)
Theorem upload_starts_with_login (server : request -> http_reply)
    (username password environment : argval) (s : state) :
  let s' := snd (define_apis server username password environment s) in
  match base_url_for environment with
  | Some base =>
      exists rest k,
        events s'
        = (events s ++ Sent (login_request username password base) :: rest)%list /\
        map step_of rest = firstn k (tl (workflow (make_endpoints base)))
  | None =>
      events s' = events s /\
      EXECUTION_STATUS s' = 10 /\
      stdout s' = (stdout s ++ [Message UnboundLocalError])%list
  end.
Proof.
  intros s'. subst s'. destruct (base_url_for environment) as [base|] eqn:Hb.
  - now apply define_apis_login_first.
  - rewrite (define_apis_unknown_environment server) by exact Hb.
    repeat split.
Qed.

(** X9.  The events of any run, whatever the command line, the platform
    and the disk, are a first part of the seven steps of [workflow], in
    their order, at the endpoints of the selected environment: the login
    is posted, the three queries are sent with GET, the registration code
    and the device are posted, and the only delay is the one second before
    the device request.  No step is repeated and none is taken before the
    one before it. *)
Theorem run_follows_the_steps (ospath : os_path) (today : date)
    (argv : command_line) (server : request -> http_reply)
    (fs : filesystem) :
  exists k,
    map step_of (events (final (program ospath today argv server fs)))
    = firstn k (workflow (make_endpoints (selected_base argv))).
Proof.
  unfold program.
  destruct argv as [c | text | env user password sn org rc description version output].
  - exists 0%nat. reflexivity.
  - exists 0%nat. reflexivity.
  - assert (W : forall s3 : state,
              events
                (final
                   match manage_data_json ospath today
                           (Some (namespace env user password sn org rc
                                    description version output))
                           (match output with
                            | Some o => AStr o
                            | None => ANone
                            end) s3 with
                   | (Ok path, s) =>
                       {| exit_code := 0;
                          final := set_stdout
                                     (stdout s ++ [Text (str_of_argval path)]) s |}
                   | (Raise (SystemExit code), s) =>
                       {| exit_code := code; final := s |}
                   | (Raise _, s) => {| exit_code := 1; final := s |}
                   end) = events s3).
    { intros s3. rewrite manage_data_json_dict.
      destruct output as [dir|]; [|reflexivity].
      cbv zeta. destruct (can_open ospath (disk s3) _); reflexivity. }
    destruct (check_serial_number_cases sn (initial_state fs)) as [E | [E | E]].
    + destruct (main_accepted ospath today server fs env user password sn org
                  rc description version output _ E) as (s3 & D & _ & Hm).
      rewrite Hm, W. cbn [initial_state EXECUTION_STATUS Z.eqb] in D.
      unfold selected_base.
      destruct (base_url_for (AStr env)) as [base|] eqn:Hb.
      * match type of D with
        | define_apis _ _ _ _ ?s0 = _ =>
            destruct (define_apis_login_first server (AStr user)
                        (AStr password) (AStr env) base s0 Hb)
              as (rest & k & Ev & Ho)
        end.
        rewrite D in Ev. cbn [snd] in Ev. exists (S k).
        rewrite Ev. cbn [events before_upload
          set_output_directory set_data initial_state app map step_of].
        rewrite Ho. reflexivity.
      * rewrite (define_apis_unknown_environment server) in D by exact Hb.
        injection D as <-. exists 0%nat. reflexivity.
    + destruct (main_accepted ospath today server fs env user password sn org
                  rc description version output _ E) as (s3 & D & _ & Hm).
      rewrite Hm, W. cbn [EXECUTION_STATUS set_EXECUTION_STATUS Z.eqb] in D.
      subst s3. exists 0%nat. reflexivity.
    + assert (M : main ospath today
                    (Flags env user password sn org rc description version
                       output) server (initial_state fs)
                  = (Raise (SystemExit 2), initial_state fs)).
      { unfold main, parse_arguments, parse_args, try_except, bind.
        rewrite E. reflexivity. }
      rewrite M. exists 0%nat. reflexivity.
Qed.

(** ** The organization directory *)

Lemma set_ORGANIZATIONS_DIC_same (s : state) :
  set_ORGANIZATIONS_DIC (ORGANIZATIONS_DIC s) s = s.
Proof. destruct s. reflexivity. Qed.

(** The loop of [template_id] changes the dictionary as [filled] says, and
    nothing else. *)
Lemma fill_organizations_filled (l : list json) :
  forall s,
    fill_organizations l s
    = (fst (filled l (ORGANIZATIONS_DIC s)),
       set_ORGANIZATIONS_DIC (snd (filled l (ORGANIZATIONS_DIC s))) s).
Proof.
  induction l as [|o r IH]; intros s; cbn [fill_organizations filled].
  - cbn. now rewrite set_ORGANIZATIONS_DIC_same.
  - unfold bind at 1. destruct (getitem o "_id") as [id|e]; cbn [lift].
    2:{ cbn. now rewrite set_ORGANIZATIONS_DIC_same. }
    unfold ret at 1, bind at 1.
    destruct (getitem o "_name") as [name|e]; cbn [lift].
    2:{ cbn. now rewrite set_ORGANIZATIONS_DIC_same. }
    unfold ret at 1, bind at 1.
    destruct (hashable name).
    + unfold modify at 1. rewrite IH. reflexivity.
    + cbn. now rewrite set_ORGANIZATIONS_DIC_same.
Qed.

Lemma dic_lookup_set_string (a b : string) (v : json) (d : list (json * json)) :
  dic_lookup (JStr a) (dic_set (JStr b) v d)
  = if String.eqb a b then Some v else dic_lookup (JStr a) d.
Proof.
  induction d as [|[k w] d IH]; cbn [dic_set dic_lookup].
  - cbn [key_eqb]. reflexivity.
  - destruct (key_eqb (JStr b) k) eqn:Kb; cbn [dic_lookup].
    + destruct k; cbn in Kb; try discriminate.
      apply String.eqb_eq in Kb. subst s. cbn [key_eqb].
      destruct (String.eqb a b); reflexivity.
    + rewrite IH. destruct (key_eqb (JStr a) k) eqn:Ka; [|reflexivity].
      destruct k; cbn in Ka, Kb; try discriminate.
      apply String.eqb_eq in Ka. subst s. now rewrite String.eqb_sym, Kb.
Qed.

Lemma filled_lookup (l : list json) :
  Forall named_organization l ->
  forall d,
    fst (filled l d) = Ok tt /\
    forall name,
      dic_get (snd (filled l d)) (JStr name)
      = match listed_id name l with
        | Some id => id
        | None => dic_get d (JStr name)
        end.
Proof.
  intros H. induction H as [|o r (n & id & Hn & Hi) _ IH]; intros d.
  - split; reflexivity.
  - cbn [filled listed_id]. rewrite Hi, Hn. cbn [hashable].
    destruct (IH (dic_set (JStr n) id d)) as [IH1 IH2].
    split; [exact IH1|].
    intros name. rewrite IH2.
    destruct (listed_id name r) as [v|]; [reflexivity|].
    unfold dic_get. rewrite dic_lookup_set_string.
    rewrite (String.eqb_sym n name).
    destruct (String.eqb name n); reflexivity.
Qed.

(** X10.  The loop that fills [ORGANIZATIONS_DIC], on a listing whose
    items are objects with a string [_name] and an [_id]: it returns, it
    changes nothing but the dictionary, and afterwards a name maps to the
    identifier of the last listed organization with that name, and to
    what it mapped to before when no organization has that name. *)
Theorem fill_organizations_lookup (l : list json) (s : state) :
  Forall named_organization l ->
  exists dic,
    fill_organizations l s = (Ok tt, set_ORGANIZATIONS_DIC dic s) /\
    forall name,
      dic_get dic (JStr name)
      = match listed_id name l with
        | Some id => id
        | None => dic_get (ORGANIZATIONS_DIC s) (JStr name)
        end.
Proof.
  intros H. rewrite fill_organizations_filled.
  destruct (filled_lookup l H (ORGANIZATIONS_DIC s)) as [F L].
  exists (snd (filled l (ORGANIZATIONS_DIC s))). rewrite F. auto.
Qed.

Lemma fill_organizations_lookup_witness :
  exists dic,
    fill_organizations
      [JObj [("_name", JStr "Acme"); ("_id", JStr "org-1")];
       JObj [("_id", JStr "org-2"); ("_name", JStr "Beta")];
       JObj [("_name", JStr "Acme"); ("_id", JStr "org-3")]]
      (initial_state Sample.disk_with_out)
    = (Ok tt, set_ORGANIZATIONS_DIC dic (initial_state Sample.disk_with_out)) /\
    dic_get dic (JStr "Acme") = JStr "org-3" /\
    dic_get dic (JStr "Beta") = JStr "org-2" /\
    dic_get dic (JStr "Gamma") = JNull.
Proof.
  destruct (fill_organizations_lookup
              [JObj [("_name", JStr "Acme"); ("_id", JStr "org-1")];
               JObj [("_id", JStr "org-2"); ("_name", JStr "Beta")];
               JObj [("_name", JStr "Acme"); ("_id", JStr "org-3")]]
              (initial_state Sample.disk_with_out)) as (dic & E & L).
  - repeat constructor; do 2 eexists; split; reflexivity.
  - exists dic. split; [exact E|].
    split; [apply (L "Acme")|]. split; [apply (L "Beta") | apply (L "Gamma")].
Defined.

(** ** The three queries, one after the other *)

(** A request that the platform rejects or does not answer: the call
    returns [None], with the code of the function that made it. *)
Lemma get_api_call_rejected (server : request -> http_reply) (url : string)
    (h : headers) (s : state) :
  rejects server (mkRequest GET url h None) ->
  get_api_call server url h s
  = (Ok None,
     set_EXECUTION_STATUS 8
       (set_events (events s ++ [Sent (mkRequest GET url h None)]) s)).
Proof.
  intros H. unfold get_api_call, try_except, send, bind, emit, modify.
  destruct H as [H | (r & H & E)]; rewrite H; cbn.
  - reflexivity.
  - unfold raise_for_status. rewrite E. reflexivity.
Qed.

Lemma post_api_call_rejected (server : request -> http_reply) (url : string)
    (h : headers) (body : json) (s : state) :
  rejects server (mkRequest POST url h (Some body)) ->
  post_api_call server url h body s
  = (Ok None,
     set_EXECUTION_STATUS 9
       (set_events (events s ++ [Sent (mkRequest POST url h (Some body))]) s)).
Proof.
  intros H. unfold post_api_call, try_except, send, bind, emit, modify.
  destruct H as [H | (r & H & E)]; rewrite H; cbn.
  - reflexivity.
  - unfold raise_for_status. rewrite E. reflexivity.
Qed.

Lemma try_except_returns {A} (m : M A) (catches : exn -> bool)
    (handler : exn -> M A) (s s' : state) (a : A) :
  m s = (Ok a, s') -> try_except m catches handler s = (Ok a, s').
Proof. intros H. unfold try_except. now rewrite H. Qed.

Lemma try_except_lets_through {A} (m : M A) (catches : exn -> bool)
    (handler : exn -> M A) (s s' : state) (e : exn) :
  m s = (Raise e, s') -> catches e = false ->
  try_except m catches handler s = (Raise e, s').
Proof. intros H C. unfold try_except. now rewrite H, C. Qed.

Section Queries.

Variable server : request -> http_reply.
Variables (a : endpoints) (token : json).
Variable s : state.
Hypothesis apis_set : apis s = Some a.
Hypothesis headers_set : headers_apis s = Some (api_headers token).

Local Abbreviation asked url := (set_events (events s ++ [Sent (query url token)]) s).

(** What [get_api_call] followed by the decoding gives on an accepted
    query. *)
Lemma get_then_loads_accepted {B} (url : string) (j : json) (k : json -> M B) :
  accepts server (query url token) j ->
  bind (get_api_call server url (api_headers token))
    (fun r => bind (loads_content r) k) s
  = k j (asked url).
Proof.
  intros (r & H & E & C).
  unfold bind at 1, get_api_call, try_except, bind at 1, send, bind at 1,
    emit, modify.
  fold (query url token). rewrite H. cbv beta iota.
  unfold ret at 1, bind at 1, raise_for_status. rewrite E.
  unfold ret at 1, ret at 1. unfold bind at 1, loads_content. rewrite C.
  reflexivity.
Qed.

(** And on a rejected one: status 8, then the [AttributeError] of
    [None.content]. *)
Lemma get_then_loads_rejected {B} (url : string) (k : json -> M B) :
  rejects server (query url token) ->
  bind (get_api_call server url (api_headers token))
    (fun r => bind (loads_content r) k) s
  = (Raise AttributeError, set_EXECUTION_STATUS 8 (asked url)).
Proof.
  intros H.
  unfold bind at 1, get_api_call, try_except, bind at 1, send, bind at 1,
    emit, modify.
  fold (query url token).
  destruct H as [H | (r & H & E)]; rewrite H; cbv beta iota.
  - reflexivity.
  - unfold ret at 1, bind at 1, raise_for_status. rewrite E. reflexivity.
Qed.

Lemma get_organizations_rejected :
  rejects server (query (api_get_organizations a) token) ->
  get_organizations server s
  = (Raise AttributeError,
     set_EXECUTION_STATUS 8 (asked (api_get_organizations a))).
Proof.
  intros H. unfold get_organizations.
  apply try_except_lets_through; [|reflexivity].
  unfold bind at 1, global at 1. rewrite apis_set.
  unfold bind at 1, global at 1. rewrite headers_set.
  now apply get_then_loads_rejected.
Qed.

Lemma get_organizations_accepted (listing : json) :
  accepts server (query (api_get_organizations a) token) listing ->
  get_organizations server s
  = try_except (registration_id server) is_RequestException
      (fun _ => set_status 12)
      (set_response_json_list_organizations (Some listing)
         (asked (api_get_organizations a))).
Proof.
  intros H. unfold get_organizations at 1, try_except at 1.
  unfold bind at 1, global at 1. rewrite apis_set.
  unfold bind at 1, global at 1. rewrite headers_set.
  rewrite (get_then_loads_accepted _ listing) by exact H.
  reflexivity.
Qed.

Lemma registration_id_accepted (listing id : json) :
  accepts server (query (api_get_template_registration_code a) token) listing ->
  first_template listing = Ok id ->
  registration_id server s
  = try_except (template_id server) is_RequestException
      (fun _ => set_status 13)
      (set_template_id_registration_code (Some id)
         (asked (api_get_template_registration_code a))).
Proof.
  intros H F. unfold registration_id at 1, try_except at 1.
  unfold bind at 1, global at 1. rewrite apis_set.
  unfold bind at 1, global at 1. rewrite headers_set.
  rewrite (get_then_loads_accepted _ listing) by exact H.
  unfold first_template in F.
  unfold bind at 1. destruct (getitem listing "data") as [templates|]; [|discriminate].
  cbn [lift]. unfold ret at 1, bind at 1.
  destruct (getitem0 templates) as [first|]; [|discriminate].
  cbn [lift]. unfold ret at 1, bind at 1. rewrite F.
  reflexivity.
Qed.

(** A listing from which no first template can be taken: the exception
    leaves [registration_id] after the query, and nothing else is sent. *)
Lemma registration_id_without_template (listing : json) (e : exn) :
  accepts server (query (api_get_template_registration_code a) token) listing ->
  first_template listing = Raise e ->
  registration_id server s
  = (Raise e, asked (api_get_template_registration_code a)).
Proof.
  intros H F. unfold registration_id.
  assert (N : is_RequestException e = false).
  { unfold first_template in F.
    destruct (getitem listing "data") as [templates|x] eqn:G1.
    - destruct (getitem0 templates) as [first|x] eqn:G2.
      + apply (not_request_is_exception_getitem _ _ _ F).
      + injection F as <-. apply (not_request_is_exception_getitem0 _ _ G2).
    - injection F as <-. apply (not_request_is_exception_getitem _ _ _ G1). }
  apply try_except_lets_through; [|exact N].
  unfold bind at 1, global at 1. rewrite apis_set.
  unfold bind at 1, global at 1. rewrite headers_set.
  rewrite (get_then_loads_accepted _ listing) by exact H.
  unfold first_template in F.
  unfold bind at 1. destruct (getitem listing "data") as [templates|x].
  2:{ injection F as <-. reflexivity. }
  cbn [lift]. unfold ret at 1, bind at 1.
  destruct (getitem0 templates) as [first|x].
  2:{ injection F as <-. reflexivity. }
  cbn [lift]. unfold ret at 1, bind at 1. rewrite F. reflexivity.
Qed.

Lemma template_id_accepted (view id listing : json) (items : list json)
    (dic : list (json * json)) (d : option pydict) :
  accepts server (query (api_get_template_onasport_device a) token) view ->
  device_template_of view = Ok id ->
  response_json_list_organizations s = Some listing ->
  listed_organizations listing = Ok items ->
  filled items (ORGANIZATIONS_DIC s) = (Ok tt, dic) ->
  data s = Some d ->
  template_id server s
  = try_except (add_device server d) is_RequestException
      (fun _ => set_status 14)
      (set_ORGANIZATIONS_DIC dic
         (set_onasport_device_template_id (Some id)
            (asked (api_get_template_onasport_device a)))).
Proof.
  intros H T L I F D. unfold template_id at 1, try_except at 1.
  unfold bind at 1, global at 1. rewrite apis_set.
  unfold bind at 1, global at 1. rewrite headers_set.
  rewrite (get_then_loads_accepted _ view) by exact H.
  unfold device_template_of in T.
  unfold bind at 1. destruct (getitem view "template") as [template|]; [|discriminate].
  cbn [lift]. unfold ret at 1, bind at 1. rewrite T.
  cbn [lift]. unfold ret at 1, bind at 1, modify at 1.
  unfold bind at 1, global at 1.
  cbn [response_json_list_organizations set_onasport_device_template_id
       set_events].
  rewrite L. unfold listed_organizations in I.
  unfold bind at 1. destruct (getitem listing "data") as [organizations|];
    [|discriminate].
  cbn [lift]. unfold ret at 1, bind at 1. rewrite I.
  cbn [lift]. unfold ret at 1, bind at 1.
  rewrite fill_organizations_filled.
  cbn [ORGANIZATIONS_DIC set_onasport_device_template_id set_events].
  rewrite F. cbn [fst snd].
  unfold bind at 1, global at 1.
  cbn [data set_ORGANIZATIONS_DIC set_onasport_device_template_id set_events].
  rewrite D. reflexivity.
Qed.

End Queries.

(** ** Both creation requests *)

Section BothSteps.

Variable server : request -> http_reply.
Variables (a : endpoints) (h : headers) (template device_template : json).
Variable d : pydict.
Variable s : state.
Hypothesis apis_set : apis s = Some a.
Hypothesis headers_set : headers_apis s = Some h.
Hypothesis template_set : template_id_registration_code s = Some template.
Hypothesis device_template_set :
  onasport_device_template_id s = Some device_template.

Local Abbreviation step_a := (registration_code_request a h template d s).

(** Step A succeeded: whatever becomes of Step B, [add_device] returns
    after it, with status 9 when Step B was rejected and with the status
    it started with otherwise. *)
Lemma add_device_after_step_a (r : response) (j id : json) :
  server step_a = Reply r -> error_status r = false ->
  content r = Some j -> getitem j "_id" = Ok id ->
  exists s',
    add_device server (Some d) s = (Ok tt, s') /\
    events s' =
      (events s ++
       [Sent step_a; Slept 1;
        Sent (device_request a h id device_template d s)])%list /\
    ORGANIZATIONS_DIC s' = ORGANIZATIONS_DIC s /\
    stdout s' = stdout s /\
    (rejects server (device_request a h id device_template d s) ->
     EXECUTION_STATUS s' = 9) /\
    ((exists r', server (device_request a h id device_template d s) = Reply r' /\
                 error_status r' = false) ->
     EXECUTION_STATUS s' = EXECUTION_STATUS s).
Proof.
  intros H E C G.
  rewrite (add_device_sends_step_a server a h template d s apis_set
             headers_set template_set).
  unfold try_except at 1, bind at 1, post_api_call at 1, try_except at 1,
    bind at 1, send at 1, bind at 1, emit at 1, modify at 1.
  fold (owner_of d s). fold step_a. rewrite H. cbv beta iota.
  unfold ret at 1, bind at 1, raise_for_status at 1. rewrite E.
  unfold ret at 1, ret at 1.
  unfold bind at 1, loads_content at 1. rewrite C.
  unfold ret at 1, bind at 1. rewrite G. cbn [lift]. unfold ret at 1.
  unfold bind at 1, emit at 1, modify at 1.
  unfold bind at 1, owner_organization at 1, bind at 1, dict_get at 1,
    ret at 1, bind at 1, get_state at 1, ret at 1.
  unfold bind at 1, dict_get at 1, ret at 1.
  unfold bind at 1, dict_get at 1, ret at 1.
  unfold bind at 1, dict_get at 1, ret at 1.
  unfold bind at 1, global at 1.
  cbn [onasport_device_template_id set_events apis headers_apis
       ORGANIZATIONS_DIC events].
  rewrite device_template_set.
  unfold bind at 1, global at 1.
  cbn [onasport_device_template_id set_events apis headers_apis
       ORGANIZATIONS_DIC events].
  rewrite apis_set.
  unfold bind at 1, global at 1.
  cbn [onasport_device_template_id set_events apis headers_apis
       ORGANIZATIONS_DIC events].
  rewrite headers_set.
  unfold bind at 1, post_api_call at 1, try_except at 1,
    bind at 1, send at 1, bind at 1, emit at 1, modify at 1.
  cbn [onasport_device_template_id set_events apis headers_apis
       ORGANIZATIONS_DIC events].
  fold (field d "SerialNumber") (field d "Description") (field d "Version")
       (field d "Organization").
  fold (owner_of d s).
  fold (device_request a h id device_template d s).
  rewrite <- !app_assoc. cbn [app].
  destruct (server (device_request a h id device_template d s))
    as [|r'] eqn:B.
  - eexists. split; [reflexivity|].
    split; [reflexivity|]. split; [reflexivity|]. split; [reflexivity|].
    split; [reflexivity|].
    intros (r' & R & _). discriminate R.
  - unfold ret at 1, bind at 1, raise_for_status at 1.
    destruct (error_status r') eqn:E'.
    + eexists. split; [reflexivity|].
      split; [reflexivity|]. split; [reflexivity|]. split; [reflexivity|].
      split; [reflexivity|].
      intros (r'' & R & X). injection R as <-. congruence.
    + eexists. split; [reflexivity|].
      split; [reflexivity|]. split; [reflexivity|]. split; [reflexivity|].
      split; [|reflexivity].
      intros R. unfold rejects in R. rewrite B in R.
      destruct R as [R | (r'' & R & X)]; [discriminate R|].
      injection R as <-. congruence.
Qed.

End BothSteps.

(** X11.  Step A succeeded and the platform rejects Step B: [add_device]
    returns normally with status 9, the code of [post_api_call]; its
    events are Step A, the delay and Step B, and nothing is sent after
    Step B, so the registration code stays created. *)
Theorem step_b_rejected (server : request -> http_reply)
    (a : endpoints) (h : headers) (template device_template : json)
    (d : pydict) (s : state) (r : response) (j id : json) :
  apis s = Some a ->
  headers_apis s = Some h ->
  template_id_registration_code s = Some template ->
  onasport_device_template_id s = Some device_template ->
  server (registration_code_request a h template d s) = Reply r ->
  error_status r = false ->
  content r = Some j ->
  getitem j "_id" = Ok id ->
  rejects server (device_request a h id device_template d s) ->
  exists s',
    add_device server (Some d) s = (Ok tt, s') /\
    EXECUTION_STATUS s' = 9 /\
    events s' =
      (events s ++
       [Sent (registration_code_request a h template d s); Slept 1;
        Sent (device_request a h id device_template d s)])%list.
Proof.
  intros Ha Hh Ht Hd H E C G R.
  destruct (add_device_after_step_a server a h template device_template d s
              Ha Hh Ht Hd r j id H E C G) as (s' & Eq & Ev & _ & _ & St & _).
  exists s'. split; [exact Eq|]. split; [exact (St R) | exact Ev].
Qed.

Lemma step_b_rejected_witness :
  let s := logged_in_without_organizations in
  let d := Sample.args "1234567890" (Some "out") in
  let server rq :=
    if String.eqb (rq_url rq) (api_post_onasport_device (make_endpoints URL_PROD))
    then Reply (mkResponse 500 None)
    else Reply (mkResponse 200 (Some (JObj [("_id", JStr "code-1")]))) in
  exists s',
    add_device server (Some d) s = (Ok tt, s') /\
    EXECUTION_STATUS s' = 9 /\
    map outline (events s')
    = [api_post_registration_code (make_endpoints URL_PROD); "sleep";
       api_post_onasport_device (make_endpoints URL_PROD)].
Proof.
  intros s d server.
  destruct (step_b_rejected server (make_endpoints URL_PROD)
              (mkHeaders "application/json" (Some (JStr "jwt")))
              (JStr "tpl-code") (JStr "tpl-device") d s
              (mkResponse 200 (Some (JObj [("_id", JStr "code-1")])))
              (JObj [("_id", JStr "code-1")]) (JStr "code-1")
              eq_refl eq_refl eq_refl eq_refl eq_refl eq_refl eq_refl eq_refl)
    as (s' & Eq & St & Ev).
  - right. exists (mkResponse 500 None). split; reflexivity.
  - exists s'. split; [exact Eq|]. split; [exact St|]. rewrite Ev. reflexivity.
Defined.

(** ** From the login to the device *)

Section Upload.

Variable server : request -> http_reply.
Variables username password : argval.
Variable base : string.
Variable token : json.
Variable s : state.

Local Abbreviation e := (make_endpoints base).
Local Abbreviation login := (login_request username password base).

(** The login is accepted and its body holds the token: [signin] goes on
    with [get_organizations], the token in [headers_apis]. *)
Lemma signin_accepted (j : json) :
  accepts server login j -> token_of j = Ok token ->
  signin server (apis_defined username password base s)
  = try_except (get_organizations server) is_RequestException
      (fun _ => set_status 11) (logged_in username password base token s).
Proof.
  intros (r & H & E & C) T.
  unfold signin at 1, try_except at 1.
  unfold bind at 1, global at 1. cbn [apis apis_defined set_apis].
  unfold bind at 1, global at 1. cbn [payload apis_defined set_apis set_payload].
  unfold bind at 1, global at 1.
  cbn [headers_login apis_defined set_apis set_payload set_headers_login].
  fold login. fold (apis_defined username password base s).
  unfold bind at 1, send at 1, bind at 1, emit at 1, modify at 1.
  rewrite H. cbv beta iota.
  unfold ret at 1, bind at 1, raise_for_status at 1. rewrite E.
  unfold ret at 1, bind at 1, response_json at 1. rewrite C.
  unfold ret at 1, bind at 1. unfold token_of in T.
  destruct (getitem j "accessJwt") as [access|]; [|discriminate].
  cbn [lift]. unfold ret at 1, bind at 1. rewrite T.
  reflexivity.
Qed.

(** The organization query is rejected right after the login. *)
Lemma signin_then_organizations_rejected (j : json) :
  accepts server login j -> token_of j = Ok token ->
  rejects server (query (api_get_organizations e) token) ->
  signin server (apis_defined username password base s)
  = (Raise AttributeError,
     set_EXECUTION_STATUS 8
       (set_events
          (events s ++ [Sent login] ++
           [Sent (query (api_get_organizations e) token)])
          (logged_in username password base token s))).
Proof.
  intros A T R. rewrite (signin_accepted j A T).
  rewrite (try_except_lets_through _ _ _ _ _ AttributeError
             (get_organizations_rejected server e token
                (logged_in username password base token s)
                eq_refl eq_refl R) eq_refl).
  cbn [events logged_in set_headers_apis set_events].
  now rewrite <- app_assoc.
Qed.

End Upload.

(** X12.  The login succeeds and the platform rejects the organization
    query, or does not answer it: [get_api_call], in whatever state it is
    called, records 8 and returns [None]; the [AttributeError] of reading
    the missing response travels up to [define_apis], which prints it and
    records 10.  The login and the query are the only requests: no
    template is asked for and nothing is created. *)
Theorem organizations_query_rejected (server : request -> http_reply)
    (username password environment : argval) (base : string)
    (token j : json) (s : state) :
  base_url_for environment = Some base ->
  accepts server (login_request username password base) j ->
  token_of j = Ok token ->
  rejects server (query (api_get_organizations (make_endpoints base)) token) ->
  (forall s1,
     get_api_call server (api_get_organizations (make_endpoints base))
       (api_headers token) s1
     = (Ok None,
        set_EXECUTION_STATUS 8
          (set_events
             (events s1 ++
              [Sent (query (api_get_organizations (make_endpoints base)) token)])
             s1))) /\
  exists s',
    define_apis server username password environment s = (Ok tt, s') /\
    EXECUTION_STATUS s' = 10 /\
    events s' =
      (events s ++
       [Sent (login_request username password base);
        Sent (query (api_get_organizations (make_endpoints base)) token)])%list /\
    stdout s' = (stdout s ++ [Message AttributeError])%list.
Proof.
  intros B A T R. split.
  { intros s1. now apply get_api_call_rejected. }
  rewrite (define_apis_enters_signin server username password base s
             environment B).
  unfold try_except.
  rewrite (signin_then_organizations_rejected server username password base
             token s j A T R).
  cbn. eexists. split; [reflexivity|]. cbn. auto.
Qed.

Lemma organizations_query_rejected_witness :
  let server rq :=
    if String.eqb (rq_url rq) (api_login (make_endpoints URL_PROD))
    then Reply (mkResponse 200
                  (Some (JObj [("accessJwt", JObj [("token", JStr "jwt")])])))
    else NoReply in
  exists s',
    define_apis server (AStr "user") (AStr "secret") (AStr "production")
      (initial_state Sample.disk_with_out) = (Ok tt, s') /\
    EXECUTION_STATUS s' = 10 /\
    map outline (events s')
    = [api_login (make_endpoints URL_PROD);
       api_get_organizations (make_endpoints URL_PROD)].
Proof.
  intros server.
  destruct (organizations_query_rejected server (AStr "user") (AStr "secret")
              (AStr "production") URL_PROD (JStr "jwt")
              (JObj [("accessJwt", JObj [("token", JStr "jwt")])])
              (initial_state Sample.disk_with_out) eq_refl)
    as (_ & s' & Eq & St & Ev & _).
  - eexists. repeat split; reflexivity.
  - reflexivity.
  - left. reflexivity.
  - exists s'. split; [exact Eq|]. split; [exact St|]. rewrite Ev. reflexivity.
Defined.

Section CompleteUpload.

Variable server : request -> http_reply.
Variables username password : argval.
Variable base : string.
Variable d : pydict.
Variable s : state.
Variables token listing code_listing view created : json.
Variables code_template device_template registration_code_id : json.
Variable items : list json.
Variable dic : list (json * json).

Local Abbreviation e := (make_endpoints base).
Local Abbreviation owner :=
  (dic_get dic (json_of_argval (field d "Organization"))).
Local Abbreviation step_a :=
  (code_request base token owner (json_of_argval (field d "RegistrationCode"))
     code_template).
Local Abbreviation step_b :=
  (device_creation_request base token owner registration_code_id
     (json_of_argval (field d "SerialNumber"))
     (json_of_argval (field d "Description"))
     (json_of_argval (field d "Version")) device_template).

Hypothesis data_set : data s = Some (Some d).
Hypothesis login_accepted :
  exists j, accepts server (login_request username password base) j /\
            token_of j = Ok token.
Hypothesis organizations_listed :
  accepts server (query (api_get_organizations e) token) listing.
Hypothesis organizations_read : listed_organizations listing = Ok items.
Hypothesis organizations_filled :
  filled items (ORGANIZATIONS_DIC s) = (Ok tt, dic).
Hypothesis code_templates_listed :
  accepts server (query (api_get_template_registration_code e) token)
    code_listing.
Hypothesis code_template_read : first_template code_listing = Ok code_template.
Hypothesis device_template_shown :
  accepts server (query (api_get_template_onasport_device e) token) view.
Hypothesis device_template_read : device_template_of view = Ok device_template.
Hypothesis code_created :
  accepts server step_a created /\ getitem created "_id" = Ok registration_code_id.

(** Everything up to Step A succeeds: [signin] sends the seven steps in
    order and returns; the status is 9 when Step B is rejected and
    unchanged otherwise. *)
Lemma signin_complete :
  exists s',
    signin server (apis_defined username password base s) = (Ok tt, s') /\
    events s' =
      (events s ++
       [Sent (login_request username password base);
        Sent (query (api_get_organizations e) token);
        Sent (query (api_get_template_registration_code e) token);
        Sent (query (api_get_template_onasport_device e) token);
        Sent step_a; Slept 1; Sent step_b])%list /\
    stdout s' = stdout s /\
    disk s' = disk s /\
    (rejects server step_b -> EXECUTION_STATUS s' = 9) /\
    ((exists r, server step_b = Reply r /\ error_status r = false) ->
     EXECUTION_STATUS s' = EXECUTION_STATUS s).
Proof.
  destruct login_accepted as (j & LA & LT).
  destruct code_created as ((r & CH & CE & CC) & CG).
  pose (s1 := logged_in username password base token s).
  pose (s2 := set_response_json_list_organizations (Some listing)
                (set_events
                   (events s1 ++ [Sent (query (api_get_organizations e) token)])
                   s1)).
  pose (s3 := set_template_id_registration_code (Some code_template)
                (set_events
                   (events s2 ++
                    [Sent (query (api_get_template_registration_code e) token)])
                   s2)).
  pose (s4 := set_ORGANIZATIONS_DIC dic
                (set_onasport_device_template_id (Some device_template)
                   (set_events
                      (events s3 ++
                       [Sent (query (api_get_template_onasport_device e) token)])
                      s3))).
  destruct (add_device_after_step_a server e (api_headers token) code_template
              device_template d s4 eq_refl eq_refl eq_refl eq_refl
              r created registration_code_id CH CE CC CG)
    as (s' & Eq & Ev & _ & So & St9 & St0).
  assert (T3 : template_id server s3 = (Ok tt, s')).
  { rewrite (template_id_accepted server e token s3 eq_refl eq_refl view
               device_template listing items dic (Some d)
               device_template_shown device_template_read eq_refl
               organizations_read organizations_filled data_set).
    apply try_except_returns. exact Eq. }
  assert (T2 : registration_id server s2 = (Ok tt, s')).
  { rewrite (registration_id_accepted server e token s2 eq_refl eq_refl
               code_listing code_template code_templates_listed
               code_template_read).
    apply try_except_returns. exact T3. }
  assert (T1 : get_organizations server s1 = (Ok tt, s')).
  { rewrite (get_organizations_accepted server e token s1 eq_refl eq_refl
               listing organizations_listed).
    apply try_except_returns. exact T2. }
  exists s'. split.
  { rewrite (signin_accepted server username password base token s j LA LT).
    apply try_except_returns. exact T1. }
  split.
  { rewrite Ev. subst s4 s3 s2 s1.
    cbn [events set_ORGANIZATIONS_DIC set_onasport_device_template_id
         set_events set_template_id_registration_code
         set_response_json_list_organizations logged_in set_headers_apis
         apis_defined set_apis set_payload set_headers_login].
    rewrite <- !app_assoc. reflexivity. }
  split; [rewrite So; reflexivity|].
  split.
  { destruct (quiet_add_device server (Some d) s4) as [(Dk & _) _].
    rewrite Eq in Dk. cbn [snd] in Dk. rewrite Dk. reflexivity. }
  split; [exact St9 | exact St0].
Qed.

End CompleteUpload.

(** X13.  A run in which the platform accepts the login, answers the
    three queries with bodies the script can read, and accepts both
    creation requests: the events are the seven steps in order, each
    query and creation request carrying the bearer token of the login,
    Step A naming the first registration-code template and the owner the
    organization listing gives the organization, Step B naming the
    identifier Step A returned, the serial number, the description, the
    version and the device template.  Where the traceability file can be
    opened the final status is 0 and the file records the serial number
    with status 0. *)
Theorem complete_upload (ospath : os_path) (today : date)
    (server : request -> http_reply) (fs : filesystem)
    (env user password sn org rc description version : string)
    (output : option string) (base : string)
    (token listing code_listing view created : json)
    (code_template device_template registration_code_id : json)
    (items : list json) (dic : list (json * json)) :
  well_formed_serial sn ->
  base_url_for (AStr env) = Some base ->
  (exists j, accepts server (login_request (AStr user) (AStr password) base) j /\
             token_of j = Ok token) ->
  accepts server (query (api_get_organizations (make_endpoints base)) token)
    listing ->
  listed_organizations listing = Ok items ->
  filled items [] = (Ok tt, dic) ->
  accepts server
    (query (api_get_template_registration_code (make_endpoints base)) token)
    code_listing ->
  first_template code_listing = Ok code_template ->
  accepts server
    (query (api_get_template_onasport_device (make_endpoints base)) token) view ->
  device_template_of view = Ok device_template ->
  accepts server
    (code_request base token (dic_get dic (JStr org)) (JStr rc) code_template)
    created ->
  getitem created "_id" = Ok registration_code_id ->
  (exists r,
     server (device_creation_request base token (dic_get dic (JStr org))
               registration_code_id (JStr sn) (JStr description)
               (JStr version) device_template) = Reply r /\
     error_status r = false) ->
  let o := program ospath today
             (Flags env user password sn org rc description version output)
             server fs in
  events (final o) =
    [Sent (login_request (AStr user) (AStr password) base);
     Sent (query (api_get_organizations (make_endpoints base)) token);
     Sent (query (api_get_template_registration_code (make_endpoints base)) token);
     Sent (query (api_get_template_onasport_device (make_endpoints base)) token);
     Sent (code_request base token (dic_get dic (JStr org)) (JStr rc)
             code_template);
     Slept 1;
     Sent (device_creation_request base token (dic_get dic (JStr org))
             registration_code_id (JStr sn) (JStr description)
             (JStr version) device_template)] /\
  forall dir,
    output = Some dir ->
    can_open ospath fs (traceability_path ospath today sn dir) = true ->
    EXECUTION_STATUS (final o) = 0 /\
    file_content (disk (final o)) (traceability_path ospath today sn dir)
    = Some (JsonText.dump_content (AStr sn) 0).
Proof.
  intros W B L O1 O2 O3 C1 C2 V1 V2 A1 A2 D o.
  pose proof (check_serial_number_well_formed sn (initial_state fs) W) as E.
  destruct (main_accepted ospath today server fs env user password sn org rc
              description version output _ E) as (s3 & Hd & _ & Hm).
  cbn [initial_state EXECUTION_STATUS Z.eqb] in Hd.
  match type of Hd with
  | define_apis _ _ _ _ ?s0 = _ =>
      destruct (signin_complete server (AStr user) (AStr password) base
                  (namespace env user password sn org rc description version
                     output)
                  s0 token listing code_listing view created code_template
                  device_template registration_code_id items dic
                  eq_refl L O1 O2 O3 C1 C2 V1 V2 (conj A1 A2))
        as (s' & Sg & Ev & _ & Dk & _ & St);
      rewrite (define_apis_enters_signin server (AStr user) (AStr password)
                 base s0 (AStr env) B) in Hd;
      rewrite (try_except_returns _ _ _ _ _ _ Sg) in Hd
  end.
  injection Hd as <-. specialize (St D).
  cbn [EXECUTION_STATUS before_upload set_output_directory set_data
       initial_state] in St.
  cbn [disk before_upload set_output_directory set_data initial_state] in Dk.
  cbn [events before_upload set_output_directory set_data initial_state app]
    in Ev.
  subst o. unfold program. rewrite Hm, manage_data_json_dict.
  change (filename_of today _) with (sn ++ "_" ++ DATE today ++ ".json").
  change (serial_of _) with (AStr sn).
  destruct output as [dir|]; cbv zeta.
  - fold (traceability_path ospath today sn dir). rewrite Dk.
    destruct (can_open ospath fs (traceability_path ospath today sn dir)) eqn:C.
    + split; [exact Ev|]. intros dir' [= <-] _.
      cbn [final EXECUTION_STATUS set_stdout set_disk disk put_file file_content].
      rewrite String.eqb_refl, St. auto.
    + split; [exact Ev|]. intros dir' [= <-] C'. congruence.
  - split; [exact Ev|]. intros dir' [=].
Qed.

Lemma complete_upload_witness :
  let o := program PosixPath.posix Sample.june_first
             (Sample.flags "1234567890" (Some "out"))
             (platform acme code_created) Sample.disk_with_out in
  map outline (events (final o)) = steps (make_endpoints URL_PROD) /\
  EXECUTION_STATUS (final o) = 0 /\
  file_content (disk (final o)) "out/1234567890_240601.json"
  = Some (JsonText.dump_content (AStr "1234567890") 0).
Proof.
  assert (W : well_formed_serial "1234567890").
  { split; [reflexivity|]. split; [reflexivity|].
    unfold MIN_SERIAL_NUMBER_ONASPORT, MAX_SERIAL_NUMBER_ONASPORT.
    cbn. lia. }
  assert (Ok200 : forall rq body,
             platform acme code_created rq
             = Reply (mkResponse 200 (Some body)) ->
             accepts (platform acme code_created) rq body).
  { intros rq body H. eexists. repeat split; eassumption || reflexivity. }
  destruct (complete_upload PosixPath.posix Sample.june_first
              (platform acme code_created) Sample.disk_with_out
              "production" "user" "secret" "1234567890" "Acme" "RC-1"
              "ONAS0000" "2.0.0" (Some "out") URL_PROD (JStr "jwt")
              (JObj [("data", acme)])
              (JObj [("data", JArr [JObj [("id", JStr "tpl-code")]])])
              (JObj [("template", JObj [("id", JStr "tpl-device")])])
              (JObj [("_id", JStr "code-1")])
              (JStr "tpl-code") (JStr "tpl-device") (JStr "code-1")
              [JObj [("_name", JStr "Acme"); ("_id", JStr "org-1")]]
              [(JStr "Acme", JStr "org-1")] W eq_refl)
    as (Ev & F).
  - exists (JObj [("accessJwt", JObj [("token", JStr "jwt")])]).
    split; [apply Ok200|]; reflexivity.
  - apply Ok200. reflexivity.
  - reflexivity.
  - reflexivity.
  - apply Ok200. reflexivity.
  - reflexivity.
  - apply Ok200. reflexivity.
  - reflexivity.
  - apply Ok200. reflexivity.
  - reflexivity.
  - eexists. split; reflexivity.
  - destruct (F "out" eq_refl eq_refl) as (St & Fc).
    cbv zeta. unfold Sample.flags. rewrite Ev.
    split; [reflexivity|]. split; [exact St | exact Fc].
Defined.

(** ** Edges *)

(** X14.  The registration-code template listing is accepted but lists
    no template: taking the first one raises [IndexError], which is not
    an error of [requests]; it leaves [registration_id] with the status
    untouched, and the query is the last request: the device template is
    not asked for and nothing is created. *)
Theorem empty_template_listing (server : request -> http_reply)
    (a : endpoints) (token listing : json) (s : state) :
  apis s = Some a ->
  headers_apis s = Some (api_headers token) ->
  accepts server (query (api_get_template_registration_code a) token) listing ->
  getitem listing "data" = Ok (JArr []) ->
  exists s',
    registration_id server s = (Raise IndexError, s') /\
    EXECUTION_STATUS s' = EXECUTION_STATUS s /\
    template_id_registration_code s' = template_id_registration_code s /\
    events s' =
      (events s ++
       [Sent (query (api_get_template_registration_code a) token)])%list.
Proof.
  intros Ha Hh A G.
  assert (F : first_template listing = Raise IndexError).
  { unfold first_template. rewrite G. reflexivity. }
  rewrite (registration_id_without_template server a token s Ha Hh listing
             IndexError A F).
  eexists. split; [reflexivity|]. cbn. auto.
Qed.

Lemma empty_template_listing_witness :
  let s := logged_in (AStr "user") (AStr "secret") URL_PROD (JStr "jwt")
             (initial_state Sample.disk_with_out) in
  exists s',
    registration_id (Sample.answering (JObj [("data", JArr [])])) s
    = (Raise IndexError, s') /\
    EXECUTION_STATUS s' = 0.
Proof.
  intros s.
  destruct (empty_template_listing (Sample.answering (JObj [("data", JArr [])]))
              (make_endpoints URL_PROD) (JStr "jwt") (JObj [("data", JArr [])]) s
              eq_refl eq_refl) as (s' & Eq & St & _).
  - eexists. repeat split; reflexivity.
  - reflexivity.
  - exists s'. split; [exact Eq | exact St].
Defined.

(** X15.  With POSIX paths, a serial number that starts with a slash is
    rejected (status 5) but still names the file: [os.path.join] drops the
    output directory in front of an absolute name, so the traceability
    file is written at the serial number's own path, outside the output
    directory, when that path can be opened. *)
Theorem absolute_serial_leaves_output_directory (today : date)
    (server : request -> http_reply) (fs : filesystem)
    (env user password rest org rc description version dir : string) :
  let sn := String "/" rest in
  let path := sn ++ "_" ++ DATE today ++ ".json" in
  let o := program PosixPath.posix today
             (Flags env user password sn org rc description version (Some dir))
             server fs in
  traceability_path PosixPath.posix today sn dir = path /\
  events (final o) = [] /\
  (can_open PosixPath.posix fs path = true ->
   EXECUTION_STATUS (final o) = 5 /\
   file_content (disk (final o)) path
   = Some (JsonText.dump_content (AStr sn) 5)).
Proof.
  intros sn path o.
  assert (P : traceability_path PosixPath.posix today sn dir = path)
    by reflexivity.
  assert (E : check_serial_number sn (initial_state fs)
              = (Ok sn, set_EXECUTION_STATUS 5 (initial_state fs)))
    by reflexivity.
  destruct (main_with_output PosixPath.posix today server fs env user password
              sn org rc description version dir _ E) as (s3 & D & _ & Hm).
  cbn [EXECUTION_STATUS set_EXECUTION_STATUS Z.eqb] in D. subst s3.
  rewrite P in Hm. cbn [disk set_EXECUTION_STATUS initial_state] in Hm.
  split; [exact P|]. subst o. unfold program. rewrite Hm.
  destruct (can_open PosixPath.posix fs path).
  - split; [reflexivity|]. intros _. cbn. rewrite String.eqb_refl. auto.
  - split; [reflexivity|]. discriminate.
Qed.

Lemma absolute_serial_leaves_output_directory_witness :
  let fs := {| directory_exists := fun p => String.eqb p "/tmp";
               write_permitted := fun _ => true;
               file_content := fun _ => None |} in
  let o := program PosixPath.posix Sample.june_first
             (Sample.flags "/tmp/x" (Some "out")) Sample.unreachable fs in
  file_content (disk (final o)) "/tmp/x_240601.json"
  = Some (JsonText.dump_content (AStr "/tmp/x") 5).
Proof.
  intros fs o.
  apply (proj2 (proj2 (absolute_serial_leaves_output_directory
                         Sample.june_first Sample.unreachable fs "production"
                         "user" "secret" "tmp/x" "Acme" "RC-1" "ONAS0000"
                         "2.0.0" "out"))).
  reflexivity.
Defined.

(** X16.  The upload never touches the file system: whatever the platform
    answers, [define_apis] returns, and the disk, [data] and the local
    [output_directory] of [main] are what they were. *)
Theorem upload_keeps_disk (server : request -> http_reply)
    (username password environment : argval) (s : state) :
  exists s',
    define_apis server username password environment s = (Ok tt, s') /\
    disk s' = disk s /\
    data s' = data s /\
    output_directory s' = output_directory s.
Proof.
  destruct (define_apis_returns server username password environment s)
    as (s' & E & D & O & Da).
  exists s'. split; [exact E|]. split; [exact D|]. split; [exact Da | exact O].
Qed.

(** ** What the upload prints *)

Section Keeps.

Context {X A B : Type}.
Variable p : state -> X.

Lemma keeps_ret (a : A) : keeps p (ret a).
Proof. intros s. reflexivity. Qed.

Lemma keeps_raise (x : exn) : keeps p (@raise A x).
Proof. intros s. reflexivity. Qed.

Lemma keeps_lift (r : result A) : keeps p (lift r).
Proof. destruct r; [apply keeps_ret | apply keeps_raise]. Qed.

Lemma keeps_global (name : state -> option A) : keeps p (global name).
Proof. intros s. unfold global. destruct (name s); reflexivity. Qed.

Lemma keeps_bind (m : M A) (k : A -> M B) :
  keeps p m -> (forall a, keeps p (k a)) -> keeps p (bind m k).
Proof.
  intros Hm Hk s. unfold bind. specialize (Hm s).
  destruct (m s) as [[a|x] s1]; cbn [snd] in *; [|exact Hm].
  rewrite (Hk a s1). exact Hm.
Qed.

Lemma keeps_try_except (body : M A) (catches : exn -> bool)
    (handler : exn -> M A) :
  keeps p body -> (forall x, keeps p (handler x)) ->
  keeps p (try_except body catches handler).
Proof.
  intros Hb Hh s. unfold try_except. specialize (Hb s).
  destruct (body s) as [[a|x] s1]; cbn [snd] in *; [exact Hb|].
  destruct (catches x); [|exact Hb]. rewrite (Hh x s1). exact Hb.
Qed.

End Keeps.

Lemma keeps_modify {X} (p : state -> X) (f : state -> state) :
  (forall s, p (f s) = p s) -> keeps p (modify f).
Proof. intros H s. apply H. Qed.

Lemma keeps_get_state {X} (p : state -> X) : keeps p get_state.
Proof. intros s. reflexivity. Qed.

Lemma keeps_dict_get {X} (p : state -> X) (d : option pydict) (k : string)
    (v : argval) :
  keeps p (dict_get d k v).
Proof. destruct d; [apply keeps_ret | apply keeps_raise]. Qed.

(** One step through a computation that only assigns the status, adds
    events and binds globals. *)
Ltac keeps_step :=
  lazymatch goal with
  | |- keeps _ (bind _ _) => apply keeps_bind; [|intros ?]
  | |- keeps _ (try_except _ _ _) => apply keeps_try_except; [|intros ?]
  | |- keeps _ (ret _) => apply keeps_ret
  | |- keeps _ (raise _) => apply keeps_raise
  | |- keeps _ (lift _) => apply keeps_lift
  | |- keeps _ (global _) => apply keeps_global
  | |- keeps _ get_state => apply keeps_get_state
  | |- keeps _ (dict_get _ _ _) => apply keeps_dict_get
  | |- keeps _ (modify _) => apply keeps_modify; reflexivity
  | |- keeps _ (set_status _) => apply keeps_modify; reflexivity
  | |- keeps _ (emit _) => apply keeps_modify; reflexivity
  | |- keeps _ (if _ then _ else _) =>
      match goal with |- context [if ?b then _ else _] => destruct b end
  | |- keeps _ (match ?r with Some _ => _ | None => _ end) => destruct r
  | |- keeps _ (match ?r with NoReply => _ | Reply _ => _ end) => destruct r
  end.

Section Silent.

Variable server : request -> http_reply.

Lemma add_device_prints_nothing (d : option pydict) :
  keeps stdout (add_device server d).
Proof.
  unfold add_device, owner_organization, post_api_call, loads_content, send,
    raise_for_status.
  repeat keeps_step.
Qed.

Lemma fill_organizations_prints_nothing (l : list json) :
  keeps stdout (fill_organizations l).
Proof.
  induction l as [|o r IH]; cbn [fill_organizations];
    repeat first [exact IH | keeps_step].
Qed.

Lemma template_id_prints_nothing : keeps stdout (template_id server).
Proof.
  unfold template_id, get_api_call, loads_content, send, raise_for_status.
  repeat first [apply add_device_prints_nothing
               | apply fill_organizations_prints_nothing | keeps_step].
Qed.

Lemma registration_id_prints_nothing : keeps stdout (registration_id server).
Proof.
  unfold registration_id, get_api_call, loads_content, send, raise_for_status.
  repeat first [apply template_id_prints_nothing | keeps_step].
Qed.

Lemma get_organizations_prints_nothing :
  keeps stdout (get_organizations server).
Proof.
  unfold get_organizations, get_api_call, loads_content, send, raise_for_status.
  repeat first [apply registration_id_prints_nothing | keeps_step].
Qed.

Lemma signin_prints_nothing : keeps stdout (signin server).
Proof.
  unfold signin, response_json, send, raise_for_status.
  repeat first [apply get_organizations_prints_nothing | keeps_step].
Qed.

(** [define_apis], started with status 0, prints the exception it
    catches and nothing else, and records 10 exactly when it prints. *)
Lemma define_apis_prints (username password environment : argval)
    (s s' : state) :
  EXECUTION_STATUS s = 0 ->
  define_apis server username password environment s = (Ok tt, s') ->
  (stdout s' = stdout s /\
   (EXECUTION_STATUS s' = 0 \/ EXECUTION_STATUS s' = 9 \/
    EXECUTION_STATUS s' = 11)) \/
  (exists x, stdout s' = (stdout s ++ [Message x])%list /\
             EXECUTION_STATUS s' = 10).
Proof.
  intros E. destruct (base_url_for environment) as [base|] eqn:B.
  - rewrite (define_apis_enters_signin server username password base s
               environment B).
    unfold try_except.
    pose proof (signin_prints_nothing (apis_defined username password base s))
      as K.
    pose proof (signin_status server (apis_defined username password base s) E)
      as St.
    destruct (signin server (apis_defined username password base s))
      as [[[]|x] s1]; cbn [snd fst] in *.
    + intros [= <-]. left. split; [exact K | exact St].
    + destruct St as [Ex _]. rewrite Ex.
      cbn. intros [= <-]. right. exists x. cbn. rewrite K. auto.
  - rewrite (define_apis_unknown_environment server) by exact B.
    intros [= <-]. right. exists UnboundLocalError. auto.
Qed.

End Silent.

(** X17.  What a run writes on standard output.  When [argparse] stops
    the process, it is the help text for [-h] and nothing otherwise (the
    message of a usage error goes to standard error).  When [main]
    returns, the last line is the value it returns, the path of the
    traceability file or None, and it is the only line unless
    [define_apis] caught an exception: then the text of that exception is
    printed first.  A run that ends with status 10 has printed such a
    text, and a run that printed one ends with status 10, 3 or 4. *)
Theorem what_a_run_prints (ospath : os_path) (today : date)
    (argv : command_line) (server : request -> http_reply)
    (fs : filesystem) :
  let o := program ospath today argv server fs in
  match fst (main ospath today argv server (initial_state fs)) with
  | Ok path =>
      (stdout (final o) = [Text (str_of_argval path)] /\
       EXECUTION_STATUS (final o) <> 10) \/
      (exists x,
         stdout (final o) = [Message x; Text (str_of_argval path)] /\
         (EXECUTION_STATUS (final o) = 10 \/ EXECUTION_STATUS (final o) = 3 \/
          EXECUTION_STATUS (final o) = 4))
  | Raise _ =>
      match argv with
      | ArgparseHelp text => stdout (final o) = [Text text]
      | _ => stdout (final o) = []
      end
  end.
Proof.
  intros o. subst o. unfold program.
  destruct argv as [c | text | env user password sn org rc description version output].
  - reflexivity.
  - reflexivity.
  - assert (W : forall s3 : state,
              let r := manage_data_json ospath today
                         (Some (namespace env user password sn org rc
                                  description version output))
                         (match output with
                          | Some o => AStr o
                          | None => ANone
                          end) s3 in
              exists path s4,
                r = (Ok path, s4) /\ stdout s4 = stdout s3 /\
                (EXECUTION_STATUS s4 = EXECUTION_STATUS s3 \/
                 EXECUTION_STATUS s4 = 3 \/ EXECUTION_STATUS s4 = 4)).
    { intros s3 r. subst r. rewrite manage_data_json_dict.
      destruct output as [dir|]; [|do 2 eexists; split; [reflexivity|]; cbn; auto].
      cbv zeta. destruct (can_open ospath (disk s3) _);
        do 2 eexists; (split; [reflexivity|]); cbn; auto. }
    destruct (check_serial_number_cases sn (initial_state fs)) as [E | [E | E]].
    + destruct (main_accepted ospath today server fs env user password sn org
                  rc description version output _ E) as (s3 & D & _ & Hm).
      cbn [initial_state EXECUTION_STATUS Z.eqb] in D.
      apply (define_apis_prints server) in D; [|reflexivity].
      destruct (W s3) as (path & s4 & R & So & St). rewrite Hm, R.
      cbn [fst final stdout set_stdout EXECUTION_STATUS]. rewrite So.
      destruct D as [[K S3] | (x & K & S3)]; rewrite K; cbn.
      * left. split; [reflexivity|]. intuition congruence.
      * right. exists x. split; [reflexivity|]. intuition congruence.
    + destruct (main_accepted ospath today server fs env user password sn org
                  rc description version output _ E) as (s3 & D & _ & Hm).
      cbn [EXECUTION_STATUS set_EXECUTION_STATUS Z.eqb] in D. subst s3.
      match type of Hm with
      | _ = manage_data_json _ _ _ _ ?s3 =>
          destruct (W s3) as (path & s4 & R & So & St)
      end.
      rewrite Hm, R.
      cbn [fst final stdout set_stdout EXECUTION_STATUS]. rewrite So.
      cbn in St |- *. left. split; [reflexivity|]. intuition congruence.
    + assert (M : main ospath today
                    (Flags env user password sn org rc description version
                       output) server (initial_state fs)
                  = (Raise (SystemExit 2), initial_state fs)).
      { unfold main, parse_arguments, parse_args, try_except, bind.
        rewrite E. reflexivity. }
      rewrite M. reflexivity.
Qed.

(** ** The bearer token *)

Section SendsWith.

Context {A B : Type}.
Variable h : headers.

Lemma sends_with_silent (m : M A) :
  keeps headers_apis m -> keeps events m -> sends_with h m.
Proof.
  intros Kh Ke s H. rewrite Kh. split; [exact H|].
  exists []. rewrite Ke, app_nil_r. split; [reflexivity | constructor].
Qed.

Lemma sends_with_bind (m : M A) (k : A -> M B) :
  sends_with h m -> (forall a, sends_with h (k a)) -> sends_with h (bind m k).
Proof.
  intros Hm Hk s H. unfold bind. specialize (Hm s H).
  destruct (m s) as [[a|x] s1]; cbn [snd] in *; [|exact Hm].
  destruct Hm as [H1 (r1 & Ev & F)].
  destruct (Hk a s1 H1) as [H2 (r2 & Ev' & F')].
  split; [exact H2|]. exists (r1 ++ r2)%list.
  split; [rewrite Ev', Ev; now rewrite app_assoc | now apply Forall_app].
Qed.

(** Reading the headers gives [h]. *)
Lemma sends_with_bind_headers (k : headers -> M B) :
  sends_with h (k h) -> sends_with h (bind (global headers_apis) k).
Proof.
  intros Hk s H. unfold bind, global. rewrite H. apply (Hk s H).
Qed.

Lemma sends_with_try_except (body : M A) (catches : exn -> bool)
    (handler : exn -> M A) :
  sends_with h body -> (forall x, sends_with h (handler x)) ->
  sends_with h (try_except body catches handler).
Proof.
  intros Hb Hh s H. unfold try_except. specialize (Hb s H).
  destruct (body s) as [[a|x] s1]; cbn [snd] in *; [exact Hb|].
  destruct (catches x); [|exact Hb].
  destruct Hb as [H1 (r1 & Ev & F)].
  destruct (Hh x s1 H1) as [H2 (r2 & Ev' & F')].
  split; [exact H2|]. exists (r1 ++ r2)%list.
  split; [rewrite Ev', Ev; now rewrite app_assoc | now apply Forall_app].
Qed.

End SendsWith.

Section SendsWithScript.

Variable server : request -> http_reply.
Variable h : headers.

Lemma sends_with_get_api_call (url : string) :
  sends_with h (get_api_call server url h).
Proof.
  intros s H. unfold get_api_call, try_except, bind, send, emit, modify.
  destruct (server _) as [|r]; cbn.
  - split; [exact H|]. eexists. split; [reflexivity|].
    repeat constructor.
  - unfold raise_for_status. destruct (error_status r); cbn;
      (split; [exact H|]); eexists; (split; [reflexivity|]);
      repeat constructor.
Qed.

Lemma sends_with_post_api_call (url : string) (body : json) :
  sends_with h (post_api_call server url h body).
Proof.
  intros s H. unfold post_api_call, try_except, bind, send, emit, modify.
  destruct (server _) as [|r]; cbn.
  - split; [exact H|]. eexists. split; [reflexivity|].
    repeat constructor.
  - unfold raise_for_status. destruct (error_status r); cbn;
      (split; [exact H|]); eexists; (split; [reflexivity|]);
      repeat constructor.
Qed.

Lemma sends_with_sleep (n : Z) : sends_with h (emit (Slept n)).
Proof.
  intros s H. cbn. split; [exact H|]. exists [Slept n].
  split; [reflexivity | repeat constructor].
Qed.

End SendsWithScript.

(** A step that sends nothing and leaves the headers alone. *)
Ltac silent_step :=
  apply sends_with_silent;
  [ unfold owner_organization, loads_content; repeat keeps_step
  | unfold owner_organization, loads_content; repeat keeps_step ].

(** One step through a function of the upload. *)
Ltac sends_with_step :=
  lazymatch goal with
  | |- sends_with _ (bind (global headers_apis) _) =>
      apply sends_with_bind_headers
  | |- sends_with _ (bind (get_api_call _ _ _) _) =>
      apply sends_with_bind; [apply sends_with_get_api_call | intros ?]
  | |- sends_with _ (bind (post_api_call _ _ _ _) _) =>
      apply sends_with_bind; [apply sends_with_post_api_call | intros ?]
  | |- sends_with _ (bind (emit (Slept _)) _) =>
      apply sends_with_bind; [apply sends_with_sleep | intros ?]
  | |- sends_with _ (bind _ _) =>
      apply sends_with_bind; [silent_step | intros ?]
  | |- sends_with _ (try_except _ _ _) =>
      apply sends_with_try_except; [|intros ?; silent_step]
  | |- sends_with _ (ret _) => silent_step
  end.

Section TokenInRequests.

Variable server : request -> http_reply.
Variable h : headers.

Lemma fill_organizations_keeps_headers (l : list json) :
  keeps headers_apis (fill_organizations l).
Proof.
  induction l as [|o r IH]; cbn [fill_organizations];
    repeat first [exact IH | keeps_step].
Qed.

Lemma fill_organizations_keeps_events (l : list json) :
  keeps events (fill_organizations l).
Proof.
  induction l as [|o r IH]; cbn [fill_organizations];
    repeat first [exact IH | keeps_step].
Qed.

Lemma sends_with_add_device (d : option pydict) :
  sends_with h (add_device server d).
Proof. unfold add_device. repeat sends_with_step. Qed.

Lemma sends_with_template_id : sends_with h (template_id server).
Proof.
  unfold template_id.
  repeat first
    [ apply sends_with_add_device
    | apply sends_with_bind;
      [apply sends_with_silent;
       [apply fill_organizations_keeps_headers
       | apply fill_organizations_keeps_events] | intros ?]
    | sends_with_step ].
Qed.

Lemma sends_with_registration_id : sends_with h (registration_id server).
Proof.
  unfold registration_id.
  repeat first [apply sends_with_template_id | sends_with_step].
Qed.

Lemma sends_with_get_organizations : sends_with h (get_organizations server).
Proof.
  unfold get_organizations.
  repeat first [apply sends_with_registration_id | sends_with_step].
Qed.

End TokenInRequests.

(** X18.  Once the login is accepted and its body holds a token, every
    request the run sends afterwards, whatever the platform answers to
    it, has the JSON content type and that token as its bearer; the
    login request itself has no bearer. *)
Theorem later_requests_carry_the_token (server : request -> http_reply)
    (username password environment : argval) (base : string)
    (token j : json) (s : state) :
  base_url_for environment = Some base ->
  accepts server (login_request username password base) j ->
  token_of j = Ok token ->
  bearer (rq_headers (login_request username password base)) = None /\
  exists rest,
    events (snd (define_apis server username password environment s))
    = (events s ++ Sent (login_request username password base) :: rest)%list /\
    Forall (carries (api_headers token)) rest.
Proof.
  intros B A T. split; [reflexivity|].
  rewrite (define_apis_enters_signin server username password base s
             environment B).
  assert (G : exists rest,
             events (snd (signin server (apis_defined username password base s)))
             = (events s ++ Sent (login_request username password base) :: rest)%list /\
             Forall (carries (api_headers token)) rest).
  { rewrite (signin_accepted server username password base token s j A T).
    destruct (sends_with_get_organizations server (api_headers token)
                (logged_in username password base token s) eq_refl)
      as [_ (rest & Ev & F)].
    exists rest. split; [|exact F]. unfold try_except.
    destruct (get_organizations server _) as [[u|x] s1]; cbn [snd] in *.
    - rewrite Ev. cbn [events logged_in set_headers_apis set_events].
      now rewrite <- app_assoc.
    - destruct (is_RequestException x); cbn; rewrite Ev;
        cbn [events logged_in set_headers_apis set_events];
        now rewrite <- app_assoc. }
  destruct G as (rest & Ev & F). exists rest. split; [|exact F].
  unfold try_except.
  destruct (signin server (apis_defined username password base s))
    as [[u|x] s1]; cbn [snd] in *; [exact Ev|].
  destruct (is_Exception x); cbn; exact Ev.
Qed.

Lemma later_requests_carry_the_token_witness :
  exists rest,
    events (snd (define_apis (platform acme code_created) (AStr "user")
                   (AStr "secret") (AStr "production")
                   (initial_state Sample.disk_with_out)))
    = Sent (login_request (AStr "user") (AStr "secret") URL_PROD) :: rest /\
    Forall (carries (api_headers (JStr "jwt"))) rest.
Proof.
  apply (proj2 (later_requests_carry_the_token (platform acme code_created)
                  (AStr "user") (AStr "secret") (AStr "production") URL_PROD
                  (JStr "jwt")
                  (JObj [("accessJwt", JObj [("token", JStr "jwt")])])
                  (initial_state Sample.disk_with_out) eq_refl
                  (ex_intro _ (mkResponse 200
                                 (Some (JObj [("accessJwt",
                                               JObj [("token", JStr "jwt")])])))
                     (conj eq_refl (conj eq_refl eq_refl)))
                  eq_refl)).
Defined.

(** * Where exceptions stop *)

(** ** The functions that catch every [Exception] *)

Section Boundaries.

Variable ospath : os_path.
Variable today : date.
Variable server : request -> http_reply.

Lemma format_filename_returns (data : option pydict) :
  returns_with [1] (format_filename today data).
Proof.
  intros s. destruct data as [d|]; do 2 eexists; (split; [reflexivity|]).
  - left. reflexivity.
  - right. left. reflexivity.
Qed.

Lemma generate_json_returns (data : option pydict) (path : string) :
  returns_with [4] (generate_json ospath data path).
Proof.
  intros s. destruct data as [d|].
  - rewrite generate_json_dict. destruct (can_open ospath (disk s) path);
      do 2 eexists; (split; [reflexivity|]);
      [left | right; left]; reflexivity.
  - do 2 eexists. split; [reflexivity|]. right. left. reflexivity.
Qed.

Lemma manage_data_json_returns_with (data : option pydict) (dir : argval) :
  returns_with [3; 4] (manage_data_json ospath today data dir).
Proof.
  intros s. destruct data as [d|].
  - rewrite manage_data_json_dict. destruct dir as [|dir].
    + do 2 eexists. split; [reflexivity|]. right. left. reflexivity.
    + cbv zeta. destruct (can_open ospath (disk s) _);
        do 2 eexists; (split; [reflexivity|]);
        [left | right; right; left]; reflexivity.
  - destruct dir; do 2 eexists; (split; [reflexivity|]);
      right; left; reflexivity.
Qed.

Lemma log_to_json_returns (data : option pydict) (path : string) :
  returns_with [2] (log_to_json ospath data path).
Proof.
  intros s. unfold log_to_json, try_except, bind, makedirs.
  destruct (String.eqb (path_dirname ospath path) "").
  - do 2 eexists. split; [reflexivity|]. right. left. reflexivity.
  - destruct (makedirs_from ospath _ (path_dirname ospath path) (disk s))
      as [[[]|e] fs1] eqn:C.
    + unfold append_file. destruct (can_open ospath _ path);
        do 2 eexists; (split; [reflexivity|]);
        [left | right; left]; reflexivity.
    + destruct (makedirs_from_spec _ _ _ _ _ _ C) as (_ & _ & _ & _ & R).
      rewrite (R e eq_refl).
      do 2 eexists. split; [reflexivity|]. right. left. reflexivity.
Qed.

Lemma parsed_object_to_dict_returns (parsed : option pydict) :
  returns_with [7] (parsed_object_to_dict parsed).
Proof.
  intros s. destruct parsed; do 2 eexists; (split; [reflexivity|]);
    [left | right; left]; reflexivity.
Qed.

Lemma get_api_call_returns (url : string) (h : headers) :
  returns_with [8] (get_api_call server url h).
Proof.
  intros s. unfold get_api_call, try_except, send, bind, emit, modify.
  destruct (server _) as [|r]; cbn.
  - do 2 eexists. split; [reflexivity|]. right. left. reflexivity.
  - unfold raise_for_status. destruct (error_status r); cbn;
      do 2 eexists; (split; [reflexivity|]);
      [right; left | left]; reflexivity.
Qed.

Lemma post_api_call_returns (url : string) (h : headers) (body : json) :
  returns_with [9] (post_api_call server url h body).
Proof.
  intros s. unfold post_api_call, try_except, send, bind, emit, modify.
  destruct (server _) as [|r]; cbn.
  - do 2 eexists. split; [reflexivity|]. right. left. reflexivity.
  - unfold raise_for_status. destruct (error_status r); cbn;
      do 2 eexists; (split; [reflexivity|]);
      [right; left | left]; reflexivity.
Qed.

(** ** The functions that catch the exceptions of [requests] only *)

(** What leaves [try: ... except RequestException: EXECUTION_STATUS = n]
    is not an exception of [requests]. *)
Lemma try_except_status_raises (body : M unit) (n : Z) (s s' : state)
    (e : exn) :
  try_except body is_RequestException (fun _ => set_status n) s = (Raise e, s') ->
  is_RequestException e = false.
Proof.
  unfold try_except. destruct (body s) as [[a|x] s1]; [discriminate|].
  destruct (is_RequestException x) eqn:C; [discriminate|].
  now intros [= <- <-].
Qed.

Lemma lets_others_through_handler (body : M unit) (n : Z) :
  quiet (try_except body is_RequestException (fun _ => set_status n)) ->
  lets_others_through
    (try_except body is_RequestException (fun _ => set_status n)).
Proof.
  intros Q s e s' H. split.
  - exact (try_except_status_raises body n s s' e H).
  - destruct (Q s) as [_ N]. rewrite H in N. exact N.
Qed.

Lemma lets_others_through_add_device (d : option pydict) :
  lets_others_through (add_device server d).
Proof. apply lets_others_through_handler, quiet_add_device. Qed.

Lemma lets_others_through_template_id : lets_others_through (template_id server).
Proof. apply lets_others_through_handler, quiet_template_id. Qed.

Lemma lets_others_through_registration_id :
  lets_others_through (registration_id server).
Proof. apply lets_others_through_handler, quiet_registration_id. Qed.

Lemma lets_others_through_get_organizations :
  lets_others_through (get_organizations server).
Proof. apply lets_others_through_handler, quiet_get_organizations. Qed.

Lemma lets_others_through_signin : lets_others_through (signin server).
Proof. apply lets_others_through_handler, quiet_signin. Qed.

(** ** The handler of [define_apis] *)

(** What [define_apis] makes of [signin]: its result when it returns, and
    when it raises, the exception printed and the status 10. *)
Lemma define_apis_handler (username password environment : argval)
    (base : string) (s : state) :
  base_url_for environment = Some base ->
  match signin server (apis_defined username password base s) with
  | (Ok _, s1) =>
      define_apis server username password environment s = (Ok tt, s1)
  | (Raise e, s1) =>
      define_apis server username password environment s
      = (Ok tt,
         set_EXECUTION_STATUS 10 (set_stdout (stdout s1 ++ [Message e]) s1))
  end.
Proof.
  intros B.
  rewrite (define_apis_enters_signin server username password base s
             environment B).
  unfold try_except.
  pose proof (quiet_signin server (apis_defined username password base s)) as Q.
  destruct (signin server (apis_defined username password base s))
    as [[[]|e] s1]; [reflexivity|].
  destruct Q as [_ N]. cbn in N. rewrite N. reflexivity.
Qed.

End Boundaries.

(** ** What leaves [main] *)

(** C3, as the script behaves.  The file helpers, [parsed_object_to_dict],
    [get_api_call] and [post_api_call] catch every [Exception] themselves:
    they always return, with the status as it was or at their own code
    (for [manage_data_json], its own or the one of [generate_json]).  The
    functions of the upload, from [signin] to [add_device], catch the
    exceptions of [requests] only: what leaves them is another
    [Exception].  [define_apis] catches it: when [signin] raises,
    [define_apis] prints the exception, records 10 and returns, and it
    does the same when the environment selects no base url.  On a command
    line whose serial number is converted, [main] returns and the
    interpreter exits with code 0, whatever the status; when [argparse]
    stops the process, its [SystemExit] passes [parse_arguments] and
    [main], the exit code is the one of [argparse], and by then nothing
    was sent and the disk is as it was. *)
Theorem only_argparse_exit_leaves_main (ospath : os_path) (today : date)
    (argv : command_line) (server : request -> http_reply)
    (fs : filesystem) :
  let o := program ospath today argv server fs in
  (forall data, returns_with [1] (format_filename today data)) /\
  (forall data path, returns_with [2] (log_to_json ospath data path)) /\
  (forall data path, returns_with [4] (generate_json ospath data path)) /\
  (forall data dir, returns_with [3; 4] (manage_data_json ospath today data dir)) /\
  (forall parsed, returns_with [7] (parsed_object_to_dict parsed)) /\
  (forall url h, returns_with [8] (get_api_call server url h)) /\
  (forall url h body, returns_with [9] (post_api_call server url h body)) /\
  lets_others_through (signin server) /\
  lets_others_through (get_organizations server) /\
  lets_others_through (registration_id server) /\
  lets_others_through (template_id server) /\
  (forall d, lets_others_through (add_device server d)) /\
  (forall username password environment s,
     match base_url_for environment with
     | Some base =>
         match signin server (apis_defined username password base s) with
         | (Ok _, s1) =>
             define_apis server username password environment s = (Ok tt, s1)
         | (Raise e, s1) =>
             define_apis server username password environment s
             = (Ok tt,
                set_EXECUTION_STATUS 10
                  (set_stdout (stdout s1 ++ [Message e]) s1))
         end
     | None =>
         exists s',
           define_apis server username password environment s = (Ok tt, s') /\
           EXECUTION_STATUS s' = 10 /\
           stdout s' = (stdout s ++ [Message UnboundLocalError])%list /\
           events s' = events s
     end) /\
  (serial_converts argv ->
   match argv with
   | Flags _ _ _ _ _ _ _ _ _ =>
       (exists path,
          fst (main ospath today argv server (initial_state fs)) = Ok path) /\
       exit_code o = 0
   | ArgparseExit code =>
       (forall s, fst (parse_arguments argv s) = Raise (SystemExit code)) /\
       fst (main ospath today argv server (initial_state fs))
       = Raise (SystemExit code) /\
       exit_code o = code /\ events (final o) = [] /\ disk (final o) = fs
   | ArgparseHelp _ =>
       (forall s, fst (parse_arguments argv s) = Raise (SystemExit 0)) /\
       fst (main ospath today argv server (initial_state fs))
       = Raise (SystemExit 0) /\
       exit_code o = 0 /\ events (final o) = [] /\ disk (final o) = fs
   end).
Proof.
  intros o.
  split; [intros; apply format_filename_returns|].
  split; [intros; apply log_to_json_returns|].
  split; [intros; apply generate_json_returns|].
  split; [intros; apply manage_data_json_returns_with|].
  split; [intros; apply parsed_object_to_dict_returns|].
  split; [intros; apply get_api_call_returns|].
  split; [intros; apply post_api_call_returns|].
  split; [apply lets_others_through_signin|].
  split; [apply lets_others_through_get_organizations|].
  split; [apply lets_others_through_registration_id|].
  split; [apply lets_others_through_template_id|].
  split; [intros; apply lets_others_through_add_device|].
  split.
  { intros username password environment s.
    destruct (base_url_for environment) as [base|] eqn:B.
    - now apply define_apis_handler.
    - rewrite (define_apis_unknown_environment server) by exact B.
      eexists. split; [reflexivity|]. repeat split. }
  subst o. unfold program.
  destruct argv as [c | text | env user password sn org rc description version output];
    intros A.
  - repeat split.
  - repeat split.
  - cbn [serial_converts] in A.
    destruct (check_serial_number_returns sn (initial_state fs) A)
      as (s1 & E & _).
    destruct (main_accepted ospath today server fs env user password sn org rc
                description version output s1 E) as (s3 & _ & _ & Hm).
    destruct (manage_data_json_returns ospath today
                (namespace env user password sn org rc description version
                   output)
                (match output with Some o => AStr o | None => ANone end) s3)
      as (path & s' & R).
    rewrite Hm, R. split; [exists path|]; reflexivity.
Qed.

Lemma only_argparse_exit_leaves_main_witness :
  exit_code (program PosixPath.posix Sample.june_first
               (Sample.flags "1234567890" (Some "out")) Sample.refusing
               Sample.disk_with_out) = 0.
Proof.
  assert (A : serial_converts (Sample.flags "1234567890" (Some "out")))
    by (intros s; reflexivity).
  pose proof (only_argparse_exit_leaves_main PosixPath.posix Sample.june_first
                (Sample.flags "1234567890" (Some "out")) Sample.refusing
                Sample.disk_with_out) as W.
  cbv zeta in W. do 13 (destruct W as [_ W]).
  exact (proj2 (W A)).
Defined.

(** C3, as stated, fails.  The [KeyError] raised in [signin] for a login
    body without token is not caught at the boundary of [signin]: it
    leaves the function.  And on a command line that [argparse] refuses,
    the [SystemExit] of [argparse] leaves [main] and reaches the process
    level, where it sets the exit code. *)
Lemma exceptions_cross_function_boundaries :
  let server := Sample.answering (JObj []) in
  let fs := Sample.disk_with_out in
  fst (signin server
         (apis_defined (AStr "user") (AStr "secret") URL_PROD (initial_state fs)))
  = Raise KeyError /\
  fst (main PosixPath.posix Sample.june_first (ArgparseExit 2) server
         (initial_state fs)) = Raise (SystemExit 2) /\
  exit_code (program PosixPath.posix Sample.june_first (ArgparseExit 2)
               server fs) = 2.
Proof. cbv zeta. repeat split. Qed.

(** * A login that fails *)

Section AfterTheLogin.

Variable server : request -> http_reply.

(** Whatever becomes of a query, it is the first thing sent, and what
    follows it is added after it. *)
Lemma get_api_call_first {B} (url : string) (h : headers)
    (k : option response -> M B) (s : state) :
  headers_apis s = Some h ->
  (forall r, sends_with h (k r)) ->
  exists rest,
    events (snd (bind (get_api_call server url h) k s))
    = (events s ++ Sent (mkRequest GET url h None) :: rest)%list.
Proof.
  intros Hh Hk.
  destruct (get_api_call_returns server url h s) as (r & s1 & E & _).
  assert (E1 : events s1 = (events s ++ [Sent (mkRequest GET url h None)])%list /\
               headers_apis s1 = Some h).
  { revert E. unfold get_api_call, try_except, send, bind, emit, modify.
    destruct (server _) as [|r']; cbn.
    - intros [= <- <-]. split; [reflexivity | exact Hh].
    - unfold raise_for_status. destruct (error_status r'); cbn;
        intros [= <- <-]; (split; [reflexivity | exact Hh]). }
  destruct E1 as [Ev Hh1]. unfold bind. rewrite E.
  destruct (Hk r s1 Hh1) as [_ (added & Ev' & _)].
  exists added. rewrite Ev', Ev, <- app_assoc. reflexivity.
Qed.

(** [get_organizations] with the token in place starts with its query. *)
Lemma get_organizations_asks (a : endpoints) (h : headers) (s : state) :
  apis s = Some a ->
  headers_apis s = Some h ->
  exists rest,
    events (snd (get_organizations server s))
    = (events s ++
       Sent (mkRequest GET (api_get_organizations a) h None) :: rest)%list.
Proof.
  intros Ha Hh. unfold get_organizations, try_except.
  unfold bind at 1, global at 1. rewrite Ha.
  unfold bind at 1, global at 1. rewrite Hh.
  match goal with
  | |- context [bind (get_api_call server ?url h) ?k s] =>
      destruct (get_api_call_first url h k s Hh) as (rest & Ev);
      [|exists rest; destruct (bind (get_api_call server url h) k s)
                       as [[u|x] s2]; cbn [snd] in *;
          [exact Ev | destruct (is_RequestException x); exact Ev]]
  end.
  intros r.
  repeat first [apply sends_with_registration_id | sends_with_step].
Qed.

(** A login that is accepted and yields a token is followed by the query
    of the organizations, with that token. *)
Lemma define_apis_goes_on (username password environment : argval)
    (base : string) (token j : json) (s : state) :
  base_url_for environment = Some base ->
  accepts server (login_request username password base) j ->
  token_of j = Ok token ->
  exists rest,
    events (snd (define_apis server username password environment s))
    = (events s ++
       Sent (login_request username password base)
       :: Sent (query (api_get_organizations (make_endpoints base)) token)
       :: rest)%list.
Proof.
  intros B A T.
  pose proof (define_apis_handler server username password environment base s B)
    as D.
  rewrite (signin_accepted server username password base token s j A T) in D.
  destruct (get_organizations_asks (make_endpoints base) (api_headers token)
              (logged_in username password base token s) eq_refl eq_refl)
    as (rest & Ev).
  exists rest. unfold try_except in D.
  destruct (get_organizations server (logged_in username password base token s))
    as [[[]|x] s2]; cbn [snd] in Ev.
  - rewrite D. cbn [snd]. rewrite Ev.
    cbn [events logged_in set_headers_apis set_events].
    now rewrite <- app_assoc.
  - destruct (is_RequestException x); rewrite D; cbn; rewrite Ev;
      cbn [events logged_in set_headers_apis set_events];
      now rewrite <- app_assoc.
Qed.

End AfterTheLogin.

(** C4, as the script behaves.  [raise_for_status] raises for the codes
    400 to 599 and for no other.  After [define_apis] has run: when the
    login got no response, a response with such a code, or an accepted
    response whose body is not JSON, the status is 11; when the accepted
    response has a JSON body from which the token cannot be taken, the
    exception leaves [signin], and [define_apis] prints it and records
    10; in all these cases the login request is the only request that was
    sent.  When the response is accepted, whatever its code, and its body
    holds the token, the login has not failed: the query of the
    organizations follows it. *)
Theorem login_failure_status (server : request -> http_reply)
    (username password environment : argval) (base : string) (s : state) :
  base_url_for environment = Some base ->
  let rq := login_request username password base in
  let failed (n : Z) (s' : state) :=
    define_apis server username password environment s = (Ok tt, s') /\
    EXECUTION_STATUS s' = n /\
    events s' = (events s ++ [Sent rq])%list in
  (forall r, error_status r = true <-> 400 <= status_code r <= 599) /\
  match server rq with
  | NoReply => exists s', failed 11 s'
  | Reply r =>
      if error_status r then exists s', failed 11 s'
      else
        match content r with
        | None => exists s', failed 11 s'
        | Some j =>
            match token_of j with
            | Raise e =>
                exists s',
                  failed 10 s' /\
                  stdout s' = (stdout s ++ [Message e])%list
            | Ok token =>
                exists rest,
                  events (snd (define_apis server username password
                                 environment s))
                  = (events s ++
                     Sent rq
                     :: Sent (query (api_get_organizations (make_endpoints base))
                                token)
                     :: rest)%list
            end
        end
  end.
Proof.
  intros B rq failed. split; [exact error_status_codes|]. subst failed.
  pose proof (define_apis_login_refused server username password base s
                environment B) as R.
  destruct (server rq) as [|r] eqn:H.
  - eexists. split; [apply R; left; exact H|]. split; reflexivity.
  - destruct (error_status r) eqn:E.
    + eexists. split; [apply R; right; exists r; auto|]. split; reflexivity.
    + destruct (content r) as [j|] eqn:C.
      * destruct (token_of j) as [token|e] eqn:T.
        -- apply (define_apis_goes_on server username password environment
                    base token j s B); [|exact T].
           exists r. auto.
        -- eexists. split; [split|].
           ++ apply (define_apis_no_token server username password base s
                       environment B r j e H E C T).
           ++ split; reflexivity.
           ++ reflexivity.
      * eexists. split; [apply R; right; exists r; auto|]. split; reflexivity.
Qed.

Lemma login_failure_status_witness :
  exists s',
    define_apis (Sample.answering (JObj [])) (AStr "user") (AStr "secret")
      (AStr "production") (initial_state Sample.disk_with_out) = (Ok tt, s') /\
    EXECUTION_STATUS s' = 10 /\
    events s' = [Sent (login_request (AStr "user") (AStr "secret") URL_PROD)].
Proof.
  destruct (proj2 (login_failure_status (Sample.answering (JObj []))
                     (AStr "user") (AStr "secret") (AStr "production") URL_PROD
                     (initial_state Sample.disk_with_out) eq_refl))
    as (s' & F & _).
  exists s'. exact F.
Defined.

(** C4, as stated, fails, twice.  A login that is accepted with the JSON
    object without members as its body: the token is missing, and the
    status after [define_apis], as at the end of the run, is 10 and not
    11.  And a login answered with the status 300, which is not a 2xx
    status, and a body that holds a token: the status is not 11 either,
    and the run goes on with the other requests. *)
Lemma login_failure_without_status_11 :
  let fs := Sample.disk_with_out in
  let no_token := Sample.answering (JObj []) in
  let o := program PosixPath.posix Sample.june_first
             (Sample.flags "1234567890" (Some "out")) no_token fs in
  let o' := program PosixPath.posix Sample.june_first
              (Sample.flags "1234567890" (Some "out")) (unusual_login 300) fs in
  (token_of (JObj []) = Raise KeyError /\
   EXECUTION_STATUS
     (snd (define_apis no_token (AStr "user") (AStr "secret")
             (AStr "production") (initial_state fs))) = 10 /\
   EXECUTION_STATUS (final o) = 10) /\
  (unusual_login 300 (login_request (AStr "user") (AStr "secret") URL_PROD)
   = Reply (mkResponse 300
              (Some (JObj [("accessJwt", JObj [("token", JStr "jwt")])]))) /\
   ~ (200 <= 300 <= 299) /\
   map step_of (events (final o')) = workflow (make_endpoints URL_PROD) /\
   EXECUTION_STATUS (final o') = 0).
Proof.
  cbv zeta. split.
  - repeat split; vm_compute; reflexivity.
  - split; [reflexivity|]. split; [lia|]. split; vm_compute; reflexivity.
Qed.

(** * When Step A fails *)

Lemma try_except_passes {A} (m : M A) (catches : exn -> bool)
    (handler : exn -> M A) (s s' : state) (r : result A) :
  m s = (r, s') ->
  (forall x, r = Raise x -> catches x = false) ->
  try_except m catches handler s = (r, s').
Proof.
  intros H N. unfold try_except. rewrite H. destruct r as [a|x]; [reflexivity|].
  now rewrite (N x eq_refl).
Qed.

Section ReachingStepA.

Variable server : request -> http_reply.
Variables username password : argval.
Variable base : string.
Variable d : pydict.
Variable s : state.
Variables token listing code_listing view : json.
Variables code_template device_template : json.
Variable items : list json.
Variable dic : list (json * json).

Local Abbreviation e := (make_endpoints base).
Local Abbreviation owner :=
  (dic_get dic (json_of_argval (field d "Organization"))).
Local Abbreviation step_a :=
  (code_request base token owner (json_of_argval (field d "RegistrationCode"))
     code_template).
Local Abbreviation ready :=
  (ready_for_step_a username password base token listing code_template
     device_template dic s).
Local Abbreviation before :=
  [Sent (login_request username password base);
   Sent (query (api_get_organizations e) token);
   Sent (query (api_get_template_registration_code e) token);
   Sent (query (api_get_template_onasport_device e) token)].

Hypothesis data_set : data s = Some (Some d).
Hypothesis login_accepted :
  exists j, accepts server (login_request username password base) j /\
            token_of j = Ok token.
Hypothesis organizations_listed :
  accepts server (query (api_get_organizations e) token) listing.
Hypothesis organizations_read : listed_organizations listing = Ok items.
Hypothesis organizations_filled :
  filled items (ORGANIZATIONS_DIC s) = (Ok tt, dic).
Hypothesis code_templates_listed :
  accepts server (query (api_get_template_registration_code e) token)
    code_listing.
Hypothesis code_template_read : first_template code_listing = Ok code_template.
Hypothesis device_template_shown :
  accepts server (query (api_get_template_onasport_device e) token) view.
Hypothesis device_template_read : device_template_of view = Ok device_template.

(** The login and the three queries go through: [signin] ends the way
    [add_device] ends, in the same state. *)
Lemma signin_ends_as_add_device (r : result unit) (s5 : state) :
  add_device server (Some d) ready = (r, s5) ->
  signin server (apis_defined username password base s) = (r, s5).
Proof.
  intros H.
  assert (N : forall x, r = Raise x -> is_RequestException x = false).
  { intros x ->. apply (lets_others_through_add_device server _ _ _ _ H). }
  destruct login_accepted as (j & LA & LT).
  unfold ready_for_step_a in H. cbv zeta in H.
  pose (s1 := logged_in username password base token s).
  pose (s2 := set_response_json_list_organizations (Some listing)
                (set_events
                   (events s1 ++ [Sent (query (api_get_organizations e) token)])
                   s1)).
  pose (s3 := set_template_id_registration_code (Some code_template)
                (set_events
                   (events s2 ++
                    [Sent (query (api_get_template_registration_code e) token)])
                   s2)).
  rewrite (signin_accepted server username password base token s j LA LT).
  apply try_except_passes; [|exact N].
  change (get_organizations server s1 = (r, s5)).
  rewrite (get_organizations_accepted server e token s1 eq_refl eq_refl
             listing organizations_listed).
  apply try_except_passes; [|exact N].
  change (registration_id server s2 = (r, s5)).
  rewrite (registration_id_accepted server e token s2 eq_refl eq_refl
             code_listing code_template code_templates_listed
             code_template_read).
  apply try_except_passes; [|exact N].
  change (template_id server s3 = (r, s5)).
  rewrite (template_id_accepted server e token s3 eq_refl eq_refl view
             device_template listing items dic (Some d)
             device_template_shown device_template_read eq_refl
             organizations_read organizations_filled data_set).
  apply try_except_passes; [exact H | exact N].
Qed.

Lemma events_ready : events ready = (events s ++ before)%list.
Proof.
  unfold ready_for_step_a.
  cbn [events set_ORGANIZATIONS_DIC set_onasport_device_template_id
       set_events set_template_id_registration_code
       set_response_json_list_organizations logged_in set_headers_apis
       apis_defined set_apis set_payload set_headers_login].
  rewrite <- !app_assoc. reflexivity.
Qed.

Variable environment : argval.
Hypothesis known_environment : base_url_for environment = Some base.

(** Step A fails: the exception leaves every function up to
    [define_apis], which prints it and records 10; Step A is the last
    event. *)
Lemma define_apis_step_a_fails :
  step_a_fails server step_a ->
  exists x s',
    define_apis server username password environment s = (Ok tt, s') /\
    events s' = (events s ++ before ++ [Sent step_a])%list /\
    EXECUTION_STATUS s' = 10 /\
    stdout s' = (stdout s ++ [Message x])%list /\
    disk s' = disk s.
Proof.
  intros F.
  assert (A : exists x s5,
            add_device server (Some d) ready = (Raise x, s5) /\
            events s5 = (events ready ++ [Sent step_a])%list /\
            stdout s5 = stdout s /\ disk s5 = disk s).
  { destruct F as [R | (r & H & E & C)].
    - exists AttributeError. eexists. split.
      + apply (add_device_step_a_fails server e (api_headers token)
                 code_template d ready eq_refl eq_refl eq_refl R).
      + repeat split.
    - destruct (add_device_step_a_without_id server e (api_headers token)
                  code_template d ready eq_refl eq_refl eq_refl r H E C)
        as (x & R).
      exists x. eexists. split; [exact R|]. repeat split. }
  destruct A as (x & s5 & R & Ev & So & Dk).
  pose proof (define_apis_handler server username password environment base s
                known_environment) as D.
  rewrite (signin_ends_as_add_device _ _ R) in D.
  exists x. eexists. split; [exact D|].
  cbn [events stdout disk EXECUTION_STATUS set_EXECUTION_STATUS set_stdout].
  rewrite Ev, events_ready, So, <- app_assoc. auto.
Qed.

(** Step A succeeds: the delay and Step B follow it. *)
Lemma define_apis_step_a_succeeds (created id : json) :
  accepts server step_a created ->
  getitem created "_id" = Ok id ->
  exists s',
    define_apis server username password environment s = (Ok tt, s') /\
    events s' =
      (events s ++ before ++
       [Sent step_a; Slept 1;
        Sent (device_creation_request base token owner id
                (json_of_argval (field d "SerialNumber"))
                (json_of_argval (field d "Description"))
                (json_of_argval (field d "Version")) device_template)])%list.
Proof.
  intros (r & H & E & C) G.
  destruct (add_device_after_step_a server e (api_headers token) code_template
              device_template d ready eq_refl eq_refl eq_refl eq_refl
              r created id H E C G) as (s' & R & Ev & _).
  pose proof (define_apis_handler server username password environment base s
                known_environment) as D.
  rewrite (signin_ends_as_add_device _ _ R) in D.
  exists s'. split; [exact D|].
  rewrite Ev, events_ready, <- app_assoc. reflexivity.
Qed.

End ReachingStepA.

(** The end of a run whose serial number is well formed: [define_apis]
    returns, and the run adds no event to its events, prints after what
    it printed and, where the traceability file can be opened, records
    the status it left. *)
Lemma run_ends_after_upload (ospath : os_path) (today : date)
    (server : request -> http_reply) (fs : filesystem)
    (env user password sn org rc description version : string)
    (output : option string) :
  well_formed_serial sn ->
  let o := program ospath today
             (Flags env user password sn org rc description version output)
             server fs in
  exists s3,
    define_apis server (AStr user) (AStr password) (AStr env)
      (before_upload
         (namespace env user password sn org rc description version output)
         (match output with Some dir => AStr dir | None => ANone end)
         (initial_state fs)) = (Ok tt, s3) /\
    events (final o) = events s3 /\
    (exists printed, stdout (final o) = (stdout s3 ++ printed)%list) /\
    forall dir,
      output = Some dir ->
      can_open ospath fs (traceability_path ospath today sn dir) = true ->
      EXECUTION_STATUS (final o) = EXECUTION_STATUS s3 /\
      file_content (disk (final o)) (traceability_path ospath today sn dir)
      = Some (JsonText.dump_content (AStr sn) (EXECUTION_STATUS s3)).
Proof.
  intros W o.
  pose proof (check_serial_number_well_formed sn (initial_state fs) W) as E.
  destruct (main_accepted ospath today server fs env user password sn org rc
              description version output _ E) as (s3 & Hd & U & Hm).
  cbn [initial_state EXECUTION_STATUS Z.eqb] in Hd.
  exists s3. split; [exact Hd|].
  destruct U as (Dk & _).
  cbn [disk before_upload set_output_directory set_data initial_state] in Dk.
  subst o. unfold program. rewrite Hm, manage_data_json_dict.
  change (filename_of today _) with (sn ++ "_" ++ DATE today ++ ".json").
  change (serial_of _) with (AStr sn).
  destruct output as [dir|]; cbv zeta.
  - fold (traceability_path ospath today sn dir). rewrite Dk.
    destruct (can_open ospath fs (traceability_path ospath today sn dir)) eqn:C.
    + split; [reflexivity|]. split; [eexists; reflexivity|].
      intros dir' [= <-] _.
      cbn [final EXECUTION_STATUS set_stdout set_disk disk put_file file_content].
      rewrite String.eqb_refl. auto.
    + split; [reflexivity|]. split; [eexists; reflexivity|].
      intros dir' [= <-] C'. congruence.
  - split; [reflexivity|]. split; [eexists; reflexivity|]. intros dir' [=].
Qed.



